(** * DS18B20 one-wire temperature sensor driver (ds18b20.c)

    A shallow embedding of the driver's protocol engine: addressing,
    scratchpad transfer with CRC gate, resolution management, conversion
    wait loop and temperature decoding.  The one-wire bus and the RTOS tick
    counter are the driver's environment; they are modelled as oracles that
    answer from the history of the bus, and every driver function is a state
    transformer over that history. *)

From Stdlib Require Import ZArith QArith List Bool Lia.
From Stdlib Require Import Floats.SpecFloat.
Import ListNotations.
Local Open Scope Z_scope.

(** ** Machine integers *)

Definition to_uint8 (z : Z) : Z := z mod 256.
Definition to_uint32 (z : Z) : Z := z mod 2 ^ 32.

(** Conversion of an [int] to [int16_t]: wrap-around to the signed range. *)
Definition to_int16 (z : Z) : Z :=
  let u := z mod 65536 in if u <? 32768 then u else u - 65536.

Definition is_uint8 (z : Z) : Prop := 0 <= z < 256.

(** ** Floating point: IEEE 754 binary32 ([float]) and binary64 ([double]) *)

Module F32.
Definition prec : Z := 24.
Definition emax : Z := 128.
Definition of_Z (z : Z) : spec_float := binary_normalize prec emax z 0 false.
Definition div : spec_float -> spec_float -> spec_float := SFdiv prec emax.
(** Rounding of a wider value to [float]. *)
Definition round (x : spec_float) : spec_float :=
  match x with
  | S754_finite s m e => binary_round prec emax s m e
  | _ => x
  end.
End F32.

Module F64.
Definition prec : Z := 53.
Definition emax : Z := 1024.
Definition of_Z (z : Z) : spec_float := binary_normalize prec emax z 0 false.
Definition div : spec_float -> spec_float -> spec_float := SFdiv prec emax.
Definition mul : spec_float -> spec_float -> spec_float := SFmul prec emax.
(** Promotion of a [float] to [double]: exact, the mantissa is realigned. *)
Definition of_float (x : spec_float) : spec_float :=
  match x with
  | S754_finite s m e => binary_round prec emax s m e
  | _ => x
  end.
(** The literal [1.1]: the double nearest to 11/10. *)
Definition lit_1_1 : spec_float :=
  S754_finite false 4953959590107546 (-52).
End F64.

(** The rational number a float stands for; none for infinities and NaN. *)
Definition SF2Q (x : spec_float) : option Q :=
  match x with
  | S754_zero _ => Some (0 # 1)
  | S754_finite s m e =>
      let v := if s then Z.neg m else Z.pos m in
      Some (if 0 <=? e then (v * 2 ^ e) # 1 else v # Z.to_pos (2 ^ (- e)))
  | _ => None
  end.

(** [x] is a number and stands for exactly [q]. *)
Definition SF_is (x : spec_float) (q : Q) : bool :=
  match SF2Q x with
  | Some v => Qeq_bool v q
  | None => false
  end.

(** [(int) ceil(x)] for a finite [x]; the conversion of an infinity or a
    NaN to [int] has no defined result in C and is rendered as 0 here. *)
Definition ceil_to_int (x : spec_float) : Z :=
  match x with
  | S754_finite s m e =>
      let v := if s then Z.neg m else Z.pos m in
      if 0 <=? e then v * 2 ^ e else - ((- v) / 2 ^ (- e))
  | _ => 0
  end.

(** ** Declarations of ds18b20.h *)

(** Modelled from the spec: the enumeration DS18B20_RESOLUTION is declared in
    ds18b20.h, which is not among the sources.  The spec names the
    resolutions 9, 10, 11 and 12 bit and an explicit invalid/unknown marker;
    the enumeration is an [int], so a variable of this type can hold any
    integer. *)
Definition DS18B20_RESOLUTION := Z.
Definition DS18B20_RESOLUTION_INVALID : DS18B20_RESOLUTION := -1.
Definition DS18B20_RESOLUTION_9_BIT : DS18B20_RESOLUTION := 9.
Definition DS18B20_RESOLUTION_10_BIT : DS18B20_RESOLUTION := 10.
Definition DS18B20_RESOLUTION_11_BIT : DS18B20_RESOLUTION := 11.
Definition DS18B20_RESOLUTION_12_BIT : DS18B20_RESOLUTION := 12.

Definition _check_resolution (resolution : DS18B20_RESOLUTION) : bool :=
  (DS18B20_RESOLUTION_9_BIT <=? resolution) && (resolution <=? DS18B20_RESOLUTION_12_BIT).

(** ** The one-wire bus collaborator (owb.h) *)

Definition OWB_ROM_MATCH : Z := 0x55.
Definition OWB_ROM_SKIP : Z := 0xCC.

Inductive owb_status := OWB_STATUS_OK | OWB_STATUS_ERROR.

Definition owb_status_eqb (a b : owb_status) : bool :=
  match a, b with
  | OWB_STATUS_OK, OWB_STATUS_OK | OWB_STATUS_ERROR, OWB_STATUS_ERROR => true
  | _, _ => false
  end.

(** A ROM code is the 8 bytes of the 64-bit identity, in transmission order. *)
Definition OneWireBus_ROMCode := list Z.

(** What happened on the wire, in chronological order. *)
Inductive owb_event :=
| EvReset (present : bool)
| EvWriteByte (data : Z)
| EvWriteBytes (data : list Z)
| EvWriteRomCode (rom_code : OneWireBus_ROMCode)
| EvReadBytes (count : Z) (data : list Z)
| EvReadBit (bit : Z).

(** A bus with the devices on it is any function from the history of the
    wire to the next answer. *)
Record OneWireBus := {
  reset_presence : list owb_event -> bool;
  write_byte_status : list owb_event -> Z -> owb_status;
  write_bytes_status : list owb_event -> list Z -> owb_status;
  write_rom_code_status : list owb_event -> OneWireBus_ROMCode -> owb_status;
  read_bytes_reply : list owb_event -> Z -> owb_status * list Z;
  read_bit_reply : list owb_event -> owb_status * Z
}.

(** Modelled from the spec: [owb_crc8_bytes] belongs to the bus collaborator;
    the spec fixes it as CRC-8/MAXIM, polynomial 0x31 reflected (0x8C), with
    the seed given by the caller. *)
Definition crc8_shift (crc : Z) : Z :=
  if Z.testbit crc 0 then Z.lxor (Z.shiftr crc 1) 0x8C else Z.shiftr crc 1.

Definition owb_crc8_byte (crc data : Z) : Z :=
  Nat.iter 8 crc8_shift (Z.lxor crc data).

Definition owb_crc8_bytes (crc : Z) (data : list Z) : Z :=
  fold_left owb_crc8_byte data crc.

(** ** The world the driver runs in *)

Inductive log_level := LOG_ERROR | LOG_WARN.

Inductive log_message :=
| MsgNotResponding          (* "ds18b20 device not responding" *)
| MsgUnsupportedResolution  (* "Unsupported resolution %d" *)
| MsgCrcFailed              (* "CRC failed" *)
| MsgReadBytesFailed        (* "owb_read_bytes failed" *)
| MsgWriteByteFailed        (* "owb_write_byte failed" *)
| MsgVerifyFailed           (* "scratchpad verify failed: ..." *)
| MsgReadScratchpadFailed   (* "read scratchpad failed" *)
| MsgNotInitialised         (* "ds18b20_info is not initialised" *)
| MsgInvalidResolutionRead  (* "invalid resolution read from device: ..." *)
| MsgConsistencyLost        (* "Resolution consistency lost - refreshed from device: %d" *)
| MsgTimedOut.              (* "conversion timed out" *)

(** [trace]: the wire so far.  [tick_count]: the RTOS tick counter, a
    [uint32_t].  [latency]: how many ticks beyond the requested ones each
    coming [vTaskDelay] will take (none once the list is used up).  [log]:
    the error and warning lines written so far; debug lines are left out. *)
Record World := {
  trace : list owb_event;
  tick_count : Z;
  latency : list Z;
  log : list (log_level * log_message)
}.

Definition OWB (A : Type) : Type := World -> A * World.

Definition ret {A} (a : A) : OWB A := fun w => (a, w).
Definition bind {A B} (m : OWB A) (k : A -> OWB B) : OWB B :=
  fun w => let (a, w') := m w in k a w'.

Declare Scope owb_scope.
Delimit Scope owb_scope with owb.
Notation "x <- m ;; k" := (bind m (fun x => k))
  (at level 61, m at next level, right associativity) : owb_scope.
Notation "m ;;; k" := (bind m (fun _ => k))
  (at level 61, right associativity) : owb_scope.
Local Open Scope owb_scope.

Definition emit (e : owb_event) : OWB unit := fun w =>
  (tt, {| trace := trace w ++ [e]; tick_count := tick_count w;
          latency := latency w; log := log w |}).

Definition write_log (l : log_level) (m : log_message) : OWB unit := fun w =>
  (tt, {| trace := trace w; tick_count := tick_count w;
          latency := latency w; log := log w ++ [(l, m)] |}).

Definition ESP_LOGE := write_log LOG_ERROR.
Definition ESP_LOGW := write_log LOG_WARN.

Definition history : OWB (list owb_event) := fun w => (trace w, w).

Definition owb_reset (bus : OneWireBus) : OWB bool :=
  h <- history ;;
  let present := reset_presence bus h in
  emit (EvReset present) ;;; ret present.

Definition owb_write_byte (bus : OneWireBus) (data : Z) : OWB owb_status :=
  h <- history ;;
  emit (EvWriteByte data) ;;; ret (write_byte_status bus h data).

Definition owb_write_bytes (bus : OneWireBus) (data : list Z) : OWB owb_status :=
  h <- history ;;
  emit (EvWriteBytes data) ;;; ret (write_bytes_status bus h data).

Definition owb_write_rom_code (bus : OneWireBus) (rom_code : OneWireBus_ROMCode)
  : OWB owb_status :=
  h <- history ;;
  emit (EvWriteRomCode rom_code) ;;; ret (write_rom_code_status bus h rom_code).

(** The bytes that arrive are stored at the start of [buffer]; at most
    [count] of them, each a [uint8_t]. *)
Definition store_bytes (buffer data : list Z) : list Z :=
  firstn (length buffer) data ++ skipn (length data) buffer.

Definition owb_read_bytes (bus : OneWireBus) (buffer : list Z) (count : Z)
  : OWB (owb_status * list Z) :=
  h <- history ;;
  let (status, reply) := read_bytes_reply bus h count in
  let data := firstn (Z.to_nat count) (map to_uint8 reply) in
  emit (EvReadBytes count data) ;;; ret (status, store_bytes buffer data).

(** [out] is the caller's [uint8_t] that receives the bit. *)
Definition owb_read_bit (bus : OneWireBus) : OWB (owb_status * Z) :=
  h <- history ;;
  let (status, bit) := read_bit_reply bus h in
  let out := to_uint8 bit in
  emit (EvReadBit out) ;;; ret (status, out).

(** ** The RTOS tick counter *)

Definition xTaskGetTickCount : OWB Z := fun w => (tick_count w, w).

(** [vTaskDelay n] returns after at least [n] ticks. *)
Definition vTaskDelay (n : Z) : OWB unit := fun w =>
  let extra := match latency w with [] => 0 | l :: _ => Z.max 0 l end in
  (tt, {| trace := trace w; tick_count := to_uint32 (tick_count w + n + extra);
          latency := tl (latency w); log := log w |}).

(** ** Declarations of ds18b20.h, continued *)

(** Modelled from the spec: the enumeration DS18B20_ERROR is declared in
    ds18b20.h, which is not among the sources.  The constructors used by
    ds18b20.c keep their names; the spec's error kinds "no device answered a
    reset" and "unsupported or unreadable resolution" are never named in
    ds18b20.c and are rendered by the last two constructors. *)
Inductive DS18B20_ERROR :=
| DS18B20_OK
| DS18B20_ERROR_UNKNOWN
| DS18B20_ERROR_CRC
| DS18B20_ERROR_OWB
| DS18B20_ERROR_NULL
| DS18B20_ERROR_NOT_PRESENT
| DS18B20_ERROR_INVALID_RESOLUTION.

(** Modelled from the spec: the structure DS18B20_Info is declared in
    ds18b20.h; its fields are the ones ds18b20.c reads and writes.  A value
    of this record is the object behind a non-NULL [DS18B20_Info *]. *)
Record DS18B20_Info := {
  bus : OneWireBus;
  rom_code : OneWireBus_ROMCode;
  use_crc : bool;
  resolution : DS18B20_RESOLUTION;
  solo : bool;
  init : bool
}.

(** The field [resolution], for use where a parameter is itself called
    [resolution]. *)
Abbreviation info_resolution := resolution (only parsing).

Definition set_info_resolution (r : DS18B20_RESOLUTION) (i : DS18B20_Info) : DS18B20_Info :=
  {| bus := bus i; rom_code := rom_code i; use_crc := use_crc i;
     resolution := r; solo := solo i; init := init i |}.

Definition set_info_use_crc (c : bool) (i : DS18B20_Info) : DS18B20_Info :=
  {| bus := bus i; rom_code := rom_code i; use_crc := c;
     resolution := resolution i; solo := solo i; init := init i |}.

Definition set_info_solo (s : bool) (i : DS18B20_Info) : DS18B20_Info :=
  {| bus := bus i; rom_code := rom_code i; use_crc := use_crc i;
     resolution := resolution i; solo := s; init := init i |}.

Definition set_info_rom_code (c : OneWireBus_ROMCode) (i : DS18B20_Info) : DS18B20_Info :=
  {| bus := bus i; rom_code := c; use_crc := use_crc i;
     resolution := resolution i; solo := solo i; init := init i |}.

(** ** ds18b20.c *)

Definition T_CONV : Z := 750.

Definition DS18B20_FUNCTION_TEMP_CONVERT : Z := 0x44.
Definition DS18B20_FUNCTION_SCRATCHPAD_WRITE : Z := 0x4E.
Definition DS18B20_FUNCTION_SCRATCHPAD_READ : Z := 0xBE.

(** The packed structure of nine bytes. *)
Record Scratchpad := {
  temperature_0 : Z;    (* temperature[0], LSB *)
  temperature_1 : Z;    (* temperature[1], MSB *)
  trigger_high : Z;
  trigger_low : Z;
  configuration : Z;
  reserved_0 : Z;
  reserved_1 : Z;
  reserved_2 : Z;
  crc : Z
}.

Definition sizeof_Scratchpad : Z := 9.
Definition offsetof_temperature : Z := 0.
Definition offsetof_configuration : Z := 4.

(** [Scratchpad scratchpad = {0}] *)
Definition Scratchpad_zero : Scratchpad :=
  {| temperature_0 := 0; temperature_1 := 0; trigger_high := 0; trigger_low := 0;
     configuration := 0; reserved_0 := 0; reserved_1 := 0; reserved_2 := 0; crc := 0 |}.

(** The structure seen through [(uint8_t * )scratchpad], and back. *)
Definition scratchpad_bytes (s : Scratchpad) : list Z :=
  [temperature_0 s; temperature_1 s; trigger_high s; trigger_low s;
   configuration s; reserved_0 s; reserved_1 s; reserved_2 s; crc s].

Definition scratchpad_of_bytes (l : list Z) : Scratchpad :=
  {| temperature_0 := nth 0 l 0; temperature_1 := nth 1 l 0;
     trigger_high := nth 2 l 0; trigger_low := nth 3 l 0;
     configuration := nth 4 l 0; reserved_0 := nth 5 l 0;
     reserved_1 := nth 6 l 0; reserved_2 := nth 7 l 0; crc := nth 8 l 0 |}.

Definition set_configuration (v : Z) (s : Scratchpad) : Scratchpad :=
  {| temperature_0 := temperature_0 s; temperature_1 := temperature_1 s;
     trigger_high := trigger_high s; trigger_low := trigger_low s;
     configuration := v; reserved_0 := reserved_0 s;
     reserved_1 := reserved_1 s; reserved_2 := reserved_2 s; crc := crc s |}.

Definition _init (bus : OneWireBus) : DS18B20_Info :=
  {| bus := bus; rom_code := repeat 0 8; use_crc := false;
     resolution := DS18B20_RESOLUTION_INVALID; solo := false; init := true |}.

Definition _is_init (ds18b20_info : DS18B20_Info) : OWB bool :=
  if init ds18b20_info then ret true
  else ESP_LOGE MsgNotInitialised ;;; ret false.

Definition _address_device (ds18b20_info : DS18B20_Info) : OWB bool :=
  ok <- _is_init ds18b20_info ;;
  if ok then
    present <- owb_reset (bus ds18b20_info) ;;
    (if present then
       if solo ds18b20_info then
         owb_write_byte (bus ds18b20_info) OWB_ROM_SKIP ;;; ret tt
       else
         owb_write_byte (bus ds18b20_info) OWB_ROM_MATCH ;;;
         owb_write_rom_code (bus ds18b20_info) (rom_code ds18b20_info) ;;; ret tt
     else
       ESP_LOGE MsgNotResponding) ;;;
    ret present
  else ret false.

(** [static const uint8_t lsb_mask[4] = { ~0x07, ~0x03, ~0x01, ~0x00 }] *)
Definition lsb_mask : list Z :=
  map to_uint8 [Z.lnot 0x07; Z.lnot 0x03; Z.lnot 0x01; Z.lnot 0x00].

Definition _decode_temp (lsb msb : Z) (resolution : DS18B20_RESOLUTION)
  : OWB spec_float :=
  let result := S754_zero false in
  if _check_resolution resolution then
    let lsb_masked :=
      Z.land (nth (Z.to_nat (resolution - DS18B20_RESOLUTION_9_BIT)) lsb_mask 0) lsb in
    let raw := to_int16 (Z.lor (Z.shiftl msb 8) lsb_masked) in
    ret (F32.div (F32.of_Z raw) (F32.of_Z 16))
  else
    ESP_LOGE MsgUnsupportedResolution ;;; ret result.

Definition _min (x y : Z) : Z := if x >? y then y else x.

Definition _read_scratchpad (ds18b20_info : DS18B20_Info)
    (scratchpad : option Scratchpad) (count : Z)
  : OWB (DS18B20_ERROR * option Scratchpad) :=
  match scratchpad with
  | None => ret (DS18B20_ERROR_NULL, None)
  | Some sp =>
    let err := DS18B20_ERROR_UNKNOWN in
    let count := if use_crc ds18b20_info then sizeof_Scratchpad else count in
    let count := _min sizeof_Scratchpad count in
    addressed <- _address_device ds18b20_info ;;
    if addressed then
      st <- owb_write_byte (bus ds18b20_info) DS18B20_FUNCTION_SCRATCHPAD_READ ;;
      if owb_status_eqb st OWB_STATUS_OK then
        r <- owb_read_bytes (bus ds18b20_info) (scratchpad_bytes sp) count ;;
        let sp := scratchpad_of_bytes (snd r) in
        if owb_status_eqb (fst r) OWB_STATUS_OK then
          if negb (use_crc ds18b20_info) then
            owb_reset (bus ds18b20_info) ;;;
            ret (DS18B20_OK, Some sp)
          else
            if negb (owb_crc8_bytes 0 (scratchpad_bytes sp) =? 0) then
              ESP_LOGE MsgCrcFailed ;;; ret (DS18B20_ERROR_CRC, Some sp)
            else ret (DS18B20_OK, Some sp)
        else
          ESP_LOGE MsgReadBytesFailed ;;; ret (DS18B20_ERROR_OWB, Some sp)
      else
        ESP_LOGE MsgWriteByteFailed ;;; ret (DS18B20_ERROR_OWB, Some sp)
    else ret (err, Some sp)
  end.

(** The local buffer after a call that was given its address. *)
Definition buffer_after (before : Scratchpad) (r : DS18B20_ERROR * option Scratchpad)
  : Scratchpad :=
  match snd r with Some sp => sp | None => before end.

Definition bytes_2_to_4 (s : Scratchpad) : list Z :=
  [trigger_high s; trigger_low s; configuration s].

Definition memcmp_eq (a b : list Z) : bool :=
  if list_eq_dec Z.eq_dec a b then true else false.

Definition _write_scratchpad (ds18b20_info : DS18B20_Info)
    (scratchpad : Scratchpad) (verify : bool) : OWB bool :=
  ok <- _is_init ds18b20_info ;;
  if ok then
    addressed <- _address_device ds18b20_info ;;
    if addressed then
      owb_write_byte (bus ds18b20_info) DS18B20_FUNCTION_SCRATCHPAD_WRITE ;;;
      owb_write_bytes (bus ds18b20_info) (bytes_2_to_4 scratchpad) ;;;
      if verify then
        r <- _read_scratchpad ds18b20_info (Some Scratchpad_zero)
               (offsetof_configuration + 1) ;;
        let read := buffer_after Scratchpad_zero r in
        match fst r with
        | DS18B20_OK =>
            if negb (memcmp_eq (bytes_2_to_4 scratchpad) (bytes_2_to_4 read)) then
              ESP_LOGE MsgVerifyFailed ;;; ret false
            else ret true
        | _ => ESP_LOGE MsgReadScratchpadFailed ;;; ret false
        end
      else ret true
    else ret false
  else ret false.

(** *** Public API *)

Definition ds18b20_read_resolution (ds18b20_info : DS18B20_Info)
  : OWB DS18B20_RESOLUTION :=
  ok <- _is_init ds18b20_info ;;
  if ok then
    r <- _read_scratchpad ds18b20_info (Some Scratchpad_zero)
           (offsetof_configuration - offsetof_temperature + 1) ;;
    let scratchpad := buffer_after Scratchpad_zero r in
    let resolution :=
      Z.land (Z.shiftr (configuration scratchpad) 5) 0x03 + DS18B20_RESOLUTION_9_BIT in
    if negb (_check_resolution resolution) then
      ESP_LOGE MsgInvalidResolutionRead ;;; ret DS18B20_RESOLUTION_INVALID
    else ret resolution
  else ret DS18B20_RESOLUTION_INVALID.

Definition ds18b20_init (bus : OneWireBus) (rom_code : OneWireBus_ROMCode)
  : OWB DS18B20_Info :=
  let ds18b20_info := set_info_rom_code rom_code (_init bus) in
  r <- ds18b20_read_resolution ds18b20_info ;;
  ret (set_info_resolution r ds18b20_info).

Definition ds18b20_init_solo (bus : OneWireBus) : OWB DS18B20_Info :=
  let ds18b20_info := set_info_solo true (_init bus) in
  r <- ds18b20_read_resolution ds18b20_info ;;
  ret (set_info_resolution r ds18b20_info).

Definition ds18b20_use_crc (ds18b20_info : DS18B20_Info) (use_crc : bool)
  : OWB DS18B20_Info :=
  ok <- _is_init ds18b20_info ;;
  if ok then ret (set_info_use_crc use_crc ds18b20_info) else ret ds18b20_info.

(** [uint8_t value = (((resolution - 1) & 0x03) << 5) | 0x1f] *)
Definition configuration_value (resolution : DS18B20_RESOLUTION) : Z :=
  to_uint8 (Z.lor (Z.shiftl (Z.land (resolution - 1) 0x03) 5) 0x1f).

(** Returns the result together with the session object as the call leaves
    it. *)
Definition ds18b20_set_resolution (ds18b20_info : DS18B20_Info)
    (resolution : DS18B20_RESOLUTION) : OWB (bool * DS18B20_Info) :=
  ok <- _is_init ds18b20_info ;;
  if ok then
    if _check_resolution (info_resolution ds18b20_info) then
      r <- _read_scratchpad ds18b20_info (Some Scratchpad_zero)
             (offsetof_configuration - offsetof_temperature + 1) ;;
      let scratchpad := buffer_after Scratchpad_zero r in
      let value := configuration_value resolution in
      let scratchpad := set_configuration value scratchpad in
      result <- _write_scratchpad ds18b20_info scratchpad true ;;
      if result then
        ret (result, set_info_resolution resolution ds18b20_info)
      else
        refreshed <- ds18b20_read_resolution ds18b20_info ;;
        ESP_LOGW MsgConsistencyLost ;;;
        ret (result, set_info_resolution refreshed ds18b20_info)
    else
      ESP_LOGE MsgUnsupportedResolution ;;; ret (false, ds18b20_info)
  else ret (false, ds18b20_info).

Definition ds18b20_convert (ds18b20_info : DS18B20_Info) : OWB bool :=
  ok <- _is_init ds18b20_info ;;
  if ok then
    addressed <- _address_device ds18b20_info ;;
    if addressed then
      owb_write_byte (bus ds18b20_info) DS18B20_FUNCTION_TEMP_CONVERT ;;; ret true
    else
      ESP_LOGE MsgNotResponding ;;; ret false
  else ret false.

Definition ds18b20_convert_all (bus : OneWireBus) : OWB unit :=
  owb_reset bus ;;;
  owb_write_byte bus OWB_ROM_SKIP ;;;
  owb_write_byte bus DS18B20_FUNCTION_TEMP_CONVERT ;;;
  ret tt.

(** [value] is the content of the caller's [float], when the pointer is not
    NULL; the result carries the content after the call. *)
Definition ds18b20_read_temp (ds18b20_info : DS18B20_Info) (value : option spec_float)
  : OWB (DS18B20_ERROR * option spec_float) :=
  ok <- _is_init ds18b20_info ;;
  if ok then
    r <- _read_scratchpad ds18b20_info (Some Scratchpad_zero) 2 ;;
    let scratchpad := buffer_after Scratchpad_zero r in
    let err := fst r in
    let (temp_LSB, temp_MSB) :=
      match err with
      | DS18B20_OK => (temperature_0 scratchpad, temperature_1 scratchpad)
      | _ => (0x00, 0x80)
      end in
    temp <- _decode_temp temp_LSB temp_MSB (resolution ds18b20_info) ;;
    ret (err, match value with Some _ => Some temp | None => None end)
  else ret (DS18B20_ERROR_UNKNOWN, value).

(** *** Waiting for a conversion *)

Section Conversion.

(** [portTICK_PERIOD_MS], the length of an RTOS tick in milliseconds (a
    [TickType_t]); it is fixed by the RTOS configuration. *)
Variable portTICK_PERIOD_MS : Z.

Definition divisor (resolution : DS18B20_RESOLUTION) : Z :=
  Z.shiftl 1 (DS18B20_RESOLUTION_12_BIT - resolution).

(** [(float)T_CONV / (float)divisor * 1.1]: the quotient is a [float], the
    product with the [double] literal is a [double], and the assignment
    rounds it to [float]. *)
Definition max_conversion_time (resolution : DS18B20_RESOLUTION) : spec_float :=
  F32.round
    (F64.mul
       (F64.of_float (F32.div (F32.of_Z T_CONV) (F32.of_Z (divisor resolution))))
       F64.lit_1_1).

(** [ceil(max_conversion_time / portTICK_PERIOD_MS)], assigned to an [int]. *)
Definition max_conversion_ticks (resolution : DS18B20_RESOLUTION) : Z :=
  ceil_to_int
    (F64.of_float
       (F32.div (max_conversion_time resolution) (F32.of_Z portTICK_PERIOD_MS))).

(** The [do ... while] loop; it gives [None] when [fuel] iterations were
    not enough to leave it, and the last [status] and [duration_ticks]
    otherwise. *)
Fixpoint poll_conversion (fuel : nat) (bus : OneWireBus)
    (start_ticks : Z) (max_ticks : Z) : OWB (option (Z * Z)) :=
  match fuel with
  | O => ret None
  | S fuel' =>
      vTaskDelay 1 ;;;
      r <- owb_read_bit bus ;;
      let status := snd r in
      now <- xTaskGetTickCount ;;
      let duration_ticks := to_uint32 (now - start_ticks) in
      if (status =? 0) && (duration_ticks <? to_uint32 max_ticks) then
        poll_conversion fuel' bus start_ticks max_ticks
      else ret (Some (status, duration_ticks))
  end.

Definition _wait_for_conversion (fuel : nat) (ds18b20_info : DS18B20_Info)
  : OWB (option spec_float) :=
  let elapsed_time := S754_zero false in
  if _check_resolution (resolution ds18b20_info) then
    let max_ticks := max_conversion_ticks (resolution ds18b20_info) in
    start_ticks <- xTaskGetTickCount ;;
    r <- poll_conversion fuel (bus ds18b20_info) start_ticks max_ticks ;;
    match r with
    | None => ret None
    | Some (_, duration_ticks) =>
        let elapsed_time := F32.of_Z (to_uint32 (duration_ticks * portTICK_PERIOD_MS)) in
        (if to_uint32 max_ticks <=? duration_ticks then ESP_LOGW MsgTimedOut
         else ret tt) ;;;
        ret (Some elapsed_time)
    end
  else ret (Some elapsed_time).

Definition ds18b20_wait_for_conversion (fuel : nat) (ds18b20_info : DS18B20_Info)
  : OWB (option spec_float) :=
  ok <- _is_init ds18b20_info ;;
  if ok then _wait_for_conversion fuel ds18b20_info
  else ret (Some (S754_zero false)).

Definition ds18b20_convert_and_read_temp (fuel : nat) (ds18b20_info : DS18B20_Info)
    (value : option spec_float) : OWB (option (DS18B20_ERROR * option spec_float)) :=
  ok <- _is_init ds18b20_info ;;
  if ok then
    converted <- ds18b20_convert ds18b20_info ;;
    if converted then
      waited <- _wait_for_conversion fuel ds18b20_info ;;
      match waited with
      | None => ret None
      | Some _ =>
          match value with
          | Some _ =>
              r <- ds18b20_read_temp ds18b20_info (Some (S754_zero false)) ;;
              ret (Some r)
          | None => ret (Some (DS18B20_ERROR_NULL, None))
          end
      end
    else ret (Some (DS18B20_ERROR_UNKNOWN, value))
  else ret (Some (DS18B20_ERROR_UNKNOWN, value)).

End Conversion.

(** ** A simulated bus with one DS18B20 on it

    The device keeps the scratchpad bytes 0 to 7 and answers a read with
    them followed by their CRC.  A write command (0x4E) followed by three
    bytes replaces bytes 2 to 4: the device honours writes.  [sim_present]
    says whether it answers a reset, [sim_busy_polls] how many polls of the
    wire it answers with 0 (conversion in progress) after a convert command;
    [None] is a device that never signals completion. *)

Record Sim := {
  sim_present : bool;
  sim_memory : list Z;
  sim_busy_polls : option nat
}.

Record SimState := {
  st_memory : list Z;
  st_last : option owb_event;
  st_polls : nat
}.

Definition sim_write (m : list Z) (data : list Z) : list Z :=
  match m, data with
  | t0 :: t1 :: _ :: _ :: _ :: rest, [a; b; c] => t0 :: t1 :: a :: b :: c :: rest
  | _, _ => m
  end.

Definition sim_step (s : SimState) (e : owb_event) : SimState :=
  match e with
  | EvWriteBytes data =>
      match st_last s with
      | Some (EvWriteByte cmd) =>
          if cmd =? DS18B20_FUNCTION_SCRATCHPAD_WRITE then
            {| st_memory := sim_write (st_memory s) data; st_last := Some e;
               st_polls := st_polls s |}
          else {| st_memory := st_memory s; st_last := Some e; st_polls := st_polls s |}
      | _ => {| st_memory := st_memory s; st_last := Some e; st_polls := st_polls s |}
      end
  | EvReadBit _ =>
      {| st_memory := st_memory s; st_last := Some e; st_polls := S (st_polls s) |}
  | EvWriteByte cmd =>
      {| st_memory := st_memory s; st_last := Some e;
         st_polls := if cmd =? DS18B20_FUNCTION_TEMP_CONVERT then O else st_polls s |}
  | _ => {| st_memory := st_memory s; st_last := Some e; st_polls := st_polls s |}
  end.

Definition sim_state (d : Sim) (h : list owb_event) : SimState :=
  fold_left sim_step h
    {| st_memory := sim_memory d; st_last := None; st_polls := O |}.

Definition sim_scratchpad (m : list Z) : list Z :=
  let body := map to_uint8 (firstn 8 m) in
  body ++ [owb_crc8_bytes 0 body].

Definition simulated_bus (d : Sim) : OneWireBus :=
  {| reset_presence := fun _ => sim_present d;
     write_byte_status := fun _ _ => OWB_STATUS_OK;
     write_bytes_status := fun _ _ => OWB_STATUS_OK;
     write_rom_code_status := fun _ _ => OWB_STATUS_OK;
     read_bytes_reply := fun h count =>
       (OWB_STATUS_OK,
        firstn (Z.to_nat count) (sim_scratchpad (st_memory (sim_state d h))));
     read_bit_reply := fun h =>
       (OWB_STATUS_OK,
        match sim_busy_polls d with
        | None => 0
        | Some n => if Nat.ltb (st_polls (sim_state d h)) n then 0 else 1
        end) |}.

Definition World_zero : World :=
  {| trace := []; tick_count := 0; latency := []; log := [] |}.

(** ** What the spec says about decoding *)

(** The spec's mask: 9-bit keeps the top 5 bits of the LSB, 10-bit the top
    6, 11-bit the top 7, 12-bit all 8. *)
Definition spec_kept_bits (resolution : DS18B20_RESOLUTION) : Z := resolution - 4.

Definition spec_mask (resolution : DS18B20_RESOLUTION) : Z :=
  Z.shiftl (Z.ones (spec_kept_bits resolution)) (8 - spec_kept_bits resolution).

(** The 16-bit two's-complement integer the spec combines the bytes into. *)
Definition spec_raw (lsb msb : Z) (resolution : DS18B20_RESOLUTION) : Z :=
  let u := Z.lor (Z.shiftl msb 8) (Z.land lsb (spec_mask resolution)) in
  if Z.testbit u 15 then u - 2 ^ 16 else u.

(** The integers from [start], [n] of them. *)
Fixpoint Zrange (start : Z) (n : nat) : list Z :=
  match n with
  | O => []
  | S n' => start :: Zrange (start + 1) n'
  end.

Definition bytes_all : list Z := Zrange 0 256.

Definition int16_all : list Z := Zrange (-32768) (Z.to_nat 65536).

(** [raw / 16.0f] stands for exactly raw/16. *)
Definition quotient_exact (raw : Z) : bool :=
  SF_is (F32.div (F32.of_Z raw) (F32.of_Z 16)) (raw # 16).

(** The masked and combined bytes of the code are the spec's integer. *)
Definition raw_agrees (resolution lsb msb : Z) : bool :=
  let lsb_masked :=
    Z.land (nth (Z.to_nat (resolution - DS18B20_RESOLUTION_9_BIT)) lsb_mask 0) lsb in
  to_int16 (Z.lor (Z.shiftl msb 8) lsb_masked) =? spec_raw lsb msb resolution.

Definition resolutions_all : list Z :=
  [DS18B20_RESOLUTION_9_BIT; DS18B20_RESOLUTION_10_BIT;
   DS18B20_RESOLUTION_11_BIT; DS18B20_RESOLUTION_12_BIT].

(** ** Vocabulary of the statements *)

(** The world [w] after the wire events [evs] and the log lines [msgs]. *)
Definition extend (w : World) (evs : list owb_event)
    (msgs : list (log_level * log_message)) : World :=
  {| trace := trace w ++ evs; tick_count := tick_count w;
     latency := latency w; log := log w ++ msgs |}.

(** The wire events between two worlds of one run. *)
Definition wire_since (w w' : World) : list owb_event :=
  skipn (length (trace w)) (trace w').

Definition carries_rom_code (e : owb_event) : bool :=
  match e with EvWriteRomCode _ => true | _ => false end.

(** The driver sends something: a command byte, data bytes or a ROM code. *)
Definition is_transmission (e : owb_event) : bool :=
  match e with
  | EvWriteByte _ | EvWriteBytes _ | EvWriteRomCode _ => true
  | _ => false
  end.

(** What [_address_device] puts on the wire after the reset. *)
Definition address_commands (ds18b20_info : DS18B20_Info) : list owb_event :=
  if solo ds18b20_info then [EvWriteByte OWB_ROM_SKIP]
  else [EvWriteByte OWB_ROM_MATCH; EvWriteRomCode (rom_code ds18b20_info)].

(** ** Sessions and devices used as examples *)

Definition example_rom_code : OneWireBus_ROMCode :=
  [0x10; 0xFF; 0xEE; 0xDD; 0xCC; 0xBB; 0xAA; 0x28].

Definition example_memory : list Z :=
  [0x50; 0x05; 0x4B; 0x46; 0x7F; 0xFF; 0x0C; 0x10].

(** A device that answers, holds the power-on scratchpad and needs three
    polls to finish a conversion. *)
Definition example_device : Sim :=
  {| sim_present := true; sim_memory := example_memory; sim_busy_polls := Some 3%nat |}.

(** A bus nobody answers on. *)
Definition absent_device : Sim :=
  {| sim_present := false; sim_memory := example_memory; sim_busy_polls := None |}.

(** A device that never signals the end of a conversion. *)
Definition silent_device : Sim :=
  {| sim_present := true; sim_memory := example_memory; sim_busy_polls := None |}.

Definition session_on (d : Sim) (crc solo : bool) : DS18B20_Info :=
  {| bus := simulated_bus d; rom_code := example_rom_code; use_crc := crc;
     resolution := DS18B20_RESOLUTION_12_BIT; solo := solo; init := true |}.

(** A bus on which every transfer succeeds and every read returns the
    start of one fixed content, whatever was written before. *)
Definition fixed_reply_bus (content : list Z) : OneWireBus :=
  {| reset_presence := fun _ => true;
     write_byte_status := fun _ _ => OWB_STATUS_OK;
     write_bytes_status := fun _ _ => OWB_STATUS_OK;
     write_rom_code_status := fun _ _ => OWB_STATUS_OK;
     read_bytes_reply := fun _ count => (OWB_STATUS_OK, firstn (Z.to_nat count) content);
     read_bit_reply := fun _ => (OWB_STATUS_OK, 1) |}.

(** The power-on scratchpad with its CRC, and the same with a flipped bit
    in the CRC byte. *)
Definition good_content : list Z := example_memory ++ [0x1C].
Definition bad_content : list Z := example_memory ++ [0x1D].

Definition session_with_bus (b : OneWireBus) (crc solo : bool) : DS18B20_Info :=
  {| bus := b; rom_code := example_rom_code; use_crc := crc;
     resolution := DS18B20_RESOLUTION_12_BIT; solo := solo; init := true |}.

(** ** Tick periods *)

(** [portTICK_PERIOD_MS] is 1000 / configTICK_RATE_HZ in integers, and a
    tick lasts at least a millisecond: the periods are 1 to 1000. *)
Definition tick_periods_all : list Z := Zrange 1 1000.

(** The number of ticks waited for covers the bound in milliseconds, and one
    tick less would not. *)
Definition ticks_cover_bound (resolution period : Z) : bool :=
  let ticks := max_conversion_ticks period resolution in
  match SF2Q (max_conversion_time resolution) with
  | Some bound =>
      (1 <=? ticks) && (ticks * period <? 2 ^ 11)
      && Qle_bool bound (ticks * period # 1)
      && negb (Qle_bool bound ((ticks - 1) * period # 1))
  | None => false
  end.

(** A world in which the next polls are held back by the scheduler. *)
Definition late_world : World :=
  {| trace := []; tick_count := 4294967290; latency := [3; 0; 1]; log := [] |}.

Definition crc8_byte_in_range (c d : Z) : bool :=
  let x := owb_crc8_byte c d in (0 <=? x) && (x <? 256).

Definition is_write_bytes (e : owb_event) : bool :=
  match e with EvWriteBytes _ => true | _ => false end.

(** ** Further examples *)

(** A session object nobody has run a constructor on. *)
Definition uninitialised_session : DS18B20_Info :=
  {| bus := simulated_bus example_device; rom_code := repeat 0 8; use_crc := false;
     resolution := 0; solo := false; init := false |}.

(** A bus with a device on it that refuses every command byte. *)
Definition refusing_bus : OneWireBus :=
  {| reset_presence := fun _ => true;
     write_byte_status := fun _ _ => OWB_STATUS_ERROR;
     write_bytes_status := fun _ _ => OWB_STATUS_ERROR;
     write_rom_code_status := fun _ _ => OWB_STATUS_ERROR;
     read_bytes_reply := fun _ count => (OWB_STATUS_OK, firstn (Z.to_nat count) good_content);
     read_bit_reply := fun _ => (OWB_STATUS_OK, 1) |}.

(** A bus on which reading bytes fails after delivering them. *)
Definition failing_read_bus : OneWireBus :=
  {| reset_presence := fun _ => true;
     write_byte_status := fun _ _ => OWB_STATUS_OK;
     write_bytes_status := fun _ _ => OWB_STATUS_OK;
     write_rom_code_status := fun _ _ => OWB_STATUS_OK;
     read_bytes_reply := fun _ count => (OWB_STATUS_ERROR, firstn (Z.to_nat count) good_content);
     read_bit_reply := fun _ => (OWB_STATUS_OK, 1) |}.

Definition is_reset (e : owb_event) : bool :=
  match e with EvReset _ => true | _ => false end.

(** The simulated device on a bus it is taken off: it answers the first
    [answered] resets and none after; until then it behaves as on
    [simulated_bus], and its memory stays what the writes made it. *)
Definition departing_bus (d : Sim) (answered : nat) : OneWireBus :=
  {| reset_presence := fun h => Nat.ltb (length (filter is_reset h)) answered;
     write_byte_status := write_byte_status (simulated_bus d);
     write_bytes_status := write_bytes_status (simulated_bus d);
     write_rom_code_status := write_rom_code_status (simulated_bus d);
     read_bytes_reply := read_bytes_reply (simulated_bus d);
     read_bit_reply := read_bit_reply (simulated_bus d) |}.

(** What [ds18b20_read_resolution] makes of a configuration byte. *)
Definition resolution_of_configuration (cfg : Z) : Z :=
  Z.land (Z.shiftr cfg 5) 0x03 + DS18B20_RESOLUTION_9_BIT.

(** An operation only adds to the wire and to the log: it leaves the tick
    counter and the scheduler alone. *)
Definition advances {A : Type} (m : OWB A) : Prop :=
  forall w, exists evs msgs, snd (m w) = extend w evs msgs.

(** The integer decoded at a resolution is a multiple of the resolution's
    step, it is negative exactly when the MSB has its top bit set, and the
    bits of the LSB below the step do not count. *)
Definition raw_quantised (resolution lsb msb : Z) : bool :=
  let step := 2 ^ (DS18B20_RESOLUTION_12_BIT - resolution) in
  let raw := spec_raw lsb msb resolution in
  (raw mod step =? 0)
  && Bool.eqb (raw <? 0) (128 <=? msb)
  && (spec_raw (lsb - lsb mod step) msb resolution =? raw).

(** Case analysis on a positive number bounded by a hypothesis. *)
Ltac enum_pos d :=
  first [ exfalso; lia
        | destruct d as [d | d |]; [enum_pos d | enum_pos d |] ].

(** * Properties *)

(** ** Enumerations *)

Lemma Zrange_complete (n : nat) :
  forall start z, start <= z < start + Z.of_nat n -> In z (Zrange start n).
Proof.
  induction n as [| n IH]; intros start z H.
  - lia.
  - cbn [Zrange]. destruct (Z.eq_dec start z) as [E | E].
    + left. exact E.
    + right. apply IH. lia.
Qed.

Lemma bytes_all_complete (z : Z) : 0 <= z < 256 -> In z bytes_all.
Proof. intros H. apply Zrange_complete. lia. Qed.

Lemma int16_all_complete (z : Z) : -32768 <= z < 32768 -> In z int16_all.
Proof. intros H. apply Zrange_complete. lia. Qed.

Lemma resolutions_all_complete (r : Z) :
  _check_resolution r = true -> In r resolutions_all.
Proof.
  unfold _check_resolution, DS18B20_RESOLUTION_9_BIT, DS18B20_RESOLUTION_12_BIT.
  intros H. apply andb_true_iff in H. destruct H as [H1 H2].
  apply Z.leb_le in H1. apply Z.leb_le in H2.
  assert (r = 9 \/ r = 10 \/ r = 11 \/ r = 12) as D by lia.
  unfold resolutions_all.
  destruct D as [-> | [-> | [-> | ->]]]; simpl; auto.
Qed.

Lemma check_resolution_range (r : Z) :
  _check_resolution r = true <-> 9 <= r <= 12.
Proof.
  unfold _check_resolution, DS18B20_RESOLUTION_9_BIT, DS18B20_RESOLUTION_12_BIT.
  rewrite andb_true_iff, !Z.leb_le. tauto.
Qed.

(** ** The model on the spec's examples *)

Example lit_1_1_nearest : F64.div (F64.of_Z 11) (F64.of_Z 10) = F64.lit_1_1.
Proof. vm_compute. reflexivity. Qed.

Example crc8_power_on : owb_crc8_bytes 0 example_memory = 0x1C.
Proof. reflexivity. Qed.

(** The end-to-end scenario of the spec: the power-on scratchpad read with
    CRC by a session at 12 bit gives 85.0 degrees. *)
Example read_temp_power_on :
  fst (ds18b20_read_temp (session_on example_device true false)
         (Some (S754_zero false)) World_zero)
  = (DS18B20_OK, Some (F32.of_Z 85)).
Proof. vm_compute. reflexivity. Qed.

(** The constructor seeds the cache from the device. *)
Example init_reads_resolution :
  resolution (fst (ds18b20_init (simulated_bus example_device) example_rom_code
                     World_zero)) = DS18B20_RESOLUTION_12_BIT.
Proof. vm_compute. reflexivity. Qed.

(** ** Decoding *)

Lemma to_int16_range (z : Z) : -32768 <= to_int16 z < 32768.
Proof.
  unfold to_int16. pose proof (Z.mod_pos_bound z 65536 ltac:(lia)).
  destruct (z mod 65536 <? 32768) eqn:E;
    [apply Z.ltb_lt in E | apply Z.ltb_ge in E]; lia.
Qed.

Lemma quotient_exact_all : forallb quotient_exact int16_all = true.
Proof. vm_compute. reflexivity. Qed.

Lemma raw_agrees_all :
  forallb (fun r => forallb (fun l => forallb (raw_agrees r l) bytes_all) bytes_all)
          resolutions_all = true.
Proof. vm_compute. reflexivity. Qed.

Lemma raw_agrees_ok (r lsb msb : Z) :
  _check_resolution r = true -> 0 <= lsb < 256 -> 0 <= msb < 256 ->
  to_int16 (Z.lor (Z.shiftl msb 8)
     (Z.land (nth (Z.to_nat (r - DS18B20_RESOLUTION_9_BIT)) lsb_mask 0) lsb))
  = spec_raw lsb msb r.
Proof.
  intros Hr Hl Hm.
  pose proof raw_agrees_all as A.
  rewrite forallb_forall in A.
  specialize (A r (resolutions_all_complete r Hr)).
  rewrite forallb_forall in A.
  specialize (A lsb (bytes_all_complete lsb Hl)).
  rewrite forallb_forall in A.
  specialize (A msb (bytes_all_complete msb Hm)).
  unfold raw_agrees in A. apply Z.eqb_eq in A. exact A.
Qed.

Lemma SF_is_true (x : spec_float) (q : Q) :
  SF_is x q = true -> exists v, SF2Q x = Some v /\ (v == q)%Q.
Proof.
  unfold SF_is. destruct (SF2Q x) as [v|]; [| discriminate].
  intros H. exists v. split; [reflexivity | apply Qeq_bool_iff; exact H].
Qed.

Lemma decode_temp_valid (lsb msb r : Z) (w : World) :
  _check_resolution r = true ->
  _decode_temp lsb msb r w =
  (F32.div (F32.of_Z (to_int16 (Z.lor (Z.shiftl msb 8)
     (Z.land (nth (Z.to_nat (r - DS18B20_RESOLUTION_9_BIT)) lsb_mask 0) lsb))))
     (F32.of_Z 16), w).
Proof. intros H. unfold _decode_temp. rewrite H. reflexivity. Qed.

(** C2: for the four resolutions and all bytes, [_decode_temp] changes
    nothing in the world and returns the float that stands for exactly the
    16-bit two's-complement value of (msb << 8) | (lsb AND mask), divided
    by 16, the mask keeping the top 5, 6, 7 or 8 bits of the LSB; two LSBs
    that agree on the kept bits decode alike, as 0xFF and 0xF8 do at 9
    bit. *)
Theorem decode_temp_spec (lsb msb r : Z) (w : World) :
  0 <= lsb < 256 -> 0 <= msb < 256 -> 9 <= r <= 12 ->
  snd (_decode_temp lsb msb r w) = w
  /\ (exists v, SF2Q (fst (_decode_temp lsb msb r w)) = Some v
                /\ (v == spec_raw lsb msb r # 16)%Q)
  /\ (forall lsb', 0 <= lsb' < 256 ->
        Z.land lsb' (spec_mask r) = Z.land lsb (spec_mask r) ->
        fst (_decode_temp lsb' msb r w) = fst (_decode_temp lsb msb r w))
  /\ spec_mask 9 = 0xF8 /\ spec_mask 10 = 0xFC
  /\ spec_mask 11 = 0xFE /\ spec_mask 12 = 0xFF
  /\ fst (_decode_temp 0xFF 0x00 DS18B20_RESOLUTION_9_BIT w)
     = fst (_decode_temp 0xF8 0x00 DS18B20_RESOLUTION_9_BIT w).
Proof.
  intros Hl Hm Hr.
  assert (_check_resolution r = true) as V by (apply check_resolution_range; exact Hr).
  rewrite (decode_temp_valid lsb msb r w V). cbn [fst snd].
  split; [reflexivity |].
  split.
  - rewrite (raw_agrees_ok r lsb msb V Hl Hm).
    apply SF_is_true.
    pose proof quotient_exact_all as A. rewrite forallb_forall in A.
    apply A. apply int16_all_complete.
    rewrite <- (raw_agrees_ok r lsb msb V Hl Hm). apply to_int16_range.
  - split.
    + intros lsb' Hl' E.
      rewrite (decode_temp_valid lsb' msb r w V). cbn [fst].
      rewrite (raw_agrees_ok r lsb' msb V Hl' Hm), (raw_agrees_ok r lsb msb V Hl Hm).
      unfold spec_raw. rewrite E. reflexivity.
    + repeat split; reflexivity.
Qed.

Lemma decode_temp_spec_witness :
  snd (_decode_temp 0x50 0x05 12 World_zero) = World_zero
  /\ exists v, SF2Q (fst (_decode_temp 0x50 0x05 12 World_zero)) = Some v
               /\ (v == 85 # 1)%Q.
Proof.
  destruct (decode_temp_spec 0x50 0x05 12 World_zero) as (A & (v & B & C) & _);
    [lia | lia | lia |].
  split; [exact A |].
  exists v. split; [exact B |].
  rewrite C. vm_compute. reflexivity.
Defined.

(** C8 as stated fails: the value returned for an invalid resolution is the
    value a valid decoding of 0 degrees returns. *)
Lemma invalid_decoding_equals_zero_degrees :
  _check_resolution DS18B20_RESOLUTION_INVALID = false
  /\ _check_resolution DS18B20_RESOLUTION_12_BIT = true
  /\ fst (_decode_temp 0x12 0x34 DS18B20_RESOLUTION_INVALID World_zero)
     = fst (_decode_temp 0x00 0x00 DS18B20_RESOLUTION_12_BIT World_zero).
Proof. repeat split; reflexivity. Qed.

(** C8, amended: for every invalid resolution and all input bytes,
    [_decode_temp] applies no mask to the bytes: it writes the error line
    "Unsupported resolution" and returns 0.0, whatever the bytes are. *)
Theorem decode_invalid_returns_zero (lsb msb r : Z) (w : World) :
  _check_resolution r = false ->
  fst (_decode_temp lsb msb r w) = S754_zero false
  /\ trace (snd (_decode_temp lsb msb r w)) = trace w
  /\ log (snd (_decode_temp lsb msb r w)) = log w ++ [(LOG_ERROR, MsgUnsupportedResolution)].
Proof.
  intros H. unfold _decode_temp. rewrite H. cbn. repeat split; reflexivity.
Qed.

Lemma decode_invalid_returns_zero_witness :
  fst (_decode_temp 0x12 0x34 13 World_zero) = S754_zero false.
Proof.
  apply (decode_invalid_returns_zero 0x12 0x34 13 World_zero). reflexivity.
Defined.

(** ** Running the driver symbolically *)

Lemma extend_extend (w : World) evs msgs evs' msgs' :
  extend (extend w evs msgs) evs' msgs' = extend w (evs ++ evs') (msgs ++ msgs').
Proof. unfold extend. cbn. rewrite <- !app_assoc. reflexivity. Qed.

Lemma emit_run (e : owb_event) (w : World) : emit e w = (tt, extend w [e] []).
Proof. unfold emit, extend. rewrite app_nil_r. reflexivity. Qed.

Lemma write_log_run l m (w : World) : write_log l m w = (tt, extend w [] [(l, m)]).
Proof. unfold write_log, extend. rewrite app_nil_r. reflexivity. Qed.

Lemma wire_since_extend (w : World) evs msgs :
  wire_since w (extend w evs msgs) = evs.
Proof.
  unfold wire_since, extend. cbn [trace].
  rewrite skipn_app, skipn_all, Nat.sub_diag. reflexivity.
Qed.

Lemma owb_reset_run (b : OneWireBus) (w : World) :
  owb_reset b w =
  (reset_presence b (trace w), extend w [EvReset (reset_presence b (trace w))] []).
Proof. unfold owb_reset, bind, history, ret. rewrite emit_run. reflexivity. Qed.

Lemma owb_write_byte_run (b : OneWireBus) (data : Z) (w : World) :
  owb_write_byte b data w =
  (write_byte_status b (trace w) data, extend w [EvWriteByte data] []).
Proof. unfold owb_write_byte, bind, history, ret. rewrite emit_run. reflexivity. Qed.

Lemma owb_write_bytes_run (b : OneWireBus) (data : list Z) (w : World) :
  owb_write_bytes b data w =
  (write_bytes_status b (trace w) data, extend w [EvWriteBytes data] []).
Proof. unfold owb_write_bytes, bind, history, ret. rewrite emit_run. reflexivity. Qed.

Lemma owb_write_rom_code_run (b : OneWireBus) (c : OneWireBus_ROMCode) (w : World) :
  owb_write_rom_code b c w =
  (write_rom_code_status b (trace w) c, extend w [EvWriteRomCode c] []).
Proof. unfold owb_write_rom_code, bind, history, ret. rewrite emit_run. reflexivity. Qed.

Lemma is_init_run (i : DS18B20_Info) (w : World) :
  init i = true -> _is_init i w = (true, w).
Proof. intros H. unfold _is_init. rewrite H. reflexivity. Qed.

Lemma address_device_run (i : DS18B20_Info) (w : World) :
  init i = true ->
  _address_device i w =
  (reset_presence (bus i) (trace w),
   if reset_presence (bus i) (trace w)
   then extend w (EvReset true :: address_commands i) []
   else extend w [EvReset false] [(LOG_ERROR, MsgNotResponding)]).
Proof.
  intros H. unfold _address_device, bind at 1.
  rewrite (is_init_run i w H).
  unfold bind at 1. rewrite owb_reset_run.
  unfold address_commands.
  destruct (reset_presence (bus i) (trace w)).
  - destruct (solo i); unfold bind, ret.
    + rewrite owb_write_byte_run, extend_extend. reflexivity.
    + rewrite owb_write_byte_run, owb_write_rom_code_run, !extend_extend. reflexivity.
  - unfold bind, ret, ESP_LOGE. rewrite write_log_run, extend_extend. reflexivity.
Qed.

(** ** Addressing *)

(** C5: for an initialised session, [_address_device] returns the presence
    the reset reported; in solo mode it sends only the skip-ROM byte and no
    ROM code, otherwise the match-ROM byte followed by the session's ROM
    code as it is; when no device is present it returns false and sends
    nothing after the reset. *)
Theorem address_device_spec (i : DS18B20_Info) (w : World) :
  init i = true ->
  let present := reset_presence (bus i) (trace w) in
  let r := _address_device i w in
  fst r = present
  /\ (present = true -> solo i = true ->
        wire_since w (snd r) = [EvReset true; EvWriteByte OWB_ROM_SKIP])
  /\ (present = true -> solo i = false ->
        wire_since w (snd r) =
        [EvReset true; EvWriteByte OWB_ROM_MATCH; EvWriteRomCode (rom_code i)])
  /\ (present = false ->
        fst r = false
        /\ wire_since w (snd r) = [EvReset false]
        /\ existsb is_transmission (wire_since w (snd r)) = false
        /\ log (snd r) = log w ++ [(LOG_ERROR, MsgNotResponding)])
  /\ (solo i = true -> existsb carries_rom_code (wire_since w (snd r)) = false)
  /\ trace (snd r) = trace w ++ wire_since w (snd r).
Proof.
  intros H present r. subst r present.
  rewrite (address_device_run i w H). cbn [fst snd].
  destruct (reset_presence (bus i) (trace w)) eqn:P;
    rewrite wire_since_extend; unfold address_commands.
  - split; [reflexivity |].
    split; [intros _ S; rewrite S; reflexivity |].
    split; [intros _ S; rewrite S; reflexivity |].
    split; [discriminate |].
    split; [intros S; rewrite S; reflexivity | reflexivity].
  - split; [reflexivity |].
    split; [discriminate |].
    split; [discriminate |].
    split; [intros _; repeat split; reflexivity |].
    split; [intros _; reflexivity | reflexivity].
Qed.

Lemma address_device_spec_witness :
  fst (_address_device (session_on example_device true false) World_zero) = true
  /\ wire_since World_zero
       (snd (_address_device (session_on example_device true false) World_zero))
     = [EvReset true; EvWriteByte OWB_ROM_MATCH; EvWriteRomCode example_rom_code].
Proof.
  destruct (address_device_spec (session_on example_device true false) World_zero)
    as (A & _ & B & _); [reflexivity |].
  split; [exact A | apply B; reflexivity].
Defined.

(** ** Reading the scratchpad *)

Lemma map_to_uint8_bytes (l : list Z) :
  Forall is_uint8 l -> map to_uint8 l = l.
Proof.
  induction 1 as [| x l Hx _ IH]; [reflexivity |].
  cbn [map]. rewrite IH. unfold to_uint8. rewrite Z.mod_small by exact Hx.
  reflexivity.
Qed.

Lemma scratchpad_bytes_of_bytes (l : list Z) :
  length l = 9%nat -> scratchpad_bytes (scratchpad_of_bytes l) = l.
Proof.
  intros H.
  do 9 (destruct l as [| ? l]; [discriminate H |]).
  destruct l; [reflexivity | discriminate H].
Qed.

Lemma store_bytes_full (buffer data : list Z) :
  length data = length buffer -> store_bytes buffer data = data.
Proof.
  intros H. unfold store_bytes.
  rewrite <- H, firstn_all, H, skipn_all, app_nil_r. reflexivity.
Qed.

Lemma read_scratchpad_absent_run (i : DS18B20_Info) (sp : Scratchpad) (count : Z)
    (w : World) :
  init i = true -> reset_presence (bus i) (trace w) = false ->
  _read_scratchpad i (Some sp) count w =
  ((DS18B20_ERROR_UNKNOWN, Some sp),
   extend w [EvReset false] [(LOG_ERROR, MsgNotResponding)]).
Proof.
  intros H P. unfold _read_scratchpad, bind.
  rewrite (address_device_run i w H), P. reflexivity.
Qed.

Lemma read_scratchpad_crc_run (i : DS18B20_Info) (sp : Scratchpad) (count : Z)
    (content : list Z) (w : World) :
  init i = true -> use_crc i = true ->
  reset_presence (bus i) (trace w) = true ->
  write_byte_status (bus i) (trace w ++ EvReset true :: address_commands i)
    DS18B20_FUNCTION_SCRATCHPAD_READ = OWB_STATUS_OK ->
  read_bytes_reply (bus i)
    (trace w ++ EvReset true :: address_commands i
       ++ [EvWriteByte DS18B20_FUNCTION_SCRATCHPAD_READ])
    sizeof_Scratchpad = (OWB_STATUS_OK, content) ->
  length content = 9%nat -> Forall is_uint8 content ->
  _read_scratchpad i (Some sp) count w =
  ((if owb_crc8_bytes 0 content =? 0 then DS18B20_OK else DS18B20_ERROR_CRC,
    Some (scratchpad_of_bytes content)),
   extend w
     (EvReset true :: address_commands i
        ++ [EvWriteByte DS18B20_FUNCTION_SCRATCHPAD_READ;
            EvReadBytes sizeof_Scratchpad content])
     (if owb_crc8_bytes 0 content =? 0 then [] else [(LOG_ERROR, MsgCrcFailed)])).
Proof.
  intros H C P W R L B.
  unfold _read_scratchpad. rewrite C.
  unfold bind at 1. rewrite (address_device_run i w H), P.
  unfold bind at 1. rewrite owb_write_byte_run.
  cbn [trace extend]. rewrite W. cbn [owb_status_eqb].
  unfold bind at 1. unfold owb_read_bytes, bind at 1, history.
  cbn [trace extend].
  replace (_min sizeof_Scratchpad sizeof_Scratchpad) with sizeof_Scratchpad
    by reflexivity.
  rewrite <- app_assoc. cbn [app]. 
  change ((EvReset true :: address_commands i) ++ [EvWriteByte DS18B20_FUNCTION_SCRATCHPAD_READ])
    with (EvReset true :: address_commands i ++ [EvWriteByte DS18B20_FUNCTION_SCRATCHPAD_READ]).
  rewrite R.
  rewrite (map_to_uint8_bytes content B).
  replace (firstn (Z.to_nat sizeof_Scratchpad) content) with content
    by (symmetry; apply firstn_all2; rewrite L; cbn; lia).
  unfold bind at 1. rewrite emit_run. unfold ret at 1. cbn [fst snd].
  rewrite (store_bytes_full _ content) by (rewrite L; reflexivity).
  cbn [negb]. rewrite (scratchpad_bytes_of_bytes content L).
  rewrite !extend_extend. cbn [app].
  destruct (owb_crc8_bytes 0 content =? 0); cbn [negb owb_status_eqb].
  - reflexivity.
  - unfold bind, ESP_LOGE, ret. rewrite write_log_run, extend_extend.
    rewrite app_nil_r. reflexivity.
Qed.

(** C1: with use_crc set, a device present and a transport that succeeds,
    whatever count is requested the driver asks the bus for the whole nine
    bytes; for every nine-byte content that arrives the buffer holds that
    content, and the call fails with DS18B20_ERROR_CRC exactly when the
    CRC-8 (seed 0) over the nine bytes is not zero and returns DS18B20_OK
    when it is zero. *)
Theorem read_scratchpad_crc_gate (i : DS18B20_Info) (sp : Scratchpad) (count : Z)
    (content : list Z) (w : World) :
  init i = true -> use_crc i = true ->
  reset_presence (bus i) (trace w) = true ->
  write_byte_status (bus i) (trace (snd (_address_device i w)))
    DS18B20_FUNCTION_SCRATCHPAD_READ = OWB_STATUS_OK ->
  read_bytes_reply (bus i)
    (trace (snd (_address_device i w))
       ++ [EvWriteByte DS18B20_FUNCTION_SCRATCHPAD_READ])
    9 = (OWB_STATUS_OK, content) ->
  length content = 9%nat -> Forall is_uint8 content ->
  let r := _read_scratchpad i (Some sp) count w in
  wire_since w (snd r) =
    wire_since w (snd (_address_device i w))
      ++ [EvWriteByte DS18B20_FUNCTION_SCRATCHPAD_READ; EvReadBytes 9 content]
  /\ snd (fst r) = Some (scratchpad_of_bytes content)
  /\ (fst (fst r) = DS18B20_ERROR_CRC <-> owb_crc8_bytes 0 content <> 0)
  /\ (fst (fst r) = DS18B20_OK <-> owb_crc8_bytes 0 content = 0).
Proof.
  intros H C P W R L B r. subst r.
  rewrite (address_device_run i w H), P in W, R |- *.
  cbn [snd trace extend] in W, R.
  rewrite <- app_assoc in R.
  rewrite (read_scratchpad_crc_run i sp count content w H C P W R L B).
  cbn [fst snd]. rewrite !wire_since_extend.
  split; [reflexivity |].
  split; [reflexivity |].
  destruct (owb_crc8_bytes 0 content =? 0) eqn:E.
  - apply Z.eqb_eq in E. split; split; intros; congruence.
  - apply Z.eqb_neq in E. split; split; intros; congruence.
Qed.

Lemma read_scratchpad_crc_gate_witness :
  fst (fst (_read_scratchpad (session_with_bus (fixed_reply_bus bad_content) true false)
              (Some Scratchpad_zero) 2 World_zero)) = DS18B20_ERROR_CRC
  /\ fst (fst (_read_scratchpad (session_with_bus (fixed_reply_bus good_content) true true)
                 (Some Scratchpad_zero) 2 World_zero)) = DS18B20_OK.
Proof.
  split.
  - apply (read_scratchpad_crc_gate
             (session_with_bus (fixed_reply_bus bad_content) true false)
             Scratchpad_zero 2 bad_content World_zero);
      try reflexivity.
    + repeat constructor; unfold is_uint8; lia.
    + vm_compute. discriminate.
  - apply (read_scratchpad_crc_gate
             (session_with_bus (fixed_reply_bus good_content) true true)
             Scratchpad_zero 2 good_content World_zero);
      try reflexivity.
    repeat constructor; unfold is_uint8; lia.
Defined.

(** C4 as stated fails: with nobody on the bus the error is not the one that
    means "no device answered a reset". *)
Lemma read_scratchpad_absent_not_reported :
  reset_presence (bus (session_on absent_device false false)) (trace World_zero) = false
  /\ fst (fst (_read_scratchpad (session_on absent_device false false)
                 (Some Scratchpad_zero) 9 World_zero))
     <> DS18B20_ERROR_NOT_PRESENT.
Proof. split; [reflexivity | vm_compute; discriminate]. Qed.

(** C4, amended: for an initialised session, when no device answers the
    reset made by addressing, [_read_scratchpad] returns the default
    DS18B20_ERROR_UNKNOWN it started with; nothing is sent after the reset
    and the buffer is left as it was. *)
Theorem read_scratchpad_not_present (i : DS18B20_Info) (sp : Scratchpad) (count : Z)
    (w : World) :
  init i = true -> reset_presence (bus i) (trace w) = false ->
  let r := _read_scratchpad i (Some sp) count w in
  fst (_address_device i w) = false
  /\ fst (fst r) = DS18B20_ERROR_UNKNOWN
  /\ snd (fst r) = Some sp
  /\ wire_since w (snd r) = [EvReset false]
  /\ log (snd r) = log w ++ [(LOG_ERROR, MsgNotResponding)].
Proof.
  intros H P r. subst r.
  rewrite (read_scratchpad_absent_run i sp count w H P).
  rewrite (address_device_run i w H), P. cbn [fst snd].
  rewrite wire_since_extend. repeat split; reflexivity.
Qed.

Lemma read_scratchpad_not_present_witness :
  fst (fst (_read_scratchpad (session_on absent_device true false)
              (Some Scratchpad_zero) 9 World_zero)) = DS18B20_ERROR_UNKNOWN.
Proof.
  apply (read_scratchpad_not_present (session_on absent_device true false)
           Scratchpad_zero 9 World_zero); reflexivity.
Defined.

(** ** Resolution management *)

Lemma extracted_resolution_valid (cfg : Z) :
  _check_resolution (Z.land (Z.shiftr cfg 5) 0x03 + DS18B20_RESOLUTION_9_BIT) = true.
Proof.
  apply check_resolution_range. unfold DS18B20_RESOLUTION_9_BIT.
  change 0x03 with (Z.ones 2). rewrite Z.land_ones by lia.
  pose proof (Z.mod_pos_bound (Z.shiftr cfg 5) (2 ^ 2) ltac:(lia)). lia.
Qed.

Lemma read_resolution_run (i : DS18B20_Info) (w : World) :
  init i = true ->
  ds18b20_read_resolution i w =
  (Z.land (Z.shiftr (configuration (buffer_after Scratchpad_zero
       (fst (_read_scratchpad i (Some Scratchpad_zero) 5 w)))) 5) 0x03
   + DS18B20_RESOLUTION_9_BIT,
   snd (_read_scratchpad i (Some Scratchpad_zero) 5 w)).
Proof.
  intros H. unfold ds18b20_read_resolution, bind at 1.
  rewrite (is_init_run i w H). unfold bind.
  change (offsetof_configuration - offsetof_temperature + 1) with 5.
  destruct (_read_scratchpad i (Some Scratchpad_zero) 5 w) as [r w'].
  rewrite extracted_resolution_valid. reflexivity.
Qed.

Lemma read_scratchpad_write_failed_run (i : DS18B20_Info) (sp : Scratchpad)
    (count : Z) (w : World) :
  init i = true -> reset_presence (bus i) (trace w) = true ->
  write_byte_status (bus i) (trace w ++ EvReset true :: address_commands i)
    DS18B20_FUNCTION_SCRATCHPAD_READ = OWB_STATUS_ERROR ->
  _read_scratchpad i (Some sp) count w =
  ((DS18B20_ERROR_OWB, Some sp),
   extend w
     (EvReset true :: address_commands i
        ++ [EvWriteByte DS18B20_FUNCTION_SCRATCHPAD_READ])
     [(LOG_ERROR, MsgWriteByteFailed)]).
Proof.
  intros H P W. unfold _read_scratchpad.
  unfold bind at 1. rewrite (address_device_run i w H), P.
  unfold bind at 1. rewrite owb_write_byte_run.
  cbn [trace extend]. rewrite W. cbn [owb_status_eqb].
  unfold bind, ESP_LOGE, ret. rewrite write_log_run, !extend_extend.
  reflexivity.
Qed.

(** C10 as stated fails: a read that fails its CRC check has filled the
    buffer, and the resolution returned is the one the received
    configuration byte gives, here 12 bit and not 9 bit. *)
Lemma read_resolution_after_crc_failure :
  fst (fst (_read_scratchpad
              (session_with_bus (fixed_reply_bus bad_content) true false)
              (Some Scratchpad_zero) 5 World_zero)) = DS18B20_ERROR_CRC
  /\ fst (ds18b20_read_resolution
            (session_with_bus (fixed_reply_bus bad_content) true false) World_zero)
     = DS18B20_RESOLUTION_12_BIT
  /\ DS18B20_RESOLUTION_12_BIT <> DS18B20_RESOLUTION_9_BIT.
Proof.
  split; [vm_compute; reflexivity |].
  split; [vm_compute; reflexivity | discriminate].
Qed.

(** C10, amended: for an initialised session, [ds18b20_read_resolution]
    returns what bits 5 and 6 of the buffer's configuration byte give,
    whatever error the scratchpad read reported; that value is always one
    of 9, 10, 11, 12, for every configuration byte, so the branch that
    returns the invalid marker is never taken.  When the read fails before
    a byte is stored (no device answers, or the read command is not
    accepted) the zero buffer gives 9 bit; when nine bytes arrive, with a
    good CRC or a bad one, the received configuration byte decides. *)
Theorem read_resolution_ignores_read_error (i : DS18B20_Info) (w : World) :
  init i = true ->
  let r := _read_scratchpad i (Some Scratchpad_zero) 5 w in
  let resolution := fst (ds18b20_read_resolution i w) in
  resolution =
    Z.land (Z.shiftr (configuration (buffer_after Scratchpad_zero (fst r))) 5) 0x03 + 9
  /\ snd (ds18b20_read_resolution i w) = snd r
  /\ 9 <= resolution <= 12
  /\ resolution <> DS18B20_RESOLUTION_INVALID
  /\ (forall cfg : Z, _check_resolution (Z.land (Z.shiftr cfg 5) 0x03 + 9) = true)
  /\ (reset_presence (bus i) (trace w) = false ->
        fst (fst r) = DS18B20_ERROR_UNKNOWN
        /\ resolution = DS18B20_RESOLUTION_9_BIT)
  /\ (reset_presence (bus i) (trace w) = true ->
        write_byte_status (bus i) (trace (snd (_address_device i w)))
          DS18B20_FUNCTION_SCRATCHPAD_READ = OWB_STATUS_ERROR ->
        fst (fst r) = DS18B20_ERROR_OWB
        /\ resolution = DS18B20_RESOLUTION_9_BIT)
  /\ (forall content,
        use_crc i = true ->
        reset_presence (bus i) (trace w) = true ->
        write_byte_status (bus i) (trace (snd (_address_device i w)))
          DS18B20_FUNCTION_SCRATCHPAD_READ = OWB_STATUS_OK ->
        read_bytes_reply (bus i)
          (trace (snd (_address_device i w))
             ++ [EvWriteByte DS18B20_FUNCTION_SCRATCHPAD_READ])
          9 = (OWB_STATUS_OK, content) ->
        length content = 9%nat -> Forall is_uint8 content ->
        (owb_crc8_bytes 0 content <> 0 -> fst (fst r) = DS18B20_ERROR_CRC)
        /\ resolution = Z.land (Z.shiftr (nth 4 content 0) 5) 0x03 + 9).
Proof.
  intros H r res. subst r res.
  rewrite (read_resolution_run i w H). cbn [fst snd].
  pose proof (extracted_resolution_valid
    (configuration (buffer_after Scratchpad_zero
       (fst (_read_scratchpad i (Some Scratchpad_zero) 5 w))))) as V.
  apply check_resolution_range in V.
  unfold DS18B20_RESOLUTION_9_BIT, DS18B20_RESOLUTION_INVALID in *.
  split; [reflexivity |].
  split; [reflexivity |].
  split; [exact V |].
  split; [lia |].
  split; [exact extracted_resolution_valid |].
  split.
  { intros P. rewrite (read_scratchpad_absent_run i Scratchpad_zero 5 w H P).
    split; reflexivity. }
  split.
  { intros P W. rewrite (address_device_run i w H), P in W.
    cbn [snd trace extend] in W.
    rewrite (read_scratchpad_write_failed_run i Scratchpad_zero 5 w H P W).
    split; reflexivity. }
  intros content C P W R L B.
  rewrite (address_device_run i w H), P in W, R.
  cbn [snd trace extend] in W, R. rewrite <- app_assoc in R.
  rewrite (read_scratchpad_crc_run i Scratchpad_zero 5 content w H C P W R L B).
  cbn [fst snd buffer_after scratchpad_of_bytes configuration].
  split; [| reflexivity].
  intros NZ. apply Z.eqb_neq in NZ. rewrite NZ. reflexivity.
Qed.

Lemma read_resolution_ignores_read_error_witness :
  fst (fst (_read_scratchpad (session_on absent_device false false)
              (Some Scratchpad_zero) 5 World_zero)) = DS18B20_ERROR_UNKNOWN
  /\ fst (ds18b20_read_resolution (session_on absent_device false false) World_zero)
     = DS18B20_RESOLUTION_9_BIT.
Proof.
  destruct (read_resolution_ignores_read_error
              (session_on absent_device false false) World_zero)
    as (_ & _ & _ & _ & _ & A & _); [reflexivity |].
  apply A. reflexivity.
Defined.

(** Without CRC, a read of five bytes that the bus serves. *)
Lemma read_scratchpad_nocrc_run (i : DS18B20_Info) (sp : Scratchpad)
    (content : list Z) (w : World) :
  init i = true -> use_crc i = false ->
  reset_presence (bus i) (trace w) = true ->
  write_byte_status (bus i) (trace w ++ EvReset true :: address_commands i)
    DS18B20_FUNCTION_SCRATCHPAD_READ = OWB_STATUS_OK ->
  read_bytes_reply (bus i)
    (trace w ++ EvReset true :: address_commands i
       ++ [EvWriteByte DS18B20_FUNCTION_SCRATCHPAD_READ])
    5 = (OWB_STATUS_OK, content) ->
  length content = 5%nat -> Forall is_uint8 content ->
  exists present : bool,
  _read_scratchpad i (Some sp) 5 w =
  ((DS18B20_OK,
    Some (scratchpad_of_bytes (content ++ skipn 5 (scratchpad_bytes sp)))),
   extend w
     (EvReset true :: address_commands i
        ++ [EvWriteByte DS18B20_FUNCTION_SCRATCHPAD_READ;
            EvReadBytes 5 content; EvReset present])
     []).
Proof.
  intros H C P W R L B.
  unfold _read_scratchpad. rewrite C.
  unfold bind at 1. rewrite (address_device_run i w H), P.
  unfold bind at 1. rewrite owb_write_byte_run.
  cbn [trace extend]. rewrite W. cbn [owb_status_eqb].
  unfold bind at 1. unfold owb_read_bytes, bind at 1, history.
  cbn [trace extend].
  replace (_min sizeof_Scratchpad 5) with 5 by reflexivity.
  rewrite <- app_assoc. cbn [app].
  rewrite R.
  rewrite (map_to_uint8_bytes content B).
  replace (firstn (Z.to_nat 5) content) with content
    by (symmetry; apply firstn_all2; rewrite L; cbn; lia).
  unfold bind at 1. rewrite emit_run. unfold ret at 1. cbn [fst snd].
  cbn [negb owb_status_eqb].
  unfold bind at 1. rewrite owb_reset_run. unfold ret.
  rewrite !extend_extend. cbn [app].
  replace (store_bytes (scratchpad_bytes sp) content)
    with (content ++ skipn 5 (scratchpad_bytes sp)).
  - rewrite <- ?app_assoc. cbn [app]. eexists. reflexivity.
  - unfold store_bytes. rewrite L. cbn [scratchpad_bytes length].
    rewrite firstn_all2 by (rewrite L; lia). reflexivity.
Qed.

Lemma set_resolution_run (i : DS18B20_Info) (r : Z) (w : World) :
  init i = true -> _check_resolution (resolution i) = true ->
  let rd := _read_scratchpad i (Some Scratchpad_zero) 5 w in
  let scratchpad :=
    set_configuration (configuration_value r) (buffer_after Scratchpad_zero (fst rd)) in
  let wr := _write_scratchpad i scratchpad true (snd rd) in
  ds18b20_set_resolution i r w =
  if fst wr then ((true, set_info_resolution r i), snd wr)
  else
    ((false, set_info_resolution (fst (ds18b20_read_resolution i (snd wr))) i),
     extend (snd (ds18b20_read_resolution i (snd wr))) [] [(LOG_WARN, MsgConsistencyLost)]).
Proof.
  intros H V rd scratchpad wr. subst wr scratchpad rd.
  unfold ds18b20_set_resolution, bind at 1.
  rewrite (is_init_run i w H), V.
  change (offsetof_configuration - offsetof_temperature + 1) with 5.
  unfold bind at 1.
  destruct (_read_scratchpad i (Some Scratchpad_zero) 5 w) as [rd w1].
  cbn [fst snd]. unfold bind at 1.
  destruct (_write_scratchpad i
    (set_configuration (configuration_value r) (buffer_after Scratchpad_zero rd))
    true w1) as [[|] w2]; cbn [fst snd].
  - reflexivity.
  - unfold bind at 1.
    destruct (ds18b20_read_resolution i w2) as [refreshed w3]. cbn [fst snd].
    unfold bind, ESP_LOGW, ret. rewrite write_log_run. reflexivity.
Qed.

(** Sessions come from the two constructors, which set [init], and no
    operation clears it: a session the API has given a resolution to is an
    initialised one. *)
Lemma session_stays_initialised (b : OneWireBus) (c : OneWireBus_ROMCode)
    (i : DS18B20_Info) (r : Z) (crc : bool) (w : World) :
  init (fst (ds18b20_init b c w)) = true
  /\ init (fst (ds18b20_init_solo b w)) = true
  /\ init (snd (fst (ds18b20_set_resolution i r w))) = init i
  /\ init (fst (ds18b20_use_crc i crc w)) = init i.
Proof.
  split; [| split; [| split]].
  - unfold ds18b20_init, bind.
    destruct (ds18b20_read_resolution _ w) as [x w']. reflexivity.
  - unfold ds18b20_init_solo, bind.
    destruct (ds18b20_read_resolution _ w) as [x w']. reflexivity.
  - unfold ds18b20_set_resolution, bind at 1.
    destruct (_is_init i w) as [[|] w0]; [| reflexivity].
    destruct (_check_resolution (resolution i)).
    + unfold bind at 1.
      destruct (_read_scratchpad i (Some Scratchpad_zero) _ w0) as [rd w1].
      unfold bind at 1.
      destruct (_write_scratchpad i _ true w1) as [[|] w2]; [reflexivity |].
      unfold bind at 1.
      destruct (ds18b20_read_resolution i w2) as [x w3]. reflexivity.
    + reflexivity.
  - unfold ds18b20_use_crc, bind.
    destruct (_is_init i w) as [[|] w0]; reflexivity.
Qed.

(** C3 as stated fails: a device that holds 12 bit, correctly cached as
    12 bit, is taken off the bus after the write.  The verification fails,
    [ds18b20_set_resolution] returns false, and the refreshing read gets no
    answer: after the write the wire carries two unanswered resets and no
    byte from the device.  The cache is then 9 bit, while the device still
    holds 12 bit. *)
Lemma set_resolution_failure_cache_disagrees :
  resolution (session_with_bus (departing_bus example_device 2) true true)
  = DS18B20_RESOLUTION_12_BIT
  /\ resolution_of_configuration (nth 4 (st_memory (sim_state example_device [])) 0)
     = DS18B20_RESOLUTION_12_BIT
  /\ fst (fst (ds18b20_set_resolution
                 (session_with_bus (departing_bus example_device 2) true true)
                 DS18B20_RESOLUTION_12_BIT World_zero)) = false
  /\ resolution (snd (fst (ds18b20_set_resolution
                 (session_with_bus (departing_bus example_device 2) true true)
                 DS18B20_RESOLUTION_12_BIT World_zero)))
     = DS18B20_RESOLUTION_9_BIT
  /\ skipn 8 (trace (snd (ds18b20_set_resolution
                 (session_with_bus (departing_bus example_device 2) true true)
                 DS18B20_RESOLUTION_12_BIT World_zero)))
     = [EvReset false; EvReset false]
  /\ resolution_of_configuration
       (nth 4 (st_memory (sim_state example_device
          (trace (snd (ds18b20_set_resolution
                 (session_with_bus (departing_bus example_device 2) true true)
                 DS18B20_RESOLUTION_12_BIT World_zero))))) 0)
     = DS18B20_RESOLUTION_12_BIT
  /\ DS18B20_RESOLUTION_9_BIT <> DS18B20_RESOLUTION_12_BIT.
Proof.
  repeat (split; [vm_compute; reflexivity |]). discriminate.
Qed.

(** C3, amended: for an initialised session with a valid cached resolution
    and any requested resolution, when [ds18b20_set_resolution] returns
    true the cached resolution is the requested one.  When it returns false
    the cache is overwritten from one more scratchpad read, made on the bus
    as the failed write left it, whose error is ignored: the cache is what
    bits 5 and 6 of that read's buffer give, one of 9..12.  That is the
    resolution of the configuration byte the device sends when the read
    receives its bytes, with a good CRC or a bad one, and 9 bit, from the
    zeroed buffer, when no device answers the read's reset or the read
    command is refused.  The warning "Resolution consistency lost" is
    logged after that read in every case. *)
Theorem set_resolution_failure_refreshes_cache (i : DS18B20_Info) (r : Z)
    (w : World) :
  init i = true -> _check_resolution (resolution i) = true ->
  let rd := _read_scratchpad i (Some Scratchpad_zero) 5 w in
  let scratchpad :=
    set_configuration (configuration_value r) (buffer_after Scratchpad_zero (fst rd)) in
  let wr := _write_scratchpad i scratchpad true (snd rd) in
  let out := ds18b20_set_resolution i r w in
  let cache := resolution (snd (fst out)) in
  let w2 := snd wr in
  let reread := _read_scratchpad i (Some Scratchpad_zero) 5 w2 in
  let n := if use_crc i then 9 else 5 in
  fst (fst out) = fst wr
  /\ (fst (fst out) = true -> cache = r /\ snd out = w2)
  /\ (fst (fst out) = false ->
      cache = resolution_of_configuration
                (configuration (buffer_after Scratchpad_zero (fst reread)))
      /\ 9 <= cache <= 12
      /\ snd out = extend (snd reread) [] [(LOG_WARN, MsgConsistencyLost)]
      /\ (reset_presence (bus i) (trace w2) = false ->
          cache = DS18B20_RESOLUTION_9_BIT
          /\ wire_since w2 (snd out) = [EvReset false])
      /\ (reset_presence (bus i) (trace w2) = true ->
          write_byte_status (bus i) (trace w2 ++ EvReset true :: address_commands i)
            DS18B20_FUNCTION_SCRATCHPAD_READ = OWB_STATUS_ERROR ->
          cache = DS18B20_RESOLUTION_9_BIT)
      /\ (forall content,
            reset_presence (bus i) (trace w2) = true ->
            write_byte_status (bus i) (trace w2 ++ EvReset true :: address_commands i)
              DS18B20_FUNCTION_SCRATCHPAD_READ = OWB_STATUS_OK ->
            read_bytes_reply (bus i)
              (trace w2 ++ EvReset true :: address_commands i
                 ++ [EvWriteByte DS18B20_FUNCTION_SCRATCHPAD_READ])
              n = (OWB_STATUS_OK, content) ->
            length content = Z.to_nat n -> Forall is_uint8 content ->
            cache = resolution_of_configuration (nth 4 content 0))).
Proof.
  intros H V rd scratchpad wr out cache w2 reread n.
  subst cache out.
  rewrite (set_resolution_run i r w H V).
  fold rd. fold scratchpad. fold wr. fold w2.
  destruct (fst wr); cbn [fst snd set_info_resolution resolution].
  - split; [reflexivity |].
    split; [intros _; split; reflexivity | discriminate].
  - split; [reflexivity |].
    split; [discriminate |].
    intros _.
    rewrite (read_resolution_run i w2 H). fold reread. cbn [fst snd].
    split; [reflexivity |].
    split.
    { apply check_resolution_range. apply extracted_resolution_valid. }
    split; [reflexivity |].
    split.
    { intros P. subst reread.
      rewrite (read_scratchpad_absent_run i Scratchpad_zero 5 w2 H P).
      cbn [fst snd buffer_after]. split; [reflexivity |].
      rewrite extend_extend. apply wire_since_extend. }
    split.
    { intros P W. subst reread.
      rewrite (read_scratchpad_write_failed_run i Scratchpad_zero 5 w2 H P W).
      reflexivity. }
    intros content P W R L B. subst reread n.
    destruct (use_crc i) eqn:C.
    + rewrite (read_scratchpad_crc_run i Scratchpad_zero 5 content w2 H C P W R L B).
      reflexivity.
    + destruct (read_scratchpad_nocrc_run i Scratchpad_zero content w2 H C P W R L B)
        as (present & E).
      rewrite E. cbn [fst snd buffer_after].
      do 5 (destruct content as [| ? content]; [discriminate L |]).
      destruct content; [reflexivity | discriminate L].
Qed.

Lemma set_resolution_failure_refreshes_cache_witness :
  (fst (fst (ds18b20_set_resolution (session_on example_device true false) 9 World_zero))
     = true
   /\ resolution
        (snd (fst (ds18b20_set_resolution (session_on example_device true false) 9
                     World_zero))) = 9)
  /\ (fst (fst (ds18b20_set_resolution
                  (session_with_bus (departing_bus example_device 1) true true) 10
                  World_zero)) = false
      /\ resolution
           (snd (fst (ds18b20_set_resolution
                        (session_with_bus (departing_bus example_device 1) true true) 10
                        World_zero))) = DS18B20_RESOLUTION_9_BIT)
  /\ (fst (fst (ds18b20_set_resolution
                  (session_with_bus (fixed_reply_bus good_content) false false) 9
                  World_zero)) = false
      /\ resolution
           (snd (fst (ds18b20_set_resolution
                        (session_with_bus (fixed_reply_bus good_content) false false) 9
                        World_zero)))
         = resolution_of_configuration 0x7F).
Proof.
  split; [| split].
  - pose proof (set_resolution_failure_refreshes_cache
                  (session_on example_device true false) 9 World_zero
                  eq_refl eq_refl) as T.
    cbv zeta in T. destruct T as (_ & A & _).
    assert (fst (fst (ds18b20_set_resolution (session_on example_device true false) 9
                        World_zero)) = true) as E by (vm_compute; reflexivity).
    split; [exact E | apply (A E)].
  - pose proof (set_resolution_failure_refreshes_cache
                  (session_with_bus (departing_bus example_device 1) true true) 10
                  World_zero eq_refl eq_refl) as T.
    cbv zeta in T. destruct T as (_ & _ & A).
    assert (fst (fst (ds18b20_set_resolution
                        (session_with_bus (departing_bus example_device 1) true true) 10
                        World_zero)) = false) as E by (vm_compute; reflexivity).
    split; [exact E |].
    destruct (A E) as (_ & _ & _ & B & _).
    apply B. vm_compute. reflexivity.
  - pose proof (set_resolution_failure_refreshes_cache
                  (session_with_bus (fixed_reply_bus good_content) false false) 9
                  World_zero eq_refl eq_refl) as T.
    cbv zeta in T. destruct T as (_ & _ & A).
    assert (fst (fst (ds18b20_set_resolution
                        (session_with_bus (fixed_reply_bus good_content) false false) 9
                        World_zero)) = false) as E by (vm_compute; reflexivity).
    split; [exact E |].
    destruct (A E) as (_ & _ & _ & _ & _ & B).
    apply (B [0x50; 0x05; 0x4B; 0x46; 0x7F]); try (vm_compute; reflexivity).
    repeat constructor; unfold is_uint8; lia.
Defined.

(** ** Waiting for a conversion *)

Lemma tick_periods_all_complete (p : Z) : 1 <= p <= 1000 -> In p tick_periods_all.
Proof. intros H. apply Zrange_complete. lia. Qed.

Lemma ticks_cover_bound_all :
  forallb (fun r => forallb (ticks_cover_bound r) tick_periods_all) resolutions_all = true.
Proof. vm_compute. reflexivity. Qed.

Lemma ticks_cover_bound_ok (r p : Z) :
  _check_resolution r = true -> 1 <= p <= 1000 ->
  exists bound,
    SF2Q (max_conversion_time r) = Some bound
    /\ 1 <= max_conversion_ticks p r
    /\ max_conversion_ticks p r * p < 2 ^ 11
    /\ (bound <= max_conversion_ticks p r * p # 1)%Q
    /\ ~ (bound <= (max_conversion_ticks p r - 1) * p # 1)%Q.
Proof.
  intros Hr Hp.
  pose proof ticks_cover_bound_all as A.
  rewrite forallb_forall in A.
  specialize (A r (resolutions_all_complete r Hr)).
  rewrite forallb_forall in A.
  specialize (A p (tick_periods_all_complete p Hp)).
  unfold ticks_cover_bound in A.
  destruct (SF2Q (max_conversion_time r)) as [bound |]; [| discriminate].
  exists bound.
  rewrite !andb_true_iff in A. destruct A as (((A1 & A2) & A3) & A4).
  apply Z.leb_le in A1. apply Z.ltb_lt in A2. apply Qle_bool_iff in A3.
  apply negb_true_iff in A4.
  repeat split; try assumption.
  intros C. apply Qle_bool_iff in C. congruence.
Qed.

(** C6: for the four resolutions the bound [max_conversion_time] is a float
    that stands for exactly 750 / 2^(12 - r) * 1.1 milliseconds, so the
    bound at 9 bit is one eighth of the bound at 12 bit; the loop is given
    the least number of ticks that covers the bound. *)
Theorem max_conversion_time_spec (r : Z) :
  9 <= r <= 12 ->
  (exists v, SF2Q (max_conversion_time r) = Some v
             /\ (v == (750 # 1) / inject_Z (2 ^ (12 - r)) * (11 # 10))%Q
             /\ (forall p, 1 <= p <= 1000 ->
                   (v <= max_conversion_ticks p r * p # 1)%Q
                   /\ ~ (v <= (max_conversion_ticks p r - 1) * p # 1)%Q))
  /\ (exists v9 v12,
        SF2Q (max_conversion_time DS18B20_RESOLUTION_9_BIT) = Some v9
        /\ SF2Q (max_conversion_time DS18B20_RESOLUTION_12_BIT) = Some v12
        /\ (v9 == v12 / (8 # 1))%Q).
Proof.
  intros H.
  assert (_check_resolution r = true) as V by (apply check_resolution_range; exact H).
  assert (r = 9 \/ r = 10 \/ r = 11 \/ r = 12) as D by lia.
  split.
  - destruct (SF2Q (max_conversion_time r)) as [v |] eqn:E.
    + exists v. split; [reflexivity |]. split.
      * destruct D as [-> | [-> | [-> | ->]]];
          vm_compute in E; injection E as <-; vm_compute; reflexivity.
      * intros p Hp.
        destruct (ticks_cover_bound_ok r p V Hp) as (b & Eb & _ & _ & A & B).
        rewrite E in Eb. injection Eb as <-. split; assumption.
    + exfalso. destruct D as [-> | [-> | [-> | ->]]]; vm_compute in E; discriminate.
  - do 2 eexists.
    split; [vm_compute; reflexivity |].
    split; [vm_compute; reflexivity | vm_compute; reflexivity].
Qed.

Lemma max_conversion_time_spec_witness :
  exists v, SF2Q (max_conversion_time 10) = Some v
            /\ (v == (750 # 1) / inject_Z (2 ^ (12 - 10)) * (11 # 10))%Q.
Proof.
  destruct (max_conversion_time_spec 10) as [(v & A & B & _) _]; [lia |].
  exists v. split; [exact A | exact B].
Defined.

Lemma tick_advance (t s x : Z) :
  to_uint32 (to_uint32 (t + x) - s) = to_uint32 (to_uint32 (t - s) + x).
Proof.
  unfold to_uint32.
  rewrite Zminus_mod_idemp_l, Zplus_mod_idemp_l.
  f_equal. lia.
Qed.

Lemma vTaskDelay_run (n : Z) (w : World) :
  vTaskDelay n w =
  (tt, {| trace := trace w;
          tick_count := to_uint32 (tick_count w + n
                          + match latency w with [] => 0 | l :: _ => Z.max 0 l end);
          latency := tl (latency w); log := log w |}).
Proof. reflexivity. Qed.

Lemma owb_read_bit_run (b : OneWireBus) (w : World) :
  owb_read_bit b w =
  ((fst (read_bit_reply b (trace w)), to_uint8 (snd (read_bit_reply b (trace w)))),
   extend w [EvReadBit (to_uint8 (snd (read_bit_reply b (trace w))))] []).
Proof.
  unfold owb_read_bit, bind, history.
  destruct (read_bit_reply b (trace w)) as [st bit].
  unfold bind. rewrite emit_run. reflexivity.
Qed.

(** The loop leaves after at most [max_ticks - d0] polls, where [d0] ticks
    have gone by: every round takes at least one tick.  [B] bounds the ticks
    that can have gone by when it leaves. *)
Lemma poll_conversion_exits (b : OneWireBus) (start M B : Z) :
  1 <= M -> M <= B -> B < 2 ^ 32 ->
  forall (fuel : nat) (w : World),
    let d0 := to_uint32 (tick_count w - start) in
    d0 < M ->
    Forall (fun l => M + l <= B) (latency w) ->
    (Z.to_nat (M - d0) <= fuel)%nat ->
    exists (n : nat) (status d : Z) (w' : World),
      poll_conversion fuel b start M w = (Some (status, d), w')
      /\ trace w' = trace w ++ map EvReadBit (repeat 0 n ++ [status])
      /\ log w' = log w
      /\ Z.of_nat (S n) <= M - d0
      /\ d0 < d <= B
      /\ (status = 0 -> M <= d)
      /\ d = to_uint32 (tick_count w' - start).
Proof.
  intros HM HB HN fuel.
  induction fuel as [| fuel IH]; intros w d0 Hd HL Hf.
  - exfalso. lia.
  - cbn [poll_conversion]. unfold bind at 1. rewrite vTaskDelay_run.
    unfold bind at 1. rewrite owb_read_bit_run. cbn [trace snd].
    unfold bind at 1, xTaskGetTickCount at 1. cbn [extend tick_count].
    set (extra := match latency w with [] => 0 | l :: _ => Z.max 0 l end).
    set (status := to_uint8 (snd (read_bit_reply b (trace w)))).
    assert (0 <= extra /\ M + extra <= B) as [He1 He2].
    { subst extra. destruct (latency w) as [| l ls]; [lia |].
      inversion HL; subst. lia. }
    assert (0 <= d0) as Hd0 by (apply Z.mod_pos_bound; lia).
    replace (tick_count w + 1 + extra) with (tick_count w + (1 + extra)) by lia.
    rewrite tick_advance. fold d0.
    assert (to_uint32 (d0 + (1 + extra)) = d0 + 1 + extra) as Ed.
    { unfold to_uint32. rewrite Z.mod_small; lia. }
    rewrite Ed.
    assert (to_uint32 M = M) as EM by (unfold to_uint32; rewrite Z.mod_small; lia).
    rewrite EM.
    destruct ((status =? 0) && (d0 + 1 + extra <? M)) eqn:Cont.
    + apply andb_true_iff in Cont. destruct Cont as [Cs Cd].
      apply Z.eqb_eq in Cs. apply Z.ltb_lt in Cd.
      set (w1 := extend _ _ _).
      assert (to_uint32 (tick_count w1 - start) = d0 + 1 + extra) as E1.
      { subst w1. cbn [extend tick_count].
        rewrite tick_advance. fold d0. exact Ed. }
      destruct (IH w1) as (n & st & d & w' & R & T & L & Hn & Hdd & Hs & Ht).
      * rewrite E1. exact Cd.
      * subst w1. cbn [extend latency]. destruct (latency w); [constructor |].
        inversion HL; assumption.
      * rewrite E1. lia.
      * exists (S n), st, d, w'. rewrite R.
        split; [reflexivity |].
        split.
        { rewrite T. subst w1. cbn [extend trace]. rewrite <- app_assoc.
          rewrite Cs. reflexivity. }
        split; [rewrite L; subst w1; cbn [extend log]; rewrite app_nil_r; reflexivity |].
        rewrite E1 in Hn, Hdd.
        split; [lia |]. split; [lia |]. split; [exact Hs | exact Ht].
    + exists O, status, (d0 + 1 + extra), (extend
        {| trace := trace w; tick_count := to_uint32 (tick_count w + (1 + extra));
           latency := tl (latency w); log := log w |} [EvReadBit status] []).
      unfold ret.
      split; [reflexivity |].
      split; [reflexivity |].
      split; [cbn [extend log]; rewrite app_nil_r; reflexivity |].
      split; [lia |]. split; [lia |].
      split.
      * intros Hs. apply andb_false_iff in Cont. destruct Cont as [C | C].
        -- apply Z.eqb_neq in C. contradiction.
        -- apply Z.ltb_ge in C. exact C.
      * cbn [extend tick_count]. rewrite tick_advance. fold d0.
        symmetry. exact Ed.
Qed.

(** *** Integers below 2^24 convert to [float] exactly *)

Lemma pow2_pos_split (d : positive) : 2 ^ Z.pos d = 2 * 2 ^ (Z.pos d - 1).
Proof. rewrite <- Z.pow_succ_r by lia. f_equal. lia. Qed.

Lemma digits2_pos_bounds (m : positive) :
  2 ^ (Z.pos (digits2_pos m) - 1) <= Z.pos m < 2 ^ Z.pos (digits2_pos m).
Proof.
  induction m as [m IH | m IH |]; cbn [digits2_pos].
  - rewrite Pos2Z.inj_succ.
    replace (Z.succ (Z.pos (digits2_pos m)) - 1) with (Z.pos (digits2_pos m)) by lia.
    rewrite Z.pow_succ_r by lia.
    rewrite (pow2_pos_split (digits2_pos m)) in *. lia.
  - rewrite Pos2Z.inj_succ.
    replace (Z.succ (Z.pos (digits2_pos m)) - 1) with (Z.pos (digits2_pos m)) by lia.
    rewrite Z.pow_succ_r by lia.
    rewrite (pow2_pos_split (digits2_pos m)) in *. lia.
  - cbn. lia.
Qed.

Lemma digits2_pos_le_24 (m : positive) :
  Z.pos m < 2 ^ 24 -> Z.pos (digits2_pos m) <= 24.
Proof.
  intros H. pose proof (digits2_pos_bounds m) as [L _].
  assert (2 ^ (Z.pos (digits2_pos m) - 1) < 2 ^ 24) as P by lia.
  apply Z.pow_lt_mono_r_iff in P; lia.
Qed.

Lemma F32_of_Z_exact_pos (m : positive) :
  Z.pos m < 2 ^ 24 ->
  exists v, SF2Q (F32.of_Z (Z.pos m)) = Some v /\ (v == Z.pos m # 1)%Q.
Proof.
  intros H. pose proof (digits2_pos_le_24 m H) as D.
  unfold F32.of_Z, binary_normalize, binary_round.
  remember (digits2_pos m) as d eqn:Hd. symmetry in Hd.
  enum_pos d;
    cbn; unfold binary_round_aux, shr_fexp, Zdigits2; cbn [digits2_pos];
    rewrite Hd; cbn; unfold round_nearest_even; cbn; rewrite ?Hd; cbn;
    (eexists; split; [reflexivity |]; unfold Qeq; cbn; lia).
Qed.

Lemma F32_of_Z_exact (z : Z) :
  0 <= z < 2 ^ 24 ->
  exists v, SF2Q (F32.of_Z z) = Some v /\ (v == z # 1)%Q.
Proof.
  intros H. destruct z as [| m | m].
  - exists (0 # 1). split; reflexivity.
  - apply F32_of_Z_exact_pos. lia.
  - lia.
Qed.

(** *** Larger integers convert to a [float] of at least 2^24 *)

Lemma shr_1_m (mrs : shr_record) :
  0 <= shr_m mrs -> shr_m (shr_1 mrs) = shr_m mrs / 2.
Proof.
  destruct mrs as [m r s]. cbn [shr_m]. intros H.
  rewrite <- Z.div2_div.
  destruct m as [| [p | p |] | p]; try reflexivity. lia.
Qed.

Lemma pow2_xO (k : positive) : 2 ^ Z.pos k~0 = 2 ^ Z.pos k * 2 ^ Z.pos k.
Proof.
  replace (Z.pos k~0) with (Z.pos k + Z.pos k) by lia.
  apply Z.pow_add_r; lia.
Qed.

Lemma pow2_xI (k : positive) : 2 ^ Z.pos k~1 = 2 * (2 ^ Z.pos k * 2 ^ Z.pos k).
Proof.
  replace (Z.pos k~1) with (1 + (Z.pos k + Z.pos k)) by lia.
  rewrite Z.pow_add_r by lia. rewrite (Z.pow_add_r 2 (Z.pos k)) by lia.
  reflexivity.
Qed.

Lemma iter_pos_shr_m (k : positive) :
  forall mrs, 0 <= shr_m mrs ->
    shr_m (iter_pos shr_1 k mrs) = shr_m mrs / 2 ^ Z.pos k.
Proof.
  induction k as [k IH | k IH |]; intros mrs H; cbn [iter_pos].
  - assert (0 <= shr_m (shr_1 mrs)) as H1
      by (rewrite shr_1_m by exact H; apply Z.div_pos; lia).
    assert (0 <= shr_m (iter_pos shr_1 k (shr_1 mrs))) as H2
      by (rewrite IH by exact H1; apply Z.div_pos; lia).
    rewrite IH by exact H2. rewrite IH by exact H1. rewrite shr_1_m by exact H.
    rewrite !Z.div_div by lia. rewrite pow2_xI. reflexivity.
  - assert (0 <= shr_m (iter_pos shr_1 k mrs)) as H2
      by (rewrite IH by exact H; apply Z.div_pos; lia).
    rewrite IH by exact H2. rewrite IH by exact H.
    rewrite !Z.div_div by lia. rewrite pow2_xO. reflexivity.
  - rewrite shr_1_m by exact H. reflexivity.
Qed.

Lemma round_nearest_even_range (m : Z) (l : location) :
  m <= round_nearest_even m l <= m + 1.
Proof.
  unfold round_nearest_even.
  destruct l as [| []]; try lia. destruct (Z.even m); lia.
Qed.

Lemma Zdigits2_of_bounds (x n : Z) :
  0 < n -> 2 ^ (n - 1) <= x < 2 ^ n -> Zdigits2 x = n.
Proof.
  intros Hn [L U].
  assert (0 < 2 ^ (n - 1)) as P by (apply Z.pow_pos_nonneg; lia).
  assert (0 < x) as Px by (eapply Z.lt_le_trans; eassumption).
  destruct x as [| p | p]; try (exfalso; lia).
  - cbn [Zdigits2]. pose proof (digits2_pos_bounds p) as [L' U'].
    set (d := Z.pos (digits2_pos p)) in *.
    assert (n - 1 < d) as A.
    { apply (Z.pow_lt_mono_r_iff 2); lia. }
    assert (d - 1 < n) as A'.
    { apply (Z.pow_lt_mono_r_iff 2); lia. }
    lia.
Qed.

Lemma F32_of_Z_large_pos (m : positive) :
  2 ^ 24 <= Z.pos m < 2 ^ 32 ->
  exists v, SF2Q (F32.of_Z (Z.pos m)) = Some v /\ (2 ^ 24 # 1 <= v)%Q.
Proof.
  intros H.
  pose proof (digits2_pos_bounds m) as Dg.
  assert (24 < Z.pos (digits2_pos m) <= 32) as D.
  { split.
    - apply (Z.pow_lt_mono_r_iff 2); lia.
    - assert (Z.pos (digits2_pos m) - 1 < 32); [| lia].
      apply (Z.pow_lt_mono_r_iff 2); lia. }
  unfold F32.of_Z, binary_normalize, binary_round.
  remember (digits2_pos m) as d eqn:Hd. symmetry in Hd.
  enum_pos d; try (exfalso; lia).
  all: cbn; unfold binary_round_aux, shr_fexp at 1, Zdigits2 at 1; rewrite Hd;
    cbn -[iter_pos shr_1 round_nearest_even shr_fexp].
  all: match goal with
       | |- context [iter_pos shr_1 ?k ?rec] =>
           pose proof (iter_pos_shr_m k rec ltac:(cbn; lia)) as Q;
           cbn [shr_m] in Q;
           remember (iter_pos shr_1 k rec) as X eqn:EX
       end.
  all: pose proof (round_nearest_even_range (shr_m X) (loc_of_shr_record X)) as Rn;
    remember (round_nearest_even (shr_m X) (loc_of_shr_record X)) as rnd eqn:Ernd.
  all: assert (2 ^ 23 <= rnd <= 2 ^ 24) as Brnd
         by (rewrite Q in Rn; cbn in Dg, Rn |- *; Z.div_mod_to_equations; lia).
  all: clear EX Ernd Rn Q X.
  all: destruct (Z.eq_dec rnd (2 ^ 24)) as [-> | Ne];
    [ cbn; eexists; split; [reflexivity | unfold Qle; cbn; lia]
    | unfold shr_fexp; rewrite (Zdigits2_of_bounds rnd 24) by (cbn; lia);
      cbn; destruct rnd as [| r | r]; try (exfalso; lia); cbn;
      eexists; split; [reflexivity | unfold Qle; cbn; lia] ].
Qed.

Lemma F32_of_Z_value (z : Z) :
  0 <= z < 2 ^ 32 ->
  exists v, SF2Q (F32.of_Z z) = Some v
    /\ (z < 2 ^ 24 -> (v == z # 1)%Q)
    /\ (forall q : Q, (q <= z # 1)%Q -> (q <= 2 ^ 24 # 1)%Q -> (q <= v)%Q).
Proof.
  intros H. destruct (Z_lt_le_dec z (2 ^ 24)) as [S | L].
  - destruct (F32_of_Z_exact z ltac:(lia)) as (v & E & V).
    exists v. split; [exact E |]. split; [intros _; exact V |].
    intros q Hq _. rewrite V. exact Hq.
  - destruct z as [| m | m]; try (exfalso; lia).
    destruct (F32_of_Z_large_pos m ltac:(lia)) as (v & E & V).
    exists v. split; [exact E |]. split; [intros C; exfalso; lia |].
    intros q _ Hq. eapply Qle_trans; [exact Hq | exact V].
Qed.

Lemma wait_for_conversion_invalid_run (p : Z) (fuel : nat) (i : DS18B20_Info)
    (w : World) :
  _check_resolution (resolution i) = false ->
  _wait_for_conversion p fuel i w = (Some (S754_zero false), w).
Proof. intros H. unfold _wait_for_conversion. rewrite H. reflexivity. Qed.

(** C7: with a valid cached resolution, a tick period of 1 to 1000 ms and a
    scheduler that does not hold the task back for 2^32 ms, whatever the bus
    answers, [_wait_for_conversion] returns once it has as many rounds of
    fuel as the bound has ticks: it polls the wire at most that many times,
    reads zeros until the last poll, and returns the float of the elapsed
    milliseconds, a number (exactly the elapsed milliseconds below 2^24).
    There is no error result: when the bound is reached the warning
    "conversion timed out" is logged, and the returned time is then at
    least the bound; a bus that still answers 0 at the last poll always
    ends this way, and with a scheduler that adds no delay the loop is
    left after the bound's ticks at the latest.  With an invalid
    cached resolution nothing happens on the bus and the result is 0.0. *)
Theorem wait_for_conversion_terminates (p : Z) (fuel : nat) (i : DS18B20_Info)
    (w : World) :
  1 <= p <= 1000 ->
  (_check_resolution (resolution i) = true ->
   Forall (fun l => (max_conversion_ticks p (resolution i) + l) * p < 2 ^ 32)
          (latency w) ->
   (Z.to_nat (max_conversion_ticks p (resolution i)) <= fuel)%nat ->
   exists (n : nat) (status d : Z) (bound : Q) (w' : World),
     _wait_for_conversion p fuel i w = (Some (F32.of_Z (d * p)), w')
     /\ wire_since w w' = map EvReadBit (repeat 0 n ++ [status])
     /\ Z.of_nat (S n) <= max_conversion_ticks p (resolution i)
     /\ SF2Q (max_conversion_time (resolution i)) = Some bound
     /\ d = to_uint32 (tick_count w' - tick_count w)
     /\ 0 < d /\ d * p < 2 ^ 32
     /\ (exists v, SF2Q (F32.of_Z (d * p)) = Some v
           /\ (d * p < 2 ^ 24 -> (v == d * p # 1)%Q)
           /\ (max_conversion_ticks p (resolution i) <= d -> (bound <= v)%Q))
     /\ (status = 0 -> max_conversion_ticks p (resolution i) <= d)
     /\ (max_conversion_ticks p (resolution i) <= d ->
         (bound <= d * p # 1)%Q /\ log w' = log w ++ [(LOG_WARN, MsgTimedOut)])
     /\ (d < max_conversion_ticks p (resolution i) ->
         status <> 0 /\ log w' = log w)
     /\ (Forall (fun l => l <= 0) (latency w) ->
         d <= max_conversion_ticks p (resolution i)))
  /\ (_check_resolution (resolution i) = false ->
      _wait_for_conversion p fuel i w = (Some (S754_zero false), w))
  /\ (init i = true ->
      ds18b20_wait_for_conversion p fuel i w = _wait_for_conversion p fuel i w).
Proof.
  intros Hp.
  split; [| split; [apply wait_for_conversion_invalid_run |]];
    [| intros Hi; unfold ds18b20_wait_for_conversion, bind;
       rewrite (is_init_run i w Hi); reflexivity].
  intros V HL Hf.
  destruct (ticks_cover_bound_ok (resolution i) p V Hp)
    as (bound & Eb & M1 & M2 & M3 & _).
  set (M := max_conversion_ticks p (resolution i)) in *.
  set (B := (2 ^ 32 - 1) / p).
  assert (0 < p) as Hp0 by lia.
  assert (forall x, x * p < 2 ^ 32 -> x <= B) as toB.
  { intros x Hx. subst B. apply Z.div_le_lower_bound; lia. }
  assert (B * p <= 2 ^ 32 - 1) as fromB.
  { subst B. rewrite Z.mul_comm. apply Z.mul_div_le. lia. }
  assert (M <= B) as HMB by (apply toB; lia).
  assert (B < 2 ^ 32) as HBN by nia.
  destruct (poll_conversion_exits (bus i) (tick_count w) M B M1 HMB HBN fuel w)
    as (n & status & d & w' & R & T & L & Hn & Hd & Hs & Ht).
  - rewrite Z.sub_diag. cbn. lia.
  - eapply Forall_impl; [| exact HL]. intros l Hl. apply toB. exact Hl.
  - rewrite Z.sub_diag. cbn. rewrite Z.sub_0_r. exact Hf.
  - rewrite Z.sub_diag in Hn, Hd. cbn in Hn, Hd. rewrite Z.sub_0_r in Hn.
    assert (d * p < 2 ^ 32) as Hdp by nia.
    assert (Forall (fun l => l <= 0) (latency w) -> d <= M) as Punct.
    { intros Hz.
      destruct (poll_conversion_exits (bus i) (tick_count w) M M M1
                  (Z.le_refl M) ltac:(lia) fuel w)
        as (n' & status' & d' & w'' & R' & _ & _ & _ & Hd' & _).
      - rewrite Z.sub_diag. cbn. lia.
      - eapply Forall_impl; [| exact Hz]. intros l Hl. cbn beta in Hl. lia.
      - rewrite Z.sub_diag. cbn. rewrite Z.sub_0_r. exact Hf.
      - rewrite R in R'. injection R' as _ <- _. lia. }
    assert (M <= d -> (bound <= d * p # 1)%Q) as Cover.
    { intros TO. eapply Qle_trans; [exact M3 |]. unfold Qle. cbn. nia. }
    assert (exists v, SF2Q (F32.of_Z (d * p)) = Some v
              /\ (d * p < 2 ^ 24 -> (v == d * p # 1)%Q)
              /\ (M <= d -> (bound <= v)%Q)) as Val.
    { destruct (F32_of_Z_value (d * p) ltac:(nia)) as (v & E & X & A).
      exists v. split; [exact E |]. split; [exact X |].
      intros TO. apply A; [exact (Cover TO) |].
      eapply Qle_trans; [exact M3 |]. unfold Qle. cbn. lia. }
    assert (to_uint32 (d * p) = d * p) as Edp.
    { unfold to_uint32. apply Z.mod_small. nia. }
    assert (to_uint32 M = M) as EM.
    { unfold to_uint32. apply Z.mod_small. lia. }
    unfold _wait_for_conversion. rewrite V. fold M.
    unfold bind at 1, xTaskGetTickCount at 1. unfold bind at 1. rewrite R.
    rewrite Edp, EM.
    destruct (M <=? d) eqn:TO.
    + apply Z.leb_le in TO.
      exists n, status, d, bound, (extend w' [] [(LOG_WARN, MsgTimedOut)]).
      split; [unfold bind, ESP_LOGW, ret; rewrite write_log_run; reflexivity |].
      split.
      { unfold wire_since, extend. cbn [trace]. rewrite app_nil_r, T.
        rewrite skipn_app, skipn_all, Nat.sub_diag. reflexivity. }
      split; [exact Hn |]. split; [exact Eb |]. split; [exact Ht |].
      split; [lia |]. split; [exact Hdp |].
      split; [exact Val |].
      split; [intros _; exact TO |].
      split.
      { intros _. split; [exact (Cover TO) |].
        cbn [extend log]. rewrite L. reflexivity. }
      split; [intros C; lia | exact Punct].
    + apply Z.leb_gt in TO.
      exists n, status, d, bound, w'.
      split; [reflexivity |].
      split.
      { unfold wire_since. rewrite T.
        rewrite skipn_app, skipn_all, Nat.sub_diag. reflexivity. }
      split; [exact Hn |]. split; [exact Eb |]. split; [exact Ht |].
      split; [lia |]. split; [exact Hdp |].
      split; [exact Val |].
      split; [intros S0; apply Hs; exact S0 |].
      split; [intros C; lia |].
      split; [| exact Punct].
      intros _. split; [| exact L].
      intros S0. specialize (Hs S0). lia.
Qed.

Lemma wait_for_conversion_terminates_witness :
  exists (d : Z) (w' : World),
    _wait_for_conversion 10 83 (session_on silent_device false true) late_world
    = (Some (F32.of_Z (d * 10)), w')
    /\ 0 < d.
Proof.
  destruct (wait_for_conversion_terminates 10 83
              (session_on silent_device false true) late_world) as [A _];
    [lia |].
  destruct A as (n & status & d & bound & w' & R & _ & _ & _ & _ & Hd & _).
  - reflexivity.
  - repeat constructor.
  - vm_compute. lia.
  - exists d, w'. split; [exact R | exact Hd].
Defined.

(** ** The simulated device *)

Lemma sim_state_app (d : Sim) (h evs : list owb_event) :
  sim_state d (h ++ evs) = fold_left sim_step evs (sim_state d h).
Proof. unfold sim_state. apply fold_left_app. Qed.

Lemma sim_write_length (m data : list Z) : length (sim_write m data) = length m.
Proof.
  unfold sim_write.
  do 5 (destruct m as [| ? m]; [reflexivity |]).
  do 3 (destruct data as [| ? data]; [reflexivity |]).
  destruct data; reflexivity.
Qed.

Lemma sim_step_length (s : SimState) (e : owb_event) :
  length (st_memory (sim_step s e)) = length (st_memory s).
Proof.
  destruct e; cbn [sim_step st_memory]; try reflexivity.
  destruct (st_last s) as [[] |]; cbn [st_memory]; try reflexivity.
  destruct (_ =? _); cbn [st_memory]; [apply sim_write_length | reflexivity].
Qed.

Lemma sim_state_length (d : Sim) (h : list owb_event) :
  length (st_memory (sim_state d h)) = length (sim_memory d).
Proof.
  unfold sim_state.
  set (s0 := {| st_memory := sim_memory d; st_last := None; st_polls := 0 |}).
  change (sim_memory d) with (st_memory s0). generalize s0. clear s0.
  induction h as [| e h IH]; intros s; cbn [fold_left]; [reflexivity |].
  rewrite IH. apply sim_step_length.
Qed.

Lemma sim_quiet_memory (evs : list owb_event) :
  forallb (fun e => negb (is_write_bytes e)) evs = true ->
  forall s, st_memory (fold_left sim_step evs s) = st_memory s.
Proof.
  induction evs as [| e evs IH]; intros Q s; cbn [fold_left]; [reflexivity |].
  cbn [forallb] in Q. apply andb_true_iff in Q. destruct Q as [Qe Q].
  rewrite (IH Q). destruct e; cbn in Qe |- *; try reflexivity. discriminate.
Qed.

Lemma address_commands_quiet (i : DS18B20_Info) :
  forallb (fun e => negb (is_write_bytes e)) (address_commands i) = true.
Proof. unfold address_commands. destruct (solo i); reflexivity. Qed.

Lemma crc8_byte_in_range_all :
  forallb (fun c => forallb (crc8_byte_in_range c) bytes_all) bytes_all = true.
Proof. vm_compute. reflexivity. Qed.

Lemma owb_crc8_byte_range (c d : Z) :
  is_uint8 c -> is_uint8 d -> is_uint8 (owb_crc8_byte c d).
Proof.
  intros Hc Hd. pose proof crc8_byte_in_range_all as A.
  rewrite forallb_forall in A. specialize (A c (bytes_all_complete c Hc)).
  rewrite forallb_forall in A. specialize (A d (bytes_all_complete d Hd)).
  unfold crc8_byte_in_range in A. apply andb_true_iff in A.
  destruct A as [A1 A2]. apply Z.leb_le in A1. apply Z.ltb_lt in A2.
  split; assumption.
Qed.

Lemma owb_crc8_bytes_range (data : list Z) :
  Forall is_uint8 data -> forall c, is_uint8 c -> is_uint8 (owb_crc8_bytes c data).
Proof.
  unfold owb_crc8_bytes.
  induction 1 as [| x l Hx _ IH]; intros c Hc; cbn [fold_left]; [exact Hc |].
  apply IH. apply owb_crc8_byte_range; assumption.
Qed.

Lemma owb_crc8_bytes_closed (data : list Z) :
  owb_crc8_bytes 0 (data ++ [owb_crc8_bytes 0 data]) = 0.
Proof.
  unfold owb_crc8_bytes. rewrite fold_left_app. cbn [fold_left].
  unfold owb_crc8_byte at 1. rewrite Z.lxor_nilpotent. reflexivity.
Qed.

Lemma to_uint8_range (z : Z) : is_uint8 (to_uint8 z).
Proof. unfold is_uint8, to_uint8. apply Z.mod_pos_bound. lia. Qed.

Lemma sim_scratchpad_ok (m : list Z) :
  length m = 8%nat ->
  length (sim_scratchpad m) = 9%nat
  /\ Forall is_uint8 (sim_scratchpad m)
  /\ owb_crc8_bytes 0 (sim_scratchpad m) = 0.
Proof.
  intros L. unfold sim_scratchpad.
  assert (Forall is_uint8 (map to_uint8 (firstn 8 m))) as F.
  { apply Forall_forall. intros x Hx. apply in_map_iff in Hx.
    destruct Hx as (y & <- & _). apply to_uint8_range. }
  split.
  - rewrite length_app, length_map, firstn_all2 by lia. rewrite L. reflexivity.
  - split; [| apply owb_crc8_bytes_closed].
    apply Forall_app. split; [exact F |].
    constructor; [| constructor].
    apply owb_crc8_bytes_range; [exact F | unfold is_uint8; lia].
Qed.

Lemma list_length_8 (m : list Z) :
  length m = 8%nat ->
  exists m0 m1 m2 m3 m4 m5 m6 m7, m = [m0; m1; m2; m3; m4; m5; m6; m7].
Proof.
  intros L.
  do 8 (destruct m as [| ? m]; [discriminate L |]).
  destruct m; [| discriminate L].
  do 8 eexists. reflexivity.
Qed.

(** On the simulated bus, with the device present, a read of five bytes
    succeeds in either CRC mode and brings bytes 2 to 4 of the device's
    memory, and it leaves that memory alone. *)
Lemma sim_read_run (d : Sim) (i : DS18B20_Info) (sp : Scratchpad) (w : World) :
  bus i = simulated_bus d -> sim_present d = true -> init i = true ->
  length (sim_memory d) = 8%nat ->
  exists sp' evs,
    _read_scratchpad i (Some sp) 5 w = ((DS18B20_OK, Some sp'), extend w evs [])
    /\ bytes_2_to_4 sp'
       = map to_uint8 (firstn 3 (skipn 2 (st_memory (sim_state d (trace w)))))
    /\ forallb (fun e => negb (is_write_bytes e)) evs = true.
Proof.
  intros Hb Hp Hi Hl.
  remember (st_memory (sim_state d (trace w))) as m eqn:Em.
  assert (length m = 8%nat) as Lm by (subst m; rewrite sim_state_length; exact Hl).
  assert (forall tail,
            forallb (fun e => negb (is_write_bytes e)) tail = true ->
            st_memory (sim_state d (trace w ++ EvReset true :: address_commands i ++ tail))
            = m) as Quiet.
  { intros tail Q. rewrite sim_state_app, sim_quiet_memory; [symmetry; exact Em |].
    cbn [forallb is_write_bytes negb andb].
    rewrite forallb_app, address_commands_quiet, Q. reflexivity. }
  destruct (use_crc i) eqn:C.
  - destruct (sim_scratchpad_ok m Lm) as (L9 & F9 & Z9).
    pose proof (read_scratchpad_crc_run i sp 5 (sim_scratchpad m) w Hi C) as R.
    rewrite Hb in R.
    cbn [reset_presence write_byte_status read_bytes_reply simulated_bus] in R.
    rewrite (Quiet [EvWriteByte DS18B20_FUNCTION_SCRATCHPAD_READ] eq_refl) in R.
    rewrite firstn_all2 in R by (rewrite L9; cbn; lia).
    specialize (R Hp eq_refl eq_refl L9 F9).
    rewrite R, Z9. cbn [Z.eqb].
    eexists. eexists. split; [reflexivity |].
    split.
    + destruct (list_length_8 m Lm) as (m0 & m1 & m2 & m3 & m4 & m5 & m6 & m7 & ->).
      reflexivity.
    + cbn [forallb is_write_bytes negb andb].
      rewrite forallb_app, address_commands_quiet. reflexivity.
  - destruct (list_length_8 m Lm) as (m0 & m1 & m2 & m3 & m4 & m5 & m6 & m7 & E8).
    destruct (read_scratchpad_nocrc_run i sp
                (map to_uint8 [m0; m1; m2; m3; m4]) w Hi C) as [present R].
    + rewrite Hb. exact Hp.
    + rewrite Hb. reflexivity.
    + rewrite Hb. cbn [read_bytes_reply simulated_bus].
      rewrite (Quiet [EvWriteByte DS18B20_FUNCTION_SCRATCHPAD_READ] eq_refl).
      rewrite E8. reflexivity.
    + reflexivity.
    + repeat constructor; apply to_uint8_range.
    + rewrite R. eexists. eexists. split; [reflexivity |].
      split.
      * rewrite E8. reflexivity.
      * cbn [forallb is_write_bytes negb andb].
        rewrite forallb_app, address_commands_quiet. reflexivity.
Qed.

Lemma memcmp_eq_refl (a : list Z) : memcmp_eq a a = true.
Proof. unfold memcmp_eq. destruct (list_eq_dec Z.eq_dec a a); congruence. Qed.


Lemma configuration_value_formula (r : Z) :
  configuration_value r = Z.lor (Z.shiftl (Z.land (r - 1) 0x03) 5) 0x1f
  /\ is_uint8 (configuration_value r).
Proof.
  unfold configuration_value. split; [| apply to_uint8_range].
  change 0x03 with (Z.ones 2). rewrite Z.land_ones by lia.
  pose proof (Z.mod_pos_bound (r - 1) (2 ^ 2) ltac:(lia)) as B.
  assert ((r - 1) mod 2 ^ 2 = 0 \/ (r - 1) mod 2 ^ 2 = 1
          \/ (r - 1) mod 2 ^ 2 = 2 \/ (r - 1) mod 2 ^ 2 = 3) as D by lia.
  destruct D as [-> | [-> | [-> | ->]]]; reflexivity.
Qed.



(** * Further properties of the driver *)

(** ** Sessions that were never initialised *)

Lemma is_init_false_run (i : DS18B20_Info) (w : World) :
  init i = false ->
  _is_init i w = (false, extend w [] [(LOG_ERROR, MsgNotInitialised)]).
Proof.
  intros H. unfold _is_init. rewrite H.
  unfold bind, ESP_LOGE, ret. rewrite write_log_run. reflexivity.
Qed.

Lemma address_device_uninitialised_run (i : DS18B20_Info) (w : World) :
  init i = false ->
  _address_device i w = (false, extend w [] [(LOG_ERROR, MsgNotInitialised)]).
Proof.
  intros H. unfold _address_device, bind. rewrite (is_init_false_run i w H).
  reflexivity.
Qed.

(** X1: a session whose [init] flag is not set never reaches the bus: the
    addressing step, the scratchpad transfers and every public operation
    return their failure value after logging "not initialised" once, with
    nothing put on the wire, the session object unchanged and the caller's
    value untouched. *)
Theorem uninitialised_session_never_touches_bus (p : Z) (fuel : nat)
    (i : DS18B20_Info) (sp : Scratchpad) (count r : Z) (verify crc : bool)
    (value : option spec_float) (w : World) :
  init i = false ->
  let w1 := extend w [] [(LOG_ERROR, MsgNotInitialised)] in
  trace w1 = trace w
  /\ _address_device i w = (false, w1)
  /\ _read_scratchpad i (Some sp) count w = ((DS18B20_ERROR_UNKNOWN, Some sp), w1)
  /\ _write_scratchpad i sp verify w = (false, w1)
  /\ ds18b20_read_resolution i w = (DS18B20_RESOLUTION_INVALID, w1)
  /\ ds18b20_set_resolution i r w = ((false, i), w1)
  /\ ds18b20_use_crc i crc w = (i, w1)
  /\ ds18b20_convert i w = (false, w1)
  /\ ds18b20_read_temp i value w = ((DS18B20_ERROR_UNKNOWN, value), w1)
  /\ ds18b20_wait_for_conversion p fuel i w = (Some (S754_zero false), w1)
  /\ ds18b20_convert_and_read_temp p fuel i value w
     = (Some (DS18B20_ERROR_UNKNOWN, value), w1).
Proof.
  intros H w1. subst w1.
  split; [unfold extend; cbn [trace]; apply app_nil_r |].
  split; [apply address_device_uninitialised_run; exact H |].
  split.
  { unfold _read_scratchpad, bind.
    rewrite (address_device_uninitialised_run i w H). reflexivity. }
  split; [unfold _write_scratchpad, bind; rewrite (is_init_false_run i w H); reflexivity |].
  split; [unfold ds18b20_read_resolution, bind; rewrite (is_init_false_run i w H); reflexivity |].
  split; [unfold ds18b20_set_resolution, bind; rewrite (is_init_false_run i w H); reflexivity |].
  split; [unfold ds18b20_use_crc, bind; rewrite (is_init_false_run i w H); reflexivity |].
  split; [unfold ds18b20_convert, bind; rewrite (is_init_false_run i w H); reflexivity |].
  split; [unfold ds18b20_read_temp, bind; rewrite (is_init_false_run i w H); reflexivity |].
  split; [unfold ds18b20_wait_for_conversion, bind; rewrite (is_init_false_run i w H); reflexivity |].
  unfold ds18b20_convert_and_read_temp, bind. rewrite (is_init_false_run i w H).
  reflexivity.
Qed.

Lemma uninitialised_session_never_touches_bus_witness :
  ds18b20_set_resolution uninitialised_session 12 World_zero
  = ((false, uninitialised_session),
     extend World_zero [] [(LOG_ERROR, MsgNotInitialised)])
  /\ ds18b20_read_temp uninitialised_session (Some S754_nan) World_zero
     = ((DS18B20_ERROR_UNKNOWN, Some S754_nan),
        extend World_zero [] [(LOG_ERROR, MsgNotInitialised)]).
Proof.
  destruct (uninitialised_session_never_touches_bus 10 5 uninitialised_session
              Scratchpad_zero 9 12 true true (Some S754_nan) World_zero eq_refl)
    as (_ & _ & _ & _ & _ & A & _ & _ & B & _).
  split; [exact A | exact B].
Defined.

(** ** Scratchpad reads without CRC and failing transfers *)

Lemma min_sizeof_range (count : Z) :
  0 <= count -> 0 <= _min sizeof_Scratchpad count <= 9.
Proof.
  intros H. unfold _min, sizeof_Scratchpad.
  destruct (9 >? count) eqn:E; [apply Z.gtb_lt in E | ]; lia.
Qed.

Lemma read_scratchpad_plain_run (i : DS18B20_Info) (sp : Scratchpad) (count : Z)
    (content : list Z) (w : World) :
  init i = true -> use_crc i = false ->
  reset_presence (bus i) (trace w) = true ->
  write_byte_status (bus i) (trace w ++ EvReset true :: address_commands i)
    DS18B20_FUNCTION_SCRATCHPAD_READ = OWB_STATUS_OK ->
  read_bytes_reply (bus i)
    (trace w ++ EvReset true :: address_commands i
       ++ [EvWriteByte DS18B20_FUNCTION_SCRATCHPAD_READ])
    (_min sizeof_Scratchpad count) = (OWB_STATUS_OK, content) ->
  0 <= count ->
  length content = Z.to_nat (_min sizeof_Scratchpad count) ->
  Forall is_uint8 content ->
  _read_scratchpad i (Some sp) count w =
  ((DS18B20_OK,
    Some (scratchpad_of_bytes (content ++ skipn (length content) (scratchpad_bytes sp)))),
   extend w
     (EvReset true :: address_commands i
        ++ [EvWriteByte DS18B20_FUNCTION_SCRATCHPAD_READ;
            EvReadBytes (_min sizeof_Scratchpad count) content;
            EvReset (reset_presence (bus i)
              (trace w ++ EvReset true :: address_commands i
                 ++ [EvWriteByte DS18B20_FUNCTION_SCRATCHPAD_READ;
                     EvReadBytes (_min sizeof_Scratchpad count) content]))])
     []).
Proof.
  intros H C P W R Hc L B.
  pose proof (min_sizeof_range count Hc) as Hn.
  unfold _read_scratchpad. rewrite C.
  unfold bind at 1. rewrite (address_device_run i w H), P.
  unfold bind at 1. rewrite owb_write_byte_run.
  cbn [trace extend]. rewrite W. cbn [owb_status_eqb].
  unfold bind at 1. unfold owb_read_bytes, bind at 1, history.
  cbn [trace extend].
  rewrite <- app_assoc. cbn [app].
  rewrite R.
  rewrite (map_to_uint8_bytes content B).
  replace (firstn (Z.to_nat (_min sizeof_Scratchpad count)) content) with content
    by (symmetry; apply firstn_all2; rewrite L; lia).
  unfold bind at 1. rewrite emit_run. unfold ret at 1. cbn [fst snd].
  cbn [negb owb_status_eqb].
  unfold bind at 1. rewrite owb_reset_run. unfold ret.
  rewrite !extend_extend. cbn [app trace extend].
  replace (store_bytes (scratchpad_bytes sp) content)
    with (content ++ skipn (length content) (scratchpad_bytes sp)).
  - reflexivity.
  - unfold store_bytes. cbn [scratchpad_bytes length].
    rewrite firstn_all2 by (rewrite L; lia). reflexivity.
Qed.

Lemma read_scratchpad_read_failed_run (i : DS18B20_Info) (sp : Scratchpad)
    (count : Z) (reply : list Z) (w : World) :
  init i = true ->
  reset_presence (bus i) (trace w) = true ->
  write_byte_status (bus i) (trace w ++ EvReset true :: address_commands i)
    DS18B20_FUNCTION_SCRATCHPAD_READ = OWB_STATUS_OK ->
  let n := _min sizeof_Scratchpad (if use_crc i then sizeof_Scratchpad else count) in
  read_bytes_reply (bus i)
    (trace w ++ EvReset true :: address_commands i
       ++ [EvWriteByte DS18B20_FUNCTION_SCRATCHPAD_READ]) n
  = (OWB_STATUS_ERROR, reply) ->
  let data := firstn (Z.to_nat n) (map to_uint8 reply) in
  _read_scratchpad i (Some sp) count w =
  ((DS18B20_ERROR_OWB,
    Some (scratchpad_of_bytes (store_bytes (scratchpad_bytes sp) data))),
   extend w
     (EvReset true :: address_commands i
        ++ [EvWriteByte DS18B20_FUNCTION_SCRATCHPAD_READ; EvReadBytes n data])
     [(LOG_ERROR, MsgReadBytesFailed)]).
Proof.
  intros H P W n R data.
  unfold _read_scratchpad. fold n.
  unfold bind at 1. rewrite (address_device_run i w H), P.
  unfold bind at 1. rewrite owb_write_byte_run.
  cbn [trace extend]. rewrite W. cbn [owb_status_eqb].
  unfold bind at 1. unfold owb_read_bytes, bind at 1, history.
  cbn [trace extend].
  rewrite <- app_assoc. cbn [app].
  rewrite R. fold data.
  unfold bind at 1. rewrite emit_run. unfold ret at 1. cbn [fst snd].
  cbn [owb_status_eqb].
  unfold bind, ESP_LOGE, ret. rewrite write_log_run, !extend_extend.
  reflexivity.
Qed.

(** X2: without CRC, for an initialised session, a device that is present
    and a transport that succeeds, [_read_scratchpad] asks the bus for
    min(count, 9) bytes, stores them at the start of the buffer and leaves
    the rest of the buffer as it was, ends the transfer with one more bus
    reset and returns DS18B20_OK whatever the bytes are: no CRC is
    computed. *)
Theorem read_scratchpad_without_crc (i : DS18B20_Info) (sp : Scratchpad)
    (count : Z) (content : list Z) (w : World) :
  init i = true -> use_crc i = false ->
  reset_presence (bus i) (trace w) = true ->
  write_byte_status (bus i) (trace (snd (_address_device i w)))
    DS18B20_FUNCTION_SCRATCHPAD_READ = OWB_STATUS_OK ->
  read_bytes_reply (bus i)
    (trace (snd (_address_device i w))
       ++ [EvWriteByte DS18B20_FUNCTION_SCRATCHPAD_READ])
    (_min sizeof_Scratchpad count) = (OWB_STATUS_OK, content) ->
  0 <= count ->
  length content = Z.to_nat (_min sizeof_Scratchpad count) ->
  Forall is_uint8 content ->
  let r := _read_scratchpad i (Some sp) count w in
  fst (fst r) = DS18B20_OK
  /\ (exists present,
        wire_since w (snd r) =
        wire_since w (snd (_address_device i w))
          ++ [EvWriteByte DS18B20_FUNCTION_SCRATCHPAD_READ;
              EvReadBytes (_min sizeof_Scratchpad count) content;
              EvReset present])
  /\ _min sizeof_Scratchpad count <= 9
  /\ (count <= 9 -> _min sizeof_Scratchpad count = count)
  /\ (exists sp', snd (fst r) = Some sp'
        /\ scratchpad_bytes sp'
           = content ++ skipn (length content) (scratchpad_bytes sp))
  /\ log (snd r) = log w.
Proof.
  intros H C P W R Hc L B r. subst r.
  pose proof (min_sizeof_range count Hc) as Hn.
  rewrite (address_device_run i w H), P in W, R |- *.
  cbn [snd trace extend] in W, R.
  rewrite <- app_assoc in R.
  rewrite (read_scratchpad_plain_run i sp count content w H C P W R Hc L B).
  cbn [fst snd]. rewrite !wire_since_extend.
  split; [reflexivity |].
  split; [eexists; reflexivity |].
  split; [lia |].
  split.
  { intros Hle. unfold _min, sizeof_Scratchpad.
    destruct (9 >? count) eqn:E; [reflexivity |].
    rewrite Z.gtb_ltb in E. apply Z.ltb_ge in E. lia. }
  split.
  { eexists. split; [reflexivity |].
    apply scratchpad_bytes_of_bytes.
    rewrite length_app, length_skipn. cbn [scratchpad_bytes length]. lia. }
  unfold extend. cbn [log]. apply app_nil_r.
Qed.

Lemma read_scratchpad_without_crc_witness :
  fst (fst (_read_scratchpad (session_with_bus (fixed_reply_bus bad_content) false true)
              (Some Scratchpad_zero) 2 World_zero)) = DS18B20_OK
  /\ exists sp', snd (fst (_read_scratchpad
                             (session_with_bus (fixed_reply_bus bad_content) false true)
                             (Some Scratchpad_zero) 2 World_zero)) = Some sp'
                 /\ scratchpad_bytes sp' = [0x50; 0x05; 0; 0; 0; 0; 0; 0; 0].
Proof.
  destruct (read_scratchpad_without_crc
              (session_with_bus (fixed_reply_bus bad_content) false true)
              Scratchpad_zero 2 [0x50; 0x05] World_zero)
    as (A & _ & _ & _ & (sp' & B & C) & _); try reflexivity.
  - lia.
  - repeat constructor; unfold is_uint8; lia.
  - split; [exact A |]. exists sp'. split; [exact B | exact C].
Defined.

(** X3: for an initialised session with a device present, a transport fault
    makes [_read_scratchpad] return DS18B20_ERROR_OWB: when the read command
    is refused nothing is read and the buffer is untouched; when the byte
    transfer fails the call stops there, in either CRC mode, without the
    CRC check and without the closing reset.  Without a buffer the call
    returns DS18B20_ERROR_NULL before anything reaches the bus. *)
Theorem read_scratchpad_transport_errors (i : DS18B20_Info) (sp : Scratchpad)
    (count : Z) (w : World) :
  init i = true ->
  reset_presence (bus i) (trace w) = true ->
  let r := _read_scratchpad i (Some sp) count w in
  let addressed := snd (_address_device i w) in
  let n := _min sizeof_Scratchpad (if use_crc i then sizeof_Scratchpad else count) in
  (write_byte_status (bus i) (trace addressed) DS18B20_FUNCTION_SCRATCHPAD_READ
     = OWB_STATUS_ERROR ->
   fst (fst r) = DS18B20_ERROR_OWB
   /\ snd (fst r) = Some sp
   /\ wire_since w (snd r)
      = wire_since w addressed ++ [EvWriteByte DS18B20_FUNCTION_SCRATCHPAD_READ]
   /\ log (snd r) = log w ++ [(LOG_ERROR, MsgWriteByteFailed)])
  /\ (write_byte_status (bus i) (trace addressed) DS18B20_FUNCTION_SCRATCHPAD_READ
        = OWB_STATUS_OK ->
      forall reply,
        read_bytes_reply (bus i)
          (trace addressed ++ [EvWriteByte DS18B20_FUNCTION_SCRATCHPAD_READ]) n
        = (OWB_STATUS_ERROR, reply) ->
        fst (fst r) = DS18B20_ERROR_OWB
        /\ wire_since w (snd r)
           = wire_since w addressed
               ++ [EvWriteByte DS18B20_FUNCTION_SCRATCHPAD_READ;
                   EvReadBytes n (firstn (Z.to_nat n) (map to_uint8 reply))]
        /\ log (snd r) = log w ++ [(LOG_ERROR, MsgReadBytesFailed)])
  /\ _read_scratchpad i None count w = ((DS18B20_ERROR_NULL, None), w).
Proof.
  intros H P r addressed n. subst r addressed.
  rewrite (address_device_run i w H), P. cbn [snd trace extend].
  rewrite wire_since_extend.
  split.
  { intros W.
    rewrite (read_scratchpad_write_failed_run i sp count w H P W).
    cbn [fst snd]. rewrite wire_since_extend.
    repeat split; reflexivity. }
  split; [| reflexivity].
  intros W reply R. rewrite <- app_assoc in R.
  rewrite (read_scratchpad_read_failed_run i sp count reply w H P W R).
  cbn [fst snd]. rewrite wire_since_extend.
  repeat split; reflexivity.
Qed.

Lemma read_scratchpad_transport_errors_witness :
  fst (fst (_read_scratchpad (session_with_bus refusing_bus true false)
              (Some Scratchpad_zero) 9 World_zero)) = DS18B20_ERROR_OWB
  /\ fst (fst (_read_scratchpad (session_with_bus failing_read_bus true false)
                 (Some Scratchpad_zero) 9 World_zero)) = DS18B20_ERROR_OWB.
Proof.
  split.
  - destruct (read_scratchpad_transport_errors
                (session_with_bus refusing_bus true false) Scratchpad_zero 9
                World_zero eq_refl eq_refl) as (A & _).
    apply A. reflexivity.
  - destruct (read_scratchpad_transport_errors
                (session_with_bus failing_read_bus true false) Scratchpad_zero 9
                World_zero eq_refl eq_refl) as (_ & A & _).
    apply (A eq_refl good_content). reflexivity.
Defined.

(** ** Operations extend the wire and the log *)

Lemma advances_ret {A : Type} (a : A) : advances (ret a).
Proof.
  intros w. exists [], []. unfold ret, extend. cbn.
  rewrite !app_nil_r. destruct w; reflexivity.
Qed.

Lemma advances_bind {A B : Type} (m : OWB A) (k : A -> OWB B) :
  advances m -> (forall a, advances (k a)) -> advances (bind m k).
Proof.
  intros Hm Hk w. unfold bind.
  destruct (Hm w) as (e1 & m1 & E1).
  destruct (m w) as [a w1]. cbn [snd] in E1. subst w1.
  destruct (Hk a (extend w e1 m1)) as (e2 & m2 & E2).
  exists (e1 ++ e2), (m1 ++ m2). rewrite E2. apply extend_extend.
Qed.

Lemma advances_emit (e : owb_event) : advances (emit e).
Proof. intros w. exists [e], []. rewrite emit_run. reflexivity. Qed.

Lemma advances_write_log l m : advances (write_log l m).
Proof. intros w. exists [], [(l, m)]. rewrite write_log_run. reflexivity. Qed.

Lemma advances_owb_reset b : advances (owb_reset b).
Proof. intros w. rewrite owb_reset_run. do 2 eexists. reflexivity. Qed.

Lemma advances_owb_write_byte b d : advances (owb_write_byte b d).
Proof. intros w. rewrite owb_write_byte_run. do 2 eexists. reflexivity. Qed.

Lemma advances_owb_write_bytes b d : advances (owb_write_bytes b d).
Proof. intros w. rewrite owb_write_bytes_run. do 2 eexists. reflexivity. Qed.

Lemma advances_owb_write_rom_code b c : advances (owb_write_rom_code b c).
Proof. intros w. rewrite owb_write_rom_code_run. do 2 eexists. reflexivity. Qed.

Lemma advances_owb_read_bytes b buf n : advances (owb_read_bytes b buf n).
Proof.
  intros w. unfold owb_read_bytes, bind, history.
  destruct (read_bytes_reply b (trace w) n) as [st reply].
  unfold bind. rewrite emit_run. do 2 eexists. reflexivity.
Qed.

Ltac advance :=
  repeat first
    [ apply advances_ret
    | apply advances_emit
    | apply advances_write_log
    | apply advances_owb_reset
    | apply advances_owb_write_byte
    | apply advances_owb_write_bytes
    | apply advances_owb_write_rom_code
    | apply advances_owb_read_bytes
    | apply advances_bind; [| intros ?]
    | match goal with
      | |- advances (if ?b then _ else _) => destruct b
      | |- advances (match ?x with _ => _ end) => destruct x
      end ].

Lemma advances_is_init i : advances (_is_init i).
Proof. unfold _is_init, ESP_LOGE. advance. Qed.

Lemma advances_address_device i : advances (_address_device i).
Proof.
  unfold _address_device, ESP_LOGE.
  apply advances_bind; [apply advances_is_init | intros ok].
  advance.
Qed.

Lemma advances_read_scratchpad i osp count : advances (_read_scratchpad i osp count).
Proof.
  unfold _read_scratchpad, ESP_LOGE. destruct osp as [sp |]; [| advance].
  apply advances_bind; [apply advances_address_device | intros ok].
  advance.
Qed.

(** ** Writing the scratchpad *)

Lemma write_scratchpad_absent_run (i : DS18B20_Info) (sp : Scratchpad)
    (verify : bool) (w : World) :
  init i = true -> reset_presence (bus i) (trace w) = false ->
  _write_scratchpad i sp verify w =
  (false, extend w [EvReset false] [(LOG_ERROR, MsgNotResponding)]).
Proof.
  intros H P. unfold _write_scratchpad, bind.
  rewrite (is_init_run i w H), (address_device_run i w H), P. reflexivity.
Qed.

Lemma write_scratchpad_present_run (i : DS18B20_Info) (sp : Scratchpad)
    (verify : bool) (w : World) :
  init i = true -> reset_presence (bus i) (trace w) = true ->
  let w2 :=
    extend w
      (EvReset true :: address_commands i
         ++ [EvWriteByte DS18B20_FUNCTION_SCRATCHPAD_WRITE;
             EvWriteBytes (bytes_2_to_4 sp)]) [] in
  let r := _read_scratchpad i (Some Scratchpad_zero) 5 w2 in
  _write_scratchpad i sp verify w =
  if verify then
    match fst (fst r) with
    | DS18B20_OK =>
        if memcmp_eq (bytes_2_to_4 sp) (bytes_2_to_4 (buffer_after Scratchpad_zero (fst r)))
        then (true, snd r)
        else (false, extend (snd r) [] [(LOG_ERROR, MsgVerifyFailed)])
    | _ => (false, extend (snd r) [] [(LOG_ERROR, MsgReadScratchpadFailed)])
    end
  else (true, w2).
Proof.
  intros H P w2 r. subst r w2.
  unfold _write_scratchpad. unfold bind at 1. rewrite (is_init_run i w H).
  unfold bind at 1. rewrite (address_device_run i w H), P.
  unfold bind at 1. rewrite owb_write_byte_run.
  unfold bind at 1. rewrite owb_write_bytes_run.
  rewrite !extend_extend. cbn [app].
  change (offsetof_configuration + 1) with 5.
  replace ((EvReset true :: address_commands i ++ [EvWriteByte DS18B20_FUNCTION_SCRATCHPAD_WRITE])
             ++ [EvWriteBytes (bytes_2_to_4 sp)])
    with (EvReset true :: address_commands i
            ++ [EvWriteByte DS18B20_FUNCTION_SCRATCHPAD_WRITE;
                EvWriteBytes (bytes_2_to_4 sp)])
    by (cbn [app]; rewrite <- app_assoc; reflexivity).
  destruct verify; [| reflexivity].
  unfold bind at 1.
  destruct (_read_scratchpad i (Some Scratchpad_zero) 5 _) as [[err buf] w3].
  cbn [fst snd].
  destruct err; try (unfold bind, ESP_LOGE, ret; rewrite write_log_run; reflexivity).
  destruct (memcmp_eq _ _); cbn [negb]; [reflexivity |].
  unfold bind, ESP_LOGE, ret. rewrite write_log_run. reflexivity.
Qed.

Lemma memcmp_eq_true (a b : list Z) : memcmp_eq a b = true <-> a = b.
Proof.
  unfold memcmp_eq. destruct (list_eq_dec Z.eq_dec a b); split; congruence.
Qed.

(** X4: for an initialised session, [_write_scratchpad] writes nothing when
    no device answers the reset; otherwise it sends the write command
    directly followed by the three bytes trigger-high, trigger-low and
    configuration, with nothing in between.  Without verification it then
    returns true whatever status the bus gave to the writes; with
    verification it returns true exactly when the read-back succeeds and
    brings the same three bytes.  The other six bytes of the scratchpad
    argument play no part. *)
Theorem write_scratchpad_protocol (i : DS18B20_Info) (sp : Scratchpad)
    (verify : bool) (w : World) :
  init i = true ->
  let out := _write_scratchpad i sp verify w in
  let w2 :=
    extend w
      (EvReset true :: address_commands i
         ++ [EvWriteByte DS18B20_FUNCTION_SCRATCHPAD_WRITE;
             EvWriteBytes [trigger_high sp; trigger_low sp; configuration sp]]) [] in
  (reset_presence (bus i) (trace w) = false ->
     fst out = false /\ wire_since w (snd out) = [EvReset false])
  /\ (reset_presence (bus i) (trace w) = true ->
      (exists rest, wire_since w (snd out) = wire_since w w2 ++ rest)
      /\ (verify = false -> out = (true, w2))
      /\ (verify = true ->
          let r := _read_scratchpad i (Some Scratchpad_zero) 5 w2 in
          fst out = true <->
          fst (fst r) = DS18B20_OK
          /\ bytes_2_to_4 (buffer_after Scratchpad_zero (fst r)) = bytes_2_to_4 sp))
  /\ (forall sp', bytes_2_to_4 sp' = bytes_2_to_4 sp ->
        _write_scratchpad i sp' verify w = out).
Proof.
  intros H out w2. subst out.
  split.
  { intros P. rewrite (write_scratchpad_absent_run i sp verify w H P).
    cbn [fst snd]. rewrite wire_since_extend. split; reflexivity. }
  split.
  { intros P. rewrite (write_scratchpad_present_run i sp verify w H P).
    fold (bytes_2_to_4 sp) in w2. fold w2.
    destruct (advances_read_scratchpad i (Some Scratchpad_zero) 5 w2)
      as (evs & msgs & E).
    split.
    - destruct verify.
      + exists evs. subst w2.
        destruct (fst (fst (_read_scratchpad i (Some Scratchpad_zero) 5 _)));
          try destruct (memcmp_eq _ _); cbn [snd]; rewrite E;
          rewrite ?extend_extend, !wire_since_extend; rewrite ?app_nil_r; reflexivity.
      + exists []. cbn [snd]. rewrite app_nil_r. reflexivity.
    - split.
      + intros ->. reflexivity.
      + intros -> r. subst r.
        destruct (fst (fst (_read_scratchpad i (Some Scratchpad_zero) 5 w2)));
          try (cbn [fst]; split; [discriminate | intros [C _]; discriminate C]).
        destruct (memcmp_eq _ _) eqn:M; cbn [fst].
        * apply memcmp_eq_true in M. split; [intros _; split; congruence | reflexivity].
        * split; [discriminate |]. intros [_ C].
          symmetry in C. apply memcmp_eq_true in C. congruence. }
  intros sp' E. unfold _write_scratchpad. rewrite E. reflexivity.
Qed.

Lemma write_scratchpad_protocol_witness :
  _write_scratchpad (session_with_bus refusing_bus false true)
    (set_configuration 0x3F Scratchpad_zero) false World_zero
  = (true,
     extend World_zero
       [EvReset true; EvWriteByte OWB_ROM_SKIP;
        EvWriteByte DS18B20_FUNCTION_SCRATCHPAD_WRITE; EvWriteBytes [0; 0; 0x3F]] []).
Proof.
  destruct (write_scratchpad_protocol (session_with_bus refusing_bus false true)
              (set_configuration 0x3F Scratchpad_zero) false World_zero eq_refl)
    as (_ & A & _).
  destruct (A eq_refl) as (_ & B & _). apply B. reflexivity.
Defined.

(** ** Construction *)

Lemma read_resolution_range (i : DS18B20_Info) (w : World) :
  init i = true -> 9 <= fst (ds18b20_read_resolution i w) <= 12.
Proof.
  intros H. rewrite (read_resolution_run i w H). cbn [fst].
  apply check_resolution_range. apply extracted_resolution_valid.
Qed.

(** X5: [ds18b20_init] gives a session bound to the given bus and ROM code,
    initialised, not solo, with CRC checking off, and [ds18b20_init_solo]
    the same in solo mode with an all-zero ROM code.  With either, the
    cached resolution is seeded by one scratchpad read of five bytes without
    CRC (addressed by match-ROM and the ROM code, or by skip-ROM) and is
    always one of 9..12: it is what bits 5 and 6 of the received
    configuration byte give when the read succeeds, and 9 bit when no device
    answers. *)
Theorem constructors_seed_session (b : OneWireBus) (c : OneWireBus_ROMCode)
    (w : World) :
  let i := fst (ds18b20_init b c w) in
  let s := fst (ds18b20_init_solo b w) in
  (bus i = b /\ rom_code i = c /\ use_crc i = false /\ solo i = false
   /\ init i = true /\ 9 <= resolution i <= 12)
  /\ (bus s = b /\ rom_code s = repeat 0 8 /\ use_crc s = false /\ solo s = true
      /\ init s = true /\ 9 <= resolution s <= 12)
  /\ (reset_presence b (trace w) = false ->
      resolution i = DS18B20_RESOLUTION_9_BIT
      /\ resolution s = DS18B20_RESOLUTION_9_BIT
      /\ wire_since w (snd (ds18b20_init b c w)) = [EvReset false]
      /\ wire_since w (snd (ds18b20_init_solo b w)) = [EvReset false])
  /\ (forall content,
        reset_presence b (trace w) = true ->
        write_byte_status b
          (trace w ++ [EvReset true; EvWriteByte OWB_ROM_MATCH; EvWriteRomCode c])
          DS18B20_FUNCTION_SCRATCHPAD_READ = OWB_STATUS_OK ->
        read_bytes_reply b
          (trace w ++ [EvReset true; EvWriteByte OWB_ROM_MATCH; EvWriteRomCode c;
                       EvWriteByte DS18B20_FUNCTION_SCRATCHPAD_READ]) 5
        = (OWB_STATUS_OK, content) ->
        length content = 5%nat -> Forall is_uint8 content ->
        resolution i = resolution_of_configuration (nth 4 content 0)
        /\ exists present,
             wire_since w (snd (ds18b20_init b c w))
             = [EvReset true; EvWriteByte OWB_ROM_MATCH; EvWriteRomCode c;
                EvWriteByte DS18B20_FUNCTION_SCRATCHPAD_READ;
                EvReadBytes 5 content; EvReset present])
  /\ (forall content,
        reset_presence b (trace w) = true ->
        write_byte_status b
          (trace w ++ [EvReset true; EvWriteByte OWB_ROM_SKIP])
          DS18B20_FUNCTION_SCRATCHPAD_READ = OWB_STATUS_OK ->
        read_bytes_reply b
          (trace w ++ [EvReset true; EvWriteByte OWB_ROM_SKIP;
                       EvWriteByte DS18B20_FUNCTION_SCRATCHPAD_READ]) 5
        = (OWB_STATUS_OK, content) ->
        length content = 5%nat -> Forall is_uint8 content ->
        resolution s = resolution_of_configuration (nth 4 content 0)
        /\ exists present,
             wire_since w (snd (ds18b20_init_solo b w))
             = [EvReset true; EvWriteByte OWB_ROM_SKIP;
                EvWriteByte DS18B20_FUNCTION_SCRATCHPAD_READ;
                EvReadBytes 5 content; EvReset present]).
Proof.
  intros i s. subst i s.
  unfold ds18b20_init, ds18b20_init_solo, bind.
  set (i0 := set_info_rom_code c (_init b)).
  set (s0 := set_info_solo true (_init b)).
  pose proof (read_resolution_range i0 w eq_refl) as Ri.
  pose proof (read_resolution_range s0 w eq_refl) as Rs.
  rewrite (read_resolution_run i0 w eq_refl) in Ri |- *.
  rewrite (read_resolution_run s0 w eq_refl) in Rs |- *.
  cbn [fst snd ret set_info_resolution resolution] in Ri, Rs |- *.
  split; [repeat split; try reflexivity; lia |].
  split; [repeat split; try reflexivity; lia |].
  split.
  - intros P.
    rewrite (read_scratchpad_absent_run i0 Scratchpad_zero 5 w eq_refl P).
    rewrite (read_scratchpad_absent_run s0 Scratchpad_zero 5 w eq_refl P).
    cbn [fst snd buffer_after].
    rewrite !wire_since_extend. repeat split; reflexivity.
  - split.
    + intros content P W R L B.
      destruct (read_scratchpad_nocrc_run i0 Scratchpad_zero content w
                  eq_refl eq_refl P W R L B) as (present & E).
      rewrite E. cbn [fst snd buffer_after].
      rewrite wire_since_extend.
      split; [| exists present; reflexivity].
      do 5 (destruct content as [| ? content]; [discriminate L |]).
      destruct content; [reflexivity | discriminate L].
    + intros content P W R L B.
      destruct (read_scratchpad_nocrc_run s0 Scratchpad_zero content w
                  eq_refl eq_refl P W R L B) as (present & E).
      rewrite E. cbn [fst snd buffer_after].
      rewrite wire_since_extend.
      split; [| exists present; reflexivity].
      do 5 (destruct content as [| ? content]; [discriminate L |]).
      destruct content; [reflexivity | discriminate L].
Qed.

Lemma constructors_seed_session_witness :
  resolution (fst (ds18b20_init (simulated_bus absent_device) example_rom_code World_zero))
  = DS18B20_RESOLUTION_9_BIT
  /\ resolution (fst (ds18b20_init (fixed_reply_bus good_content) example_rom_code
                        World_zero))
     = DS18B20_RESOLUTION_12_BIT
  /\ resolution (fst (ds18b20_init_solo (fixed_reply_bus good_content) World_zero))
     = DS18B20_RESOLUTION_12_BIT.
Proof.
  assert (Forall is_uint8 [0x50; 0x05; 0x4B; 0x46; 0x7F]) as F
    by (repeat constructor; unfold is_uint8; lia).
  split; [| split].
  - destruct (constructors_seed_session (simulated_bus absent_device)
                example_rom_code World_zero) as (_ & _ & A & _).
    apply A. reflexivity.
  - destruct (constructors_seed_session (fixed_reply_bus good_content)
                example_rom_code World_zero) as (_ & _ & _ & A & _).
    destruct (A [0x50; 0x05; 0x4B; 0x46; 0x7F] eq_refl eq_refl eq_refl eq_refl F)
      as (E & _).
    exact E.
  - destruct (constructors_seed_session (fixed_reply_bus good_content)
                example_rom_code World_zero) as (_ & _ & _ & _ & A).
    destruct (A [0x50; 0x05; 0x4B; 0x46; 0x7F] eq_refl eq_refl eq_refl eq_refl F)
      as (E & _).
    exact E.
Defined.

(** ** Reading the temperature *)

Lemma nth_uint8 (l : list Z) (k : nat) : Forall is_uint8 l -> is_uint8 (nth k l 0).
Proof.
  intros F. destruct (nth_in_or_default k l 0) as [I | ->].
  - rewrite Forall_forall in F. apply F. exact I.
  - unfold is_uint8. lia.
Qed.

Lemma scratchpad_of_bytes_uint8 (l : list Z) :
  Forall is_uint8 l -> Forall is_uint8 (scratchpad_bytes (scratchpad_of_bytes l)).
Proof.
  intros F. unfold scratchpad_bytes, scratchpad_of_bytes.
  cbn [temperature_0 temperature_1 trigger_high trigger_low configuration
       reserved_0 reserved_1 reserved_2 crc].
  repeat (constructor; [apply nth_uint8; exact F |]). constructor.
Qed.

Lemma In_firstn_list {A : Type} (n : nat) (l : list A) (x : A) :
  In x (firstn n l) -> In x l.
Proof.
  intros I. rewrite <- (firstn_skipn n l). apply in_or_app. left. exact I.
Qed.

Lemma In_skipn_list {A : Type} (n : nat) (l : list A) (x : A) :
  In x (skipn n l) -> In x l.
Proof.
  intros I. rewrite <- (firstn_skipn n l). apply in_or_app. right. exact I.
Qed.

Lemma store_bytes_uint8 (buffer reply : list Z) (n : nat) :
  Forall is_uint8 buffer ->
  Forall is_uint8 (store_bytes buffer (firstn n (map to_uint8 reply))).
Proof.
  intros F. unfold store_bytes. apply Forall_app. split.
  - apply Forall_forall. intros x I.
    apply In_firstn_list, In_firstn_list, in_map_iff in I.
    destruct I as (y & <- & _). apply to_uint8_range.
  - apply Forall_forall. intros x I. apply In_skipn_list in I.
    rewrite Forall_forall in F. apply F. exact I.
Qed.

(** Whatever the bus does, the buffer holds bytes after a read. *)
Lemma read_scratchpad_buffer_uint8 (i : DS18B20_Info) (sp : Scratchpad) (count : Z)
    (w : World) :
  Forall is_uint8 (scratchpad_bytes sp) ->
  Forall is_uint8
    (scratchpad_bytes (buffer_after sp (fst (_read_scratchpad i (Some sp) count w)))).
Proof.
  intros F. unfold _read_scratchpad, bind at 1.
  destruct (_address_device i w) as [[|] w1]; [| exact F].
  unfold bind at 1.
  destruct (owb_write_byte (bus i) DS18B20_FUNCTION_SCRATCHPAD_READ w1) as [[|] w2];
    cbn [owb_status_eqb].
  - unfold bind at 1, owb_read_bytes, bind at 1, history.
    destruct (read_bytes_reply (bus i) (trace w2) _) as [st reply].
    unfold bind at 1. rewrite emit_run. unfold ret at 1. cbn [fst snd].
    assert (Forall is_uint8
              (scratchpad_bytes (scratchpad_of_bytes
                 (store_bytes (scratchpad_bytes sp)
                    (firstn (Z.to_nat (_min sizeof_Scratchpad
                               (if use_crc i then sizeof_Scratchpad else count)))
                       (map to_uint8 reply)))))) as G
      by (apply scratchpad_of_bytes_uint8, store_bytes_uint8; exact F).
    destruct st; cbn [owb_status_eqb].
    + destruct (use_crc i); cbn [negb].
      * destruct (negb _); unfold bind, ESP_LOGE, ret; rewrite ?write_log_run; exact G.
      * unfold bind. rewrite owb_reset_run. exact G.
    + unfold bind, ESP_LOGE, ret. rewrite write_log_run. exact G.
  - unfold bind, ESP_LOGE, ret. rewrite write_log_run. exact F.
Qed.

Lemma decode_sentinel (r : Z) (w : World) :
  _check_resolution r = true ->
  _decode_temp 0x00 0x80 r w = (F32.of_Z (-2048), w).
Proof.
  intros V. rewrite (decode_temp_valid 0x00 0x80 r w V).
  apply resolutions_all_complete in V. unfold resolutions_all in V.
  cbn [In] in V.
  destruct V as [<- | [<- | [<- | [<- | []]]]]; vm_compute; reflexivity.
Qed.

Lemma decode_exact (lsb msb r : Z) (w : World) :
  _check_resolution r = true -> is_uint8 lsb -> is_uint8 msb ->
  exists v q, _decode_temp lsb msb r w = (v, w)
    /\ SF2Q v = Some q /\ (q == spec_raw lsb msb r # 16)%Q.
Proof.
  intros V Hl Hm. rewrite (decode_temp_valid lsb msb r w V).
  rewrite (raw_agrees_ok r lsb msb V Hl Hm).
  pose proof quotient_exact_all as A. rewrite forallb_forall in A.
  assert (quotient_exact (spec_raw lsb msb r) = true) as Q.
  { apply A, int16_all_complete.
    rewrite <- (raw_agrees_ok r lsb msb V Hl Hm). apply to_int16_range. }
  apply SF_is_true in Q. destruct Q as (q & E & Hq).
  do 2 eexists. split; [reflexivity |]. split; [exact E | exact Hq].
Qed.

Lemma read_temp_run (i : DS18B20_Info) (value : option spec_float) (w : World) :
  init i = true ->
  let r := _read_scratchpad i (Some Scratchpad_zero) 2 w in
  let buf := buffer_after Scratchpad_zero (fst r) in
  let d :=
    match fst (fst r) with
    | DS18B20_OK =>
        _decode_temp (temperature_0 buf) (temperature_1 buf) (resolution i) (snd r)
    | _ => _decode_temp 0x00 0x80 (resolution i) (snd r)
    end in
  ds18b20_read_temp i value w =
  ((fst (fst r), match value with Some _ => Some (fst d) | None => None end), snd d).
Proof.
  intros H r buf d. subst d buf r.
  unfold ds18b20_read_temp. unfold bind at 1. rewrite (is_init_run i w H).
  unfold bind at 1.
  destruct (_read_scratchpad i (Some Scratchpad_zero) 2 w) as [[err osp] w1].
  cbn [fst snd].
  destruct err; unfold bind, ret;
    match goal with
    | |- context [_decode_temp ?a ?b ?c ?d] => destruct (_decode_temp a b c d)
    end; reflexivity.
Qed.

(** X6: for an initialised session with a valid cached resolution,
    [ds18b20_read_temp] does one scratchpad read of two bytes and returns
    its error as it is.  When that read fails the value stored is -2048.0,
    the decoding of the default bytes 0x00, 0x80; when it succeeds the
    value stored stands for exactly the decoded register, a sixteenth of
    the signed 16-bit integer of the two masked temperature bytes.  With no
    place to store the value the read is made all the same. *)
Theorem read_temp_value_and_error (i : DS18B20_Info) (x : spec_float) (w : World) :
  init i = true -> _check_resolution (resolution i) = true ->
  let r := _read_scratchpad i (Some Scratchpad_zero) 2 w in
  let buf := buffer_after Scratchpad_zero (fst r) in
  let out := ds18b20_read_temp i (Some x) w in
  fst (fst out) = fst (fst r)
  /\ snd out = snd r
  /\ (fst (fst r) <> DS18B20_OK ->
      snd (fst out) = Some (F32.of_Z (-2048))
      /\ exists q, SF2Q (F32.of_Z (-2048)) = Some q /\ (q == -2048 # 1)%Q)
  /\ (fst (fst r) = DS18B20_OK ->
      exists v q, snd (fst out) = Some v /\ SF2Q v = Some q
        /\ (q == spec_raw (temperature_0 buf) (temperature_1 buf) (resolution i) # 16)%Q)
  /\ ds18b20_read_temp i None w = ((fst (fst r), None), snd r).
Proof.
  intros H V r buf out. subst out.
  pose proof (read_scratchpad_buffer_uint8 i Scratchpad_zero 2 w) as F.
  fold r in F. fold buf in F.
  assert (is_uint8 (temperature_0 buf) /\ is_uint8 (temperature_1 buf)) as [B0 B1].
  { assert (Forall is_uint8 (scratchpad_bytes buf)) as G
      by (apply F; repeat constructor; unfold is_uint8; cbn; lia).
    unfold scratchpad_bytes in G.
    inversion G as [| ? ? G0 G']; subst. inversion G' as [| ? ? G1 _]; subst.
    split; assumption. }
  rewrite (read_temp_run i (Some x) w H), (read_temp_run i None w H).
  fold r. fold buf. cbn [fst snd].
  destruct (decode_exact (temperature_0 buf) (temperature_1 buf) (resolution i) (snd r)
              V B0 B1) as (v & q & D & Eq & Hq).
  pose proof (decode_sentinel (resolution i) (snd r) V) as S.
  destruct (fst (fst r)); rewrite ?D, ?S; cbn [fst snd].
  { split; [reflexivity |]. split; [reflexivity |].
    split; [intros C; contradiction |].
    split; [intros _; exists v, q; auto | reflexivity]. }
  all: split; [reflexivity |]; split; [reflexivity |];
    split; [intros _; split; [reflexivity |];
            eexists; split; [reflexivity | vm_compute; reflexivity] |];
    split; [intros C; discriminate C | reflexivity].
Qed.

Lemma read_temp_value_and_error_witness :
  ds18b20_read_temp (session_on absent_device true false) (Some S754_nan) World_zero
  = ((DS18B20_ERROR_UNKNOWN, Some (F32.of_Z (-2048))),
     extend World_zero [EvReset false] [(LOG_ERROR, MsgNotResponding)]).
Proof.
  destruct (read_temp_value_and_error (session_on absent_device true false)
              S754_nan World_zero eq_refl eq_refl) as (A & B & C & _).
  destruct C as (C & _); [vm_compute; discriminate |].
  destruct (ds18b20_read_temp (session_on absent_device true false) (Some S754_nan)
              World_zero) as [[err v] w'].
  cbn [fst snd] in A, B, C. rewrite A, B, C. vm_compute. reflexivity.
Defined.

(** ** Starting a conversion *)

Lemma convert_run (i : DS18B20_Info) (w : World) :
  init i = true ->
  ds18b20_convert i w =
  if reset_presence (bus i) (trace w)
  then (true,
        extend w (EvReset true :: address_commands i
                    ++ [EvWriteByte DS18B20_FUNCTION_TEMP_CONVERT]) [])
  else (false,
        extend w [EvReset false]
          [(LOG_ERROR, MsgNotResponding); (LOG_ERROR, MsgNotResponding)]).
Proof.
  intros H. unfold ds18b20_convert. unfold bind at 1. rewrite (is_init_run i w H).
  unfold bind at 1. rewrite (address_device_run i w H).
  destruct (reset_presence (bus i) (trace w)).
  - unfold bind, ret. rewrite owb_write_byte_run, extend_extend. reflexivity.
  - unfold bind, ESP_LOGE, ret. rewrite write_log_run, extend_extend. reflexivity.
Qed.

Lemma convert_all_run (b : OneWireBus) (w : World) :
  ds18b20_convert_all b w =
  (tt, extend w [EvReset (reset_presence b (trace w)); EvWriteByte OWB_ROM_SKIP;
                 EvWriteByte DS18B20_FUNCTION_TEMP_CONVERT] []).
Proof.
  unfold ds18b20_convert_all. unfold bind at 1. rewrite owb_reset_run.
  unfold bind at 1. rewrite owb_write_byte_run.
  unfold bind, ret. rewrite owb_write_byte_run, !extend_extend. reflexivity.
Qed.

(** X7: for an initialised session, [ds18b20_convert] returns whether a
    device answered the reset.  If one did, the addressing bytes are followed
    by the convert command 0x44 and the result is true whatever status the
    bus gives that command; if none did, nothing is sent after the reset and
    the "not responding" error is logged twice, once by the addressing step
    and once by [ds18b20_convert] itself. *)
Theorem convert_protocol (i : DS18B20_Info) (w : World) :
  init i = true ->
  let out := ds18b20_convert i w in
  fst out = reset_presence (bus i) (trace w)
  /\ (reset_presence (bus i) (trace w) = true ->
      wire_since w (snd out)
      = wire_since w (snd (_address_device i w))
          ++ [EvWriteByte DS18B20_FUNCTION_TEMP_CONVERT]
      /\ log (snd out) = log w)
  /\ (reset_presence (bus i) (trace w) = false ->
      wire_since w (snd out) = [EvReset false]
      /\ log (snd out)
         = log w ++ [(LOG_ERROR, MsgNotResponding); (LOG_ERROR, MsgNotResponding)]).
Proof.
  intros H out. subst out.
  rewrite (convert_run i w H), (address_device_run i w H).
  destruct (reset_presence (bus i) (trace w)); cbn [fst snd];
    rewrite !wire_since_extend.
  - split; [reflexivity |]. split; [| discriminate].
    intros _. split; [reflexivity |]. unfold extend. cbn [log]. apply app_nil_r.
  - split; [reflexivity |]. split; [discriminate |].
    intros _. split; reflexivity.
Qed.

Lemma convert_protocol_witness :
  fst (ds18b20_convert (session_with_bus refusing_bus false true) World_zero) = true
  /\ wire_since World_zero
       (snd (ds18b20_convert (session_with_bus refusing_bus false true) World_zero))
     = [EvReset true; EvWriteByte OWB_ROM_SKIP;
        EvWriteByte DS18B20_FUNCTION_TEMP_CONVERT].
Proof.
  destruct (convert_protocol (session_with_bus refusing_bus false true) World_zero
              eq_refl) as (A & B & _).
  split; [exact A |]. destruct (B eq_refl) as (C & _). exact C.
Defined.

(** X8: [ds18b20_convert_all] puts a reset, the skip-ROM byte and the
    convert command on the wire whether or not a device answered the reset,
    and logs nothing.  With a device present this is exactly what
    [ds18b20_convert] does for an initialised solo session on the same bus;
    with none present [ds18b20_convert] stops after the reset while
    [ds18b20_convert_all] still sends both bytes. *)
Theorem convert_all_unconditional (i : DS18B20_Info) (w : World) :
  init i = true -> solo i = true ->
  let all := snd (ds18b20_convert_all (bus i) w) in
  let one := snd (ds18b20_convert i w) in
  wire_since w all
  = [EvReset (reset_presence (bus i) (trace w)); EvWriteByte OWB_ROM_SKIP;
     EvWriteByte DS18B20_FUNCTION_TEMP_CONVERT]
  /\ log all = log w
  /\ (reset_presence (bus i) (trace w) = true -> one = all)
  /\ (reset_presence (bus i) (trace w) = false ->
      wire_since w one = [EvReset false]
      /\ existsb is_transmission (wire_since w one) = false
      /\ existsb is_transmission (wire_since w all) = true).
Proof.
  intros H S all one. subst all one.
  rewrite convert_all_run, (convert_run i w H). cbn [snd].
  unfold address_commands. rewrite S.
  rewrite wire_since_extend.
  split; [reflexivity |].
  split; [unfold extend; cbn [log]; apply app_nil_r |].
  destruct (reset_presence (bus i) (trace w)); cbn [snd].
  - split; [intros _; reflexivity | discriminate].
  - split; [discriminate |]. intros _. rewrite wire_since_extend.
    repeat split; reflexivity.
Qed.

Lemma convert_all_unconditional_witness :
  wire_since World_zero
    (snd (ds18b20_convert_all (simulated_bus absent_device) World_zero))
  = [EvReset false; EvWriteByte OWB_ROM_SKIP; EvWriteByte DS18B20_FUNCTION_TEMP_CONVERT]
  /\ wire_since World_zero
       (snd (ds18b20_convert (session_on absent_device false true) World_zero))
     = [EvReset false].
Proof.
  destruct (convert_all_unconditional (session_on absent_device false true)
              World_zero eq_refl eq_refl) as (A & _ & _ & B).
  split; [exact A |]. destruct (B eq_refl) as (C & _). exact C.
Defined.

(** ** Converting and reading in one call *)

Lemma wait_for_conversion_returns (p : Z) (fuel : nat) (i : DS18B20_Info)
    (w : World) :
  1 <= p <= 1000 ->
  _check_resolution (resolution i) = true ->
  Forall (fun l => (max_conversion_ticks p (resolution i) + l) * p < 2 ^ 32)
         (latency w) ->
  (Z.to_nat (max_conversion_ticks p (resolution i)) <= fuel)%nat ->
  exists (n : nat) (status : Z) (elapsed : spec_float) (w' : World),
    _wait_for_conversion p fuel i w = (Some elapsed, w')
    /\ trace w' = trace w ++ map EvReadBit (repeat 0 n ++ [status])
    /\ Z.of_nat (S n) <= max_conversion_ticks p (resolution i)
    /\ (log w' = log w \/ log w' = log w ++ [(LOG_WARN, MsgTimedOut)])
    /\ (status = 0 -> log w' = log w ++ [(LOG_WARN, MsgTimedOut)]).
Proof.
  intros Hp V HL Hf.
  destruct (ticks_cover_bound_ok (resolution i) p V Hp)
    as (bound & Eb & M1 & M2 & _).
  set (M := max_conversion_ticks p (resolution i)) in *.
  set (B := (2 ^ 32 - 1) / p).
  assert (forall x, x * p < 2 ^ 32 -> x <= B) as toB.
  { intros x Hx. subst B. apply Z.div_le_lower_bound; lia. }
  assert (B * p <= 2 ^ 32 - 1) as fromB.
  { subst B. rewrite Z.mul_comm. apply Z.mul_div_le. lia. }
  assert (M <= B) as HMB by (apply toB; lia).
  assert (B < 2 ^ 32) as HBN by nia.
  destruct (poll_conversion_exits (bus i) (tick_count w) M B M1 HMB HBN fuel w)
    as (n & status & d & w' & R & T & L & Hn & Hd & Hs & _).
  - rewrite Z.sub_diag. cbn. lia.
  - eapply Forall_impl; [| exact HL]. intros l Hl. apply toB. exact Hl.
  - rewrite Z.sub_diag. cbn. rewrite Z.sub_0_r. exact Hf.
  - rewrite Z.sub_diag in Hn, Hd. cbn in Hn, Hd. rewrite Z.sub_0_r in Hn.
    assert (to_uint32 M = M) as EM.
    { unfold to_uint32. apply Z.mod_small. lia. }
    unfold _wait_for_conversion. rewrite V. fold M.
    unfold bind at 1, xTaskGetTickCount at 1. unfold bind at 1. rewrite R.
    rewrite EM.
    destruct (M <=? d) eqn:TO.
    + exists n, status, (F32.of_Z (to_uint32 (d * p))),
        (extend w' [] [(LOG_WARN, MsgTimedOut)]).
      split; [unfold bind, ESP_LOGW, ret; rewrite write_log_run; reflexivity |].
      cbn [extend trace log]. rewrite app_nil_r, T, L.
      split; [reflexivity |]. split; [exact Hn |].
      split; [right; reflexivity | intros _; reflexivity].
    + apply Z.leb_gt in TO.
      exists n, status, (F32.of_Z (to_uint32 (d * p))), w'.
      split; [reflexivity |]. split; [exact T |]. split; [exact Hn |].
      split; [left; exact L |]. intros S0. specialize (Hs S0). lia.
Qed.

Lemma convert_and_read_temp_run (p : Z) (fuel : nat) (i : DS18B20_Info)
    (value : option spec_float) (w : World) :
  init i = true ->
  ds18b20_convert_and_read_temp p fuel i value w =
  if reset_presence (bus i) (trace w) then
    match _wait_for_conversion p fuel i (snd (ds18b20_convert i w)) with
    | (None, w2) => (None, w2)
    | (Some _, w2) =>
        match value with
        | Some _ =>
            (Some (fst (ds18b20_read_temp i (Some (S754_zero false)) w2)),
             snd (ds18b20_read_temp i (Some (S754_zero false)) w2))
        | None => (Some (DS18B20_ERROR_NULL, None), w2)
        end
    end
  else (Some (DS18B20_ERROR_UNKNOWN, value), snd (ds18b20_convert i w)).
Proof.
  intros H. unfold ds18b20_convert_and_read_temp.
  unfold bind at 1. rewrite (is_init_run i w H).
  unfold bind at 1. rewrite (convert_run i w H).
  destruct (reset_presence (bus i) (trace w)); cbn [snd]; [| reflexivity].
  unfold bind at 1.
  destruct (_wait_for_conversion p fuel i _) as [[e |] w2]; [| reflexivity].
  destruct value; [| reflexivity].
  unfold bind, ret.
  destruct (ds18b20_read_temp i (Some (S754_zero false)) w2). reflexivity.
Qed.

(** X9: for an initialised session, [ds18b20_convert_and_read_temp] fails
    fast when no device answers: it returns DS18B20_ERROR_UNKNOWN without a
    single poll or read, and leaves the caller's value as it was.  When a
    device answers and the cached resolution is valid, it starts the
    conversion, waits (the wait returns, timed out or not), and then the
    result is the result of [ds18b20_read_temp]: the read is made after a
    timeout as after a completed conversion.  With no place to store the
    value it still starts the conversion and waits, and only then returns
    DS18B20_ERROR_NULL without reading. *)
Theorem convert_and_read_temp_sequence (p : Z) (fuel : nat) (i : DS18B20_Info)
    (x : spec_float) (w : World) :
  1 <= p <= 1000 -> init i = true ->
  let started := snd (ds18b20_convert i w) in
  (reset_presence (bus i) (trace w) = false ->
   forall value,
     ds18b20_convert_and_read_temp p fuel i value w
     = (Some (DS18B20_ERROR_UNKNOWN, value), started)
     /\ wire_since w started = [EvReset false])
  /\ (reset_presence (bus i) (trace w) = true ->
      _check_resolution (resolution i) = true ->
      Forall (fun l => (max_conversion_ticks p (resolution i) + l) * p < 2 ^ 32)
             (latency w) ->
      (Z.to_nat (max_conversion_ticks p (resolution i)) <= fuel)%nat ->
      exists (n : nat) (status : Z) (elapsed : spec_float) (waited : World),
        _wait_for_conversion p fuel i started = (Some elapsed, waited)
        /\ wire_since w waited
           = wire_since w (snd (_address_device i w))
               ++ EvWriteByte DS18B20_FUNCTION_TEMP_CONVERT
               :: map EvReadBit (repeat 0 n ++ [status])
        /\ ds18b20_convert_and_read_temp p fuel i (Some x) w
           = (Some (fst (ds18b20_read_temp i (Some (S754_zero false)) waited)),
              snd (ds18b20_read_temp i (Some (S754_zero false)) waited))
        /\ ds18b20_convert_and_read_temp p fuel i None w
           = (Some (DS18B20_ERROR_NULL, None), waited)).
Proof.
  intros Hp H started. subst started.
  split.
  - intros P value. rewrite (convert_and_read_temp_run p fuel i value w H), P.
    split; [reflexivity |].
    rewrite (convert_run i w H), P. cbn [snd]. apply wire_since_extend.
  - intros P V HL Hf.
    rewrite !(convert_and_read_temp_run p fuel i _ w H), P.
    rewrite (address_device_run i w H), P. cbn [snd].
    rewrite (convert_run i w H), P. cbn [snd].
    set (w1 := extend w _ []).
    destruct (wait_for_conversion_returns p fuel i w1 Hp V HL Hf)
      as (n & status & elapsed & w2 & R & T & _).
    exists n, status, elapsed, w2. rewrite R.
    split; [reflexivity |].
    split; [| split; reflexivity].
    unfold wire_since at 1. rewrite T. subst w1. cbn [extend trace].
    rewrite wire_since_extend.
    rewrite <- !app_assoc, skipn_app, skipn_all, Nat.sub_diag. cbn [skipn app].
    rewrite <- app_assoc. reflexivity.
Qed.

Lemma convert_and_read_temp_sequence_witness :
  (exists w', ds18b20_convert_and_read_temp 10 0 (session_on absent_device true false)
                (Some S754_nan) World_zero
              = (Some (DS18B20_ERROR_UNKNOWN, Some S754_nan), w'))
  /\ (exists waited,
        ds18b20_convert_and_read_temp 10 83 (session_on silent_device false true)
          None late_world
        = (Some (DS18B20_ERROR_NULL, None), waited)).
Proof.
  split.
  - destruct (convert_and_read_temp_sequence 10 0 (session_on absent_device true false)
                S754_nan World_zero) as (A & _); [lia | reflexivity |].
    destruct (A eq_refl (Some S754_nan)) as (B & _).
    eexists. exact B.
  - destruct (convert_and_read_temp_sequence 10 83 (session_on silent_device false true)
                S754_nan late_world) as (_ & A); [lia | reflexivity |].
    destruct A as (n & status & elapsed & waited & _ & _ & _ & B).
    + reflexivity.
    + reflexivity.
    + repeat constructor.
    + vm_compute. lia.
    + exists waited. exact B.
Defined.

(** ** Setting the resolution on the simulated device *)

Lemma sim_memory_after_write (d : Sim) (i : DS18B20_Info) (b : list Z)
    (h : list owb_event) :
  st_memory (sim_state d
    (h ++ EvReset true :: address_commands i
       ++ [EvWriteByte DS18B20_FUNCTION_SCRATCHPAD_WRITE; EvWriteBytes b]))
  = sim_write (st_memory (sim_state d h)) b.
Proof.
  change (EvReset true :: address_commands i
            ++ [EvWriteByte DS18B20_FUNCTION_SCRATCHPAD_WRITE; EvWriteBytes b])
    with ((EvReset true :: address_commands i)
            ++ [EvWriteByte DS18B20_FUNCTION_SCRATCHPAD_WRITE; EvWriteBytes b]).
  rewrite app_assoc, (sim_state_app d _ [_; _]).
  cbn [fold_left sim_step st_last st_memory Z.eqb
       DS18B20_FUNCTION_SCRATCHPAD_WRITE Pos.eqb].
  rewrite sim_state_app, sim_quiet_memory
    by (cbn [forallb is_write_bytes negb andb]; apply address_commands_quiet).
  reflexivity.
Qed.

Lemma sim_quiet_state_memory (d : Sim) (h evs : list owb_event) :
  forallb (fun e => negb (is_write_bytes e)) evs = true ->
  st_memory (sim_state d (h ++ evs)) = st_memory (sim_state d h).
Proof. intros Q. rewrite sim_state_app. apply sim_quiet_memory. exact Q. Qed.

(** On the simulated bus a call of [ds18b20_set_resolution] succeeds, and
    the device then holds the trigger bytes it held before and the new
    configuration byte. *)
Lemma sim_set_resolution_run (d : Sim) (i : DS18B20_Info) (r : Z) (w : World) :
  bus i = simulated_bus d -> sim_present d = true ->
  length (sim_memory d) = 8%nat ->
  init i = true -> _check_resolution (resolution i) = true ->
  exists evs,
    ds18b20_set_resolution i r w = ((true, set_info_resolution r i), extend w evs [])
    /\ forall m0 m1 m2 m3 m4 m5 m6 m7,
         st_memory (sim_state d (trace w)) = [m0; m1; m2; m3; m4; m5; m6; m7] ->
         st_memory (sim_state d (trace w ++ evs))
         = [m0; m1; to_uint8 m2; to_uint8 m3; configuration_value r; m5; m6; m7].
Proof.
  intros Hb Hp Hl Hi V.
  rewrite (set_resolution_run i r w Hi V).
  destruct (sim_read_run d i Scratchpad_zero w Hb Hp Hi Hl)
    as (sp1 & evs1 & R1 & B1 & Q1).
  rewrite R1. cbn [fst snd buffer_after].
  set (sp := set_configuration (configuration_value r) sp1).
  assert (reset_presence (bus i) (trace (extend w evs1 [])) = true) as P
    by (rewrite Hb; exact Hp).
  rewrite (write_scratchpad_present_run i sp true (extend w evs1 []) Hi P).
  cbn zeta. rewrite extend_extend.
  set (w2 := extend w _ _).
  destruct (sim_read_run d i Scratchpad_zero w2 Hb Hp Hi Hl)
    as (sp2 & evs2 & R2 & B2 & Q2).
  rewrite R2. cbn [fst snd buffer_after].
  pose proof (sim_state_length d (trace w)) as L. rewrite Hl in L.
  destruct (list_length_8 _ L) as (a0 & a1 & a2 & a3 & a4 & a5 & a6 & a7 & Em).
  assert (bytes_2_to_4 sp = [to_uint8 a2; to_uint8 a3; configuration_value r]) as Esp.
  { rewrite Em in B1. cbn [skipn firstn map] in B1.
    unfold bytes_2_to_4 in B1 |- *. subst sp.
    cbn [set_configuration trigger_high trigger_low configuration].
    injection B1 as -> -> _. reflexivity. }
  assert (st_memory (sim_state d (trace w2))
          = [a0; a1; to_uint8 a2; to_uint8 a3; configuration_value r; a5; a6; a7])
    as Em2.
  { subst w2. cbn [extend trace]. rewrite app_assoc.
    rewrite (sim_memory_after_write d i (bytes_2_to_4 sp) (trace w ++ evs1)).
    rewrite (sim_quiet_state_memory d (trace w) evs1 Q1), Em, Esp. reflexivity. }
  assert (bytes_2_to_4 sp2 = bytes_2_to_4 sp) as E2.
  { rewrite B2, Em2, Esp. cbn [skipn firstn map].
    unfold to_uint8. rewrite !Z.mod_mod by lia.
    f_equal. f_equal. f_equal.
    unfold configuration_value, to_uint8. apply Z.mod_mod. lia. }
  rewrite E2, memcmp_eq_refl.
  eexists. split.
  - subst w2. rewrite extend_extend. reflexivity.
  - intros m0 m1 m2 m3 m4 m5 m6 m7 E. rewrite Em in E.
    injection E as <- <- <- <- <- <- <- <-.
    rewrite app_assoc, (sim_quiet_state_memory d _ evs2 Q2).
    exact Em2.
Qed.

Lemma resolution_of_configuration_value (r : Z) :
  resolution_of_configuration (configuration_value r) = 9 + (r - 1) mod 4.
Proof.
  destruct (configuration_value_formula r) as [F _]. rewrite F.
  unfold resolution_of_configuration, DS18B20_RESOLUTION_9_BIT.
  change 0x03 with (Z.ones 2). rewrite !Z.land_ones by lia.
  change (2 ^ 2) with 4.
  pose proof (Z.mod_pos_bound (r - 1) 4 ltac:(lia)) as B.
  assert ((r - 1) mod 4 = 0 \/ (r - 1) mod 4 = 1
          \/ (r - 1) mod 4 = 2 \/ (r - 1) mod 4 = 3) as D by lia.
  destruct D as [-> | [-> | [-> | ->]]]; reflexivity.
Qed.

(** X10: the configuration byte written for a resolution and the
    resolution read from a configuration byte are inverse on 9..12: the
    byte (((r - 1) AND 3) << 5) | 0x1F has its five low bits set and bit 7
    clear, and bits 5 and 6 of it give r back.  For any other argument the
    byte is the one of the supported resolution congruent to it modulo 4
    (13 is written as 9 bit). *)
Theorem configuration_byte_round_trip (r : Z) :
  Z.land (configuration_value r) 0x1F = 0x1F
  /\ Z.testbit (configuration_value r) 7 = false
  /\ 0 <= configuration_value r < 128
  /\ resolution_of_configuration (configuration_value r) = 9 + (r - 1) mod 4
  /\ (9 <= r <= 12 -> resolution_of_configuration (configuration_value r) = r)
  /\ configuration_value (r + 4) = configuration_value r.
Proof.
  pose proof (resolution_of_configuration_value r) as E.
  destruct (configuration_value_formula r) as [F _].
  destruct (configuration_value_formula (r + 4)) as [F4 _].
  assert (Z.land (r + 4 - 1) 3 = Z.land (r - 1) 3) as M.
  { change 3 with (Z.ones 2). rewrite !Z.land_ones by lia.
    replace (r + 4 - 1) with (r - 1 + 1 * 2 ^ 2) by lia.
    apply Z.mod_add. lia. }
  rewrite F4, M, <- F.
  assert (configuration_value r = 0x1F \/ configuration_value r = 0x3F
          \/ configuration_value r = 0x5F \/ configuration_value r = 0x7F) as D.
  { rewrite F. change 0x03 with (Z.ones 2). rewrite Z.land_ones by lia.
    pose proof (Z.mod_pos_bound (r - 1) (2 ^ 2) ltac:(lia)) as B.
    assert ((r - 1) mod 2 ^ 2 = 0 \/ (r - 1) mod 2 ^ 2 = 1
            \/ (r - 1) mod 2 ^ 2 = 2 \/ (r - 1) mod 2 ^ 2 = 3) as D by lia.
    destruct D as [-> | [-> | [-> | ->]]]; cbn; auto. }
  split; [destruct D as [-> | [-> | [-> | ->]]]; reflexivity |].
  split; [destruct D as [-> | [-> | [-> | ->]]]; reflexivity |].
  split; [destruct D as [-> | [-> | [-> | ->]]]; lia |].
  split; [exact E |].
  split; [| reflexivity].
  intros H. rewrite E.
  assert (r = 9 \/ r = 10 \/ r = 11 \/ r = 12) as C by lia.
  destruct C as [-> | [-> | [-> | ->]]]; reflexivity.
Qed.

Lemma configuration_byte_round_trip_witness :
  resolution_of_configuration (configuration_value 11) = 11.
Proof.
  destruct (configuration_byte_round_trip 11) as (_ & _ & _ & _ & A & _).
  apply A. lia.
Defined.

(** X11: on a bus whose device is present and honours writes, after
    [ds18b20_set_resolution] with argument r the device's memory differs
    from before in the configuration byte only (the trigger bytes read at
    the start are written back), and [ds18b20_read_resolution] on the
    session the call leaves returns 9 + (r - 1) mod 4: the argument itself
    when it is one of 9..12, so that cache and device agree. *)
Theorem set_then_read_resolution (d : Sim) (i : DS18B20_Info) (r : Z) (w : World) :
  bus i = simulated_bus d -> sim_present d = true ->
  length (sim_memory d) = 8%nat ->
  Forall is_uint8 (st_memory (sim_state d (trace w))) ->
  init i = true -> _check_resolution (resolution i) = true ->
  let out := ds18b20_set_resolution i r w in
  let i' := snd (fst out) in
  let before := st_memory (sim_state d (trace w)) in
  let after := st_memory (sim_state d (trace (snd out))) in
  fst (fst out) = true
  /\ firstn 4 after = firstn 4 before
  /\ nth 4 after 0 = configuration_value r
  /\ skipn 5 after = skipn 5 before
  /\ fst (ds18b20_read_resolution i' (snd out)) = 9 + (r - 1) mod 4
  /\ (9 <= r <= 12 ->
      fst (ds18b20_read_resolution i' (snd out)) = resolution i').
Proof.
  intros Hb Hp Hl Fm Hi V out i' before after. subst after before i' out.
  destruct (sim_set_resolution_run d i r w Hb Hp Hl Hi V) as (evs & R & M).
  rewrite R. cbn [fst snd extend trace].
  pose proof (sim_state_length d (trace w)) as L. rewrite Hl in L.
  destruct (list_length_8 _ L) as (a0 & a1 & a2 & a3 & a4 & a5 & a6 & a7 & Em).
  specialize (M _ _ _ _ _ _ _ _ Em).
  rewrite Em in Fm |- *. rewrite M.
  assert (to_uint8 a2 = a2 /\ to_uint8 a3 = a3) as [E2 E3].
  { inversion Fm as [| ? ? _ F1]. inversion F1 as [| ? ? _ F2].
    inversion F2 as [| ? ? U2 F3]. inversion F3 as [| ? ? U3 _].
    unfold to_uint8, is_uint8 in *. split; apply Z.mod_small; assumption. }
  rewrite E2, E3. cbn [firstn skipn nth].
  assert (fst (ds18b20_read_resolution (set_info_resolution r i) (extend w evs []))
          = 9 + (r - 1) mod 4) as RR.
  { set (i' := set_info_resolution r i).
    assert (init i' = true) as Hi' by exact Hi.
    assert (bus i' = simulated_bus d) as Hb' by exact Hb.
    rewrite (read_resolution_run i' _ Hi').
    destruct (sim_read_run d i' Scratchpad_zero (extend w evs []) Hb' Hp Hi' Hl)
      as (sp' & evs' & R' & B' & _).
    rewrite R'. cbn [fst snd buffer_after].
    cbn [extend trace] in B'. rewrite M, E2, E3 in B'.
    cbn [skipn firstn map] in B'. unfold bytes_2_to_4 in B'.
    injection B' as _ _ ->.
    assert (to_uint8 (configuration_value r) = configuration_value r) as ->.
    { destruct (configuration_value_formula r) as [_ U].
      unfold to_uint8, is_uint8 in *. apply Z.mod_small. exact U. }
    apply resolution_of_configuration_value. }
  repeat split; try reflexivity; [exact RR |].
  intros H. rewrite RR. cbn [set_info_resolution resolution].
  assert (r = 9 \/ r = 10 \/ r = 11 \/ r = 12) as C by lia.
  destruct C as [-> | [-> | [-> | ->]]]; reflexivity.
Qed.

Lemma set_then_read_resolution_witness :
  fst (ds18b20_read_resolution
         (snd (fst (ds18b20_set_resolution (session_on example_device true false)
                      DS18B20_RESOLUTION_10_BIT World_zero)))
         (snd (ds18b20_set_resolution (session_on example_device true false)
                 DS18B20_RESOLUTION_10_BIT World_zero)))
  = DS18B20_RESOLUTION_10_BIT.
Proof.
  refine (proj2 (proj2 (proj2 (proj2 (proj2
    (set_then_read_resolution example_device (session_on example_device true false)
       DS18B20_RESOLUTION_10_BIT World_zero eq_refl eq_refl eq_refl _ eq_refl eq_refl)))))
    _).
  - repeat constructor; unfold is_uint8; cbn; intuition discriminate.
  - unfold DS18B20_RESOLUTION_10_BIT. lia.
Defined.

(** ** A session whose cached resolution is unsupported *)

Lemma decode_temp_invalid_run (lsb msb r : Z) (w : World) :
  _check_resolution r = false ->
  _decode_temp lsb msb r w
  = (S754_zero false, extend w [] [(LOG_ERROR, MsgUnsupportedResolution)]).
Proof.
  intros V. unfold _decode_temp. rewrite V.
  unfold bind, ESP_LOGE, ret. rewrite write_log_run. reflexivity.
Qed.

Lemma set_resolution_invalid_run (i : DS18B20_Info) (r : Z) (w : World) :
  init i = true -> _check_resolution (resolution i) = false ->
  ds18b20_set_resolution i r w
  = ((false, i), extend w [] [(LOG_ERROR, MsgUnsupportedResolution)]).
Proof.
  intros H V. unfold ds18b20_set_resolution. unfold bind at 1.
  rewrite (is_init_run i w H), V.
  unfold bind, ESP_LOGE, ret. rewrite write_log_run. reflexivity.
Qed.

Lemma set_resolution_run_any (i : DS18B20_Info) (r : Z) (w : World) :
  init i = true ->
  ds18b20_set_resolution i r w =
  if _check_resolution (resolution i) then
    let r1 := _read_scratchpad i (Some Scratchpad_zero) 5 w in
    let sp := set_configuration (configuration_value r)
                (buffer_after Scratchpad_zero (fst r1)) in
    let r2 := _write_scratchpad i sp true (snd r1) in
    if fst r2 then ((true, set_info_resolution r i), snd r2)
    else
      let r3 := ds18b20_read_resolution i (snd r2) in
      ((false, set_info_resolution (fst r3) i),
       extend (snd r3) [] [(LOG_WARN, MsgConsistencyLost)])
  else ((false, i), extend w [] [(LOG_ERROR, MsgUnsupportedResolution)]).
Proof.
  intros H. unfold ds18b20_set_resolution. unfold bind at 1.
  rewrite (is_init_run i w H).
  destruct (_check_resolution (resolution i)).
  - change (offsetof_configuration - offsetof_temperature + 1) with 5.
    unfold bind at 1.
    destruct (_read_scratchpad i (Some Scratchpad_zero) 5 w) as [r1 w1].
    cbn [fst snd]. unfold bind at 1.
    destruct (_write_scratchpad i _ true w1) as [[|] w2]; cbn [fst snd].
    + reflexivity.
    + unfold bind at 1. destruct (ds18b20_read_resolution i w2) as [x w3].
      unfold bind, ESP_LOGW, ret. rewrite write_log_run. reflexivity.
  - unfold bind, ESP_LOGE, ret. rewrite write_log_run. reflexivity.
Qed.

(** A call of [ds18b20_set_resolution] that reports success was made on an
    initialised session and has cached its argument. *)
Lemma set_resolution_true_inv (i : DS18B20_Info) (r : Z) (w : World) :
  fst (fst (ds18b20_set_resolution i r w)) = true ->
  init i = true /\ snd (fst (ds18b20_set_resolution i r w)) = set_info_resolution r i.
Proof.
  destruct (init i) eqn:H.
  - rewrite (set_resolution_run_any i r w H).
    destruct (_check_resolution (resolution i)).
    + destruct (_read_scratchpad i (Some Scratchpad_zero) 5 w) as [r1 w1].
      cbn [fst snd].
      destruct (_write_scratchpad i _ true w1) as [[|] w2]; cbn [fst snd].
      * intros _. split; reflexivity.
      * discriminate.
    + cbn. discriminate.
  - unfold ds18b20_set_resolution, bind.
    rewrite (is_init_false_run i w H). cbn. discriminate.
Qed.

(** X12: [ds18b20_set_resolution] does not check its argument, and a call
    with an unsupported one that succeeds leaves a session that
    [ds18b20_set_resolution] itself cannot repair: the argument is cached,
    every later [ds18b20_set_resolution], whatever its argument, returns
    false with one error message and no bus traffic and leaves the session
    as it is, [ds18b20_wait_for_conversion] returns 0.0 at once without
    polling, and [ds18b20_read_temp] still reads the device and returns the
    read's error code but stores 0.0. *)
Theorem unsupported_resolution_locks_session (p : Z) (fuel : nat)
    (i : DS18B20_Info) (r : Z) (w : World) :
  _check_resolution r = false ->
  fst (fst (ds18b20_set_resolution i r w)) = true ->
  let i' := snd (fst (ds18b20_set_resolution i r w)) in
  resolution i' = r
  /\ (forall r' w',
        ds18b20_set_resolution i' r' w'
        = ((false, i'), extend w' [] [(LOG_ERROR, MsgUnsupportedResolution)]))
  /\ (forall w', ds18b20_wait_for_conversion p fuel i' w' = (Some (S754_zero false), w'))
  /\ (forall v w',
        exists evs msgs,
          ds18b20_read_temp i' (Some v) w'
          = ((fst (fst (_read_scratchpad i' (Some Scratchpad_zero) 2 w')),
              Some (S754_zero false)),
             extend w' evs (msgs ++ [(LOG_ERROR, MsgUnsupportedResolution)]))
          /\ snd (_read_scratchpad i' (Some Scratchpad_zero) 2 w') = extend w' evs msgs).
Proof.
  intros V T i'. subst i'.
  destruct (set_resolution_true_inv i r w T) as [H ->].
  set (i' := set_info_resolution r i).
  assert (init i' = true) as H' by exact H.
  assert (_check_resolution (resolution i') = false) as V' by exact V.
  split; [reflexivity |].
  split; [intros r' w'; apply set_resolution_invalid_run; assumption |].
  split.
  - intros w'. unfold ds18b20_wait_for_conversion, bind.
    rewrite (is_init_run i' w' H'). apply wait_for_conversion_invalid_run. exact V'.
  - intros v w'. rewrite (read_temp_run i' (Some v) w' H'). cbn zeta.
    destruct (advances_read_scratchpad i' (Some Scratchpad_zero) 2 w')
      as (evs & msgs & E).
    exists evs, msgs. split; [| exact E].
    destruct (_read_scratchpad i' (Some Scratchpad_zero) 2 w') as [[err osp] w1].
    cbn [fst snd] in E |- *. subst w1.
    destruct err; rewrite (decode_temp_invalid_run _ _ _ _ V');
      cbn [fst snd]; rewrite extend_extend, app_nil_r; reflexivity.
Qed.

Lemma unsupported_resolution_locks_session_witness :
  ds18b20_set_resolution
    (snd (fst (ds18b20_set_resolution (session_on example_device true false) 13
                 World_zero)))
    DS18B20_RESOLUTION_12_BIT World_zero
  = ((false,
      snd (fst (ds18b20_set_resolution (session_on example_device true false) 13
                  World_zero))),
     extend World_zero [] [(LOG_ERROR, MsgUnsupportedResolution)]).
Proof.
  refine (proj1 (proj2
    (unsupported_resolution_locks_session 1 0 (session_on example_device true false)
       13 World_zero _ _)) DS18B20_RESOLUTION_12_BIT World_zero).
  - reflexivity.
  - vm_compute. reflexivity.
Defined.

(** ** Setting the resolution with no device on the bus *)

(** X13: when no device answers a reset, [ds18b20_set_resolution] on an
    initialised session with a valid cached resolution returns false after
    three resets (the read, the write and the refreshing read) and nothing
    else on the wire, and the cache is not kept: it is replaced by 9 bit,
    the resolution the zeroed buffer of the failed refreshing read gives,
    whatever the cache and the argument were. *)
Theorem set_resolution_without_device (i : DS18B20_Info) (r : Z) (w : World) :
  init i = true -> _check_resolution (resolution i) = true ->
  (forall h, reset_presence (bus i) h = false) ->
  ds18b20_set_resolution i r w
  = ((false, set_info_resolution DS18B20_RESOLUTION_9_BIT i),
     extend w [EvReset false; EvReset false; EvReset false]
       [(LOG_ERROR, MsgNotResponding); (LOG_ERROR, MsgNotResponding);
        (LOG_ERROR, MsgNotResponding); (LOG_WARN, MsgConsistencyLost)]).
Proof.
  intros H V P.
  rewrite (set_resolution_run_any i r w H), V.
  rewrite (read_scratchpad_absent_run i Scratchpad_zero 5 w H (P _)).
  cbn [fst snd buffer_after].
  rewrite (write_scratchpad_absent_run i _ true _ H (P _)).
  cbn [fst snd].
  rewrite (read_resolution_run i _ H).
  rewrite (read_scratchpad_absent_run i Scratchpad_zero 5 _ H (P _)).
  cbn [fst snd buffer_after]. rewrite !extend_extend. reflexivity.
Qed.

Lemma set_resolution_without_device_witness :
  snd (fst (ds18b20_set_resolution (session_on absent_device true false)
              DS18B20_RESOLUTION_11_BIT World_zero))
  = set_info_resolution DS18B20_RESOLUTION_9_BIT (session_on absent_device true false).
Proof.
  rewrite (set_resolution_without_device (session_on absent_device true false)
             DS18B20_RESOLUTION_11_BIT World_zero eq_refl eq_refl
             (fun _ => eq_refl)).
  reflexivity.
Defined.

(** ** The steps of the decoded temperature *)

Lemma raw_quantised_all :
  forallb (fun r => forallb (fun l => forallb (raw_quantised r l) bytes_all) bytes_all)
          resolutions_all = true.
Proof. vm_compute. reflexivity. Qed.

Lemma raw_quantised_ok (r lsb msb : Z) :
  _check_resolution r = true -> is_uint8 lsb -> is_uint8 msb ->
  raw_quantised r lsb msb = true.
Proof.
  intros Hr Hl Hm. pose proof raw_quantised_all as A.
  rewrite forallb_forall in A.
  specialize (A r (resolutions_all_complete r Hr)).
  rewrite forallb_forall in A. specialize (A lsb (bytes_all_complete lsb Hl)).
  rewrite forallb_forall in A. exact (A msb (bytes_all_complete msb Hm)).
Qed.

(** X14: at a valid resolution r the value [_decode_temp] gives for two
    bytes is a whole number of steps of 2^(12 - r) sixteenths of a degree
    (0.5, 0.25, 0.125 and 0.0625 degrees for 9 to 12 bit), it lies between
    -2048 and 2048 degrees, it is negative exactly when the MSB has its top
    bit set, and the bits of the LSB below the step have no influence on
    it. *)
Theorem decode_temp_quantised (lsb msb r : Z) (w : World) :
  _check_resolution r = true -> is_uint8 lsb -> is_uint8 msb ->
  let step := 2 ^ (DS18B20_RESOLUTION_12_BIT - r) in
  exists (v : spec_float) (q : Q) (k : Z),
    _decode_temp lsb msb r w = (v, w)
    /\ SF2Q v = Some q
    /\ (q == k * step # 16)%Q
    /\ (-2048 # 1 <= q)%Q /\ (q < 2048 # 1)%Q
    /\ ((q < 0)%Q <-> 128 <= msb)
    /\ _decode_temp (lsb - lsb mod step) msb r w = (v, w).
Proof.
  intros V Hl Hm step.
  pose proof (raw_quantised_ok r lsb msb V Hl Hm) as Q.
  unfold raw_quantised in Q. fold step in Q.
  apply andb_true_iff in Q. destruct Q as [Q Q3].
  apply andb_true_iff in Q. destruct Q as [Q1 Q2].
  apply Z.eqb_eq in Q1. apply Z.eqb_eq in Q3. apply Bool.eqb_prop in Q2.
  assert (0 < step) as Hs.
  { subst step. apply Z.pow_pos_nonneg; [lia |].
    apply resolutions_all_complete in V. unfold resolutions_all in V. cbn [In] in V.
    destruct V as [<- | [<- | [<- | [<- | []]]]]; cbn; lia. }
  assert (is_uint8 (lsb - lsb mod step)) as Hl'.
  { unfold is_uint8 in *. pose proof (Z.mod_pos_bound lsb step Hs).
    pose proof (Z.mod_le lsb step ltac:(lia) Hs). lia. }
  destruct (decode_exact lsb msb r w V Hl Hm) as (v & q & E & Eq & Hq).
  destruct (decode_exact (lsb - lsb mod step) msb r w V Hl' Hm)
    as (v' & q' & E' & _ & _).
  assert (v' = v) as ->.
  { rewrite (decode_temp_valid _ _ _ _ V) in E.
    rewrite (decode_temp_valid _ _ _ _ V) in E'.
    rewrite (raw_agrees_ok r _ _ V Hl' Hm), Q3 in E'.
    rewrite (raw_agrees_ok r _ _ V Hl Hm) in E. congruence. }
  pose proof (to_int16_range (Z.lor (Z.shiftl msb 8)
     (Z.land (nth (Z.to_nat (r - DS18B20_RESOLUTION_9_BIT)) lsb_mask 0) lsb))) as Rg.
  rewrite (raw_agrees_ok r lsb msb V Hl Hm) in Rg.
  set (raw := spec_raw lsb msb r) in *.
  exists v, q, (raw / step).
  split; [exact E |]. split; [exact Eq |].
  assert (raw / step * step = raw) as Er.
  { pose proof (Z.div_mod raw step ltac:(lia)). lia. }
  rewrite Er.
  split; [exact Hq |].
  split; [rewrite Hq; unfold Qle; cbn; lia |].
  split; [rewrite Hq; unfold Qlt; cbn; lia |].
  split; [| exact E'].
  rewrite Hq. unfold Qlt. cbn.
  destruct (raw <? 0) eqn:N; symmetry in Q2;
    [apply Z.ltb_lt in N; apply Z.leb_le in Q2
    | apply Z.ltb_ge in N; apply Z.leb_gt in Q2]; lia.
Qed.

Lemma decode_temp_quantised_witness :
  exists (v : spec_float) (q : Q) (k : Z),
    _decode_temp 0x5E 0xFF DS18B20_RESOLUTION_10_BIT World_zero = (v, World_zero)
    /\ SF2Q v = Some q
    /\ (q == k * 4 # 16)%Q
    /\ (-2048 # 1 <= q)%Q /\ (q < 2048 # 1)%Q
    /\ ((q < 0)%Q <-> 128 <= 0xFF)
    /\ _decode_temp 0x5C 0xFF DS18B20_RESOLUTION_10_BIT World_zero = (v, World_zero).
Proof.
  apply (decode_temp_quantised 0x5E 0xFF DS18B20_RESOLUTION_10_BIT World_zero).
  - reflexivity.
  - unfold is_uint8. lia.
  - unfold is_uint8. lia.
Defined.

(** ** Waiting on the simulated device with a punctual scheduler *)

(** With a scheduler that resumes the task at every tick, and a device
    that reads as busy [n] times after the conversion was started, the loop
    makes [min (n + 1) max_ticks] polls, one per tick. *)
Lemma poll_conversion_punctual (d : Sim) (n : nat) (start M : Z) :
  sim_busy_polls d = Some n -> 1 <= M < 2 ^ 32 ->
  forall (fuel : nat) (w : World),
    latency w = [] ->
    let d0 := to_uint32 (tick_count w - start) in
    let t := Z.min (Z.of_nat n) (M - 1) in
    let status := if t <? Z.of_nat n then 0 else 1 in
    Z.of_nat (st_polls (sim_state d (trace w))) = d0 ->
    d0 <= t ->
    (Z.to_nat (M - d0) <= fuel)%nat ->
    poll_conversion fuel (simulated_bus d) start M w =
    (Some (status, t + 1),
     {| trace := trace w ++ map EvReadBit (repeat 0 (Z.to_nat (t - d0)) ++ [status]);
        tick_count := to_uint32 (tick_count w + (t + 1 - d0));
        latency := []; log := log w |}).
Proof.
  intros Hn HM fuel.
  induction fuel as [| fuel IH]; intros w HL d0 t status Hj Hd Hf.
  - exfalso. subst t. lia.
  - cbn [poll_conversion]. unfold bind at 1. rewrite vTaskDelay_run.
    unfold bind at 1. rewrite owb_read_bit_run. cbn [trace snd].
    unfold bind at 1, xTaskGetTickCount at 1. cbn [extend tick_count].
    rewrite HL. cbn [tl].
    cbn [simulated_bus read_bit_reply snd]. rewrite Hn.
    assert (0 <= d0) as Hd0 by (apply Z.mod_pos_bound; lia).
    replace (tick_count w + 1 + 0) with (tick_count w + 1) by lia.
    rewrite tick_advance. fold d0.
    assert (to_uint32 (d0 + 1) = d0 + 1) as Ed.
    { unfold to_uint32. rewrite Z.mod_small; subst t; lia. }
    rewrite Ed.
    assert (to_uint32 M = M) as EM by (unfold to_uint32; rewrite Z.mod_small; lia).
    rewrite EM.
    set (j := st_polls (sim_state d (trace w))) in *.
    destruct (Z.eq_dec d0 t) as [Et | Nt].
    + assert ((if Nat.ltb j n then 0 else 1) = status) as Es.
      { subst status. rewrite <- Et, <- Hj.
        destruct (Nat.ltb j n) eqn:C;
          [apply Nat.ltb_lt in C | apply Nat.ltb_ge in C];
          destruct (Z.of_nat j <? Z.of_nat n) eqn:C';
          try reflexivity;
          [apply Z.ltb_ge in C' | apply Z.ltb_lt in C']; lia. }
      rewrite Es.
      assert (to_uint8 status = status) as ->
        by (subst status; destruct (t <? Z.of_nat n); reflexivity).
      assert (((status =? 0) && (d0 + 1 <? M)) = false) as ->.
      { subst status. destruct (t <? Z.of_nat n) eqn:C; [| reflexivity].
        apply Z.ltb_lt in C. cbn [Z.eqb andb]. apply Z.ltb_ge. subst t. lia. }
      unfold ret. rewrite Et, Z.sub_diag. cbn [Z.to_nat repeat app map].
      f_equal. unfold extend. cbn [trace tick_count latency log].
      rewrite app_nil_r. f_equal. f_equal. lia.
    + assert (d0 < t) as Lt by lia.
      assert (Nat.ltb j n = true) as Cj by (apply Nat.ltb_lt; subst t; lia).
      rewrite Cj. change (to_uint8 0) with 0. cbn [Z.eqb andb].
      assert ((d0 + 1 <? M) = true) as -> by (apply Z.ltb_lt; subst t; lia).
      set (w1 := extend _ _ _).
      assert (to_uint32 (tick_count w1 - start) = d0 + 1) as E1.
      { subst w1. cbn [extend tick_count]. rewrite tick_advance. fold d0. exact Ed. }
      assert (st_polls (sim_state d (trace w1)) = S j) as Ej.
      { subst w1. cbn [extend trace]. rewrite sim_state_app. reflexivity. }
      rewrite (IH w1).
      * rewrite E1. fold t. fold status.
        subst w1. cbn [extend trace tick_count latency log].
        f_equal. f_equal.
        -- rewrite <- app_assoc. f_equal.
           replace (Z.to_nat (t - d0)) with (S (Z.to_nat (t - (d0 + 1)))) by lia.
           reflexivity.
        -- unfold to_uint32. rewrite Zplus_mod_idemp_l. f_equal. lia.
        -- apply app_nil_r.
      * reflexivity.
      * rewrite E1, Ej. lia.
      * rewrite E1. fold t. lia.
      * rewrite E1. lia.
Qed.

(** X15: on a scheduler that resumes the task at every tick, with a device
    that reads as busy n times after the conversion was started,
    [_wait_for_conversion] polls once per tick, min (n + 1) max_ticks times
    in all, and returns exactly that many tick periods in milliseconds,
    whatever the tick counter was at the start (it may wrap around).  The
    warning is logged as soon as the number of polls reaches the bound: a
    device that signals completion at the very last poll is reported as
    timed out like one that never does. *)
Theorem wait_for_conversion_punctual (p : Z) (fuel : nat) (d : Sim) (n : nat)
    (i : DS18B20_Info) (w : World) :
  1 <= p <= 1000 -> _check_resolution (resolution i) = true ->
  bus i = simulated_bus d -> sim_busy_polls d = Some n ->
  st_polls (sim_state d (trace w)) = 0%nat -> latency w = [] ->
  let M := max_conversion_ticks p (resolution i) in
  (Z.to_nat M <= fuel)%nat ->
  let polls := Z.min (Z.of_nat n + 1) M in
  let last := if Z.of_nat n <? M then 1 else 0 in
  _wait_for_conversion p fuel i w =
  (Some (F32.of_Z (polls * p)),
   {| trace := trace w ++ map EvReadBit (repeat 0 (Z.to_nat (polls - 1)) ++ [last]);
      tick_count := to_uint32 (tick_count w + polls);
      latency := [];
      log := log w ++ (if polls <? M then [] else [(LOG_WARN, MsgTimedOut)]) |})
  /\ exists q, SF2Q (F32.of_Z (polls * p)) = Some q /\ (q == polls * p # 1)%Q.
Proof.
  intros Hp V Hb Hn Hj HL M Hf polls last.
  destruct (ticks_cover_bound_ok (resolution i) p V Hp) as (bound & _ & M1 & M2 & _).
  fold M in M1, M2.
  assert (M < 2 ^ 11) as HM by nia.
  assert (1 <= polls <= M) as Hpolls by (subst polls; lia).
  split.
  - unfold _wait_for_conversion. rewrite V. fold M.
    unfold bind at 1, xTaskGetTickCount at 1. unfold bind at 1. rewrite Hb.
    assert (to_uint32 (tick_count w - tick_count w) = 0) as E0
      by (rewrite Z.sub_diag; reflexivity).
    rewrite (poll_conversion_punctual d n (tick_count w) M Hn ltac:(lia) fuel w HL);
      rewrite ?E0, ?Hj; try reflexivity; try lia.
    replace (Z.min (Z.of_nat n) (M - 1) + 1) with polls by (subst polls; lia).
    replace (Z.min (Z.of_nat n) (M - 1)) with (polls - 1) by (subst polls; lia).
    assert ((if polls - 1 <? Z.of_nat n then 0 else 1) = last) as ->.
    { subst last polls.
      destruct (Z.of_nat n <? M) eqn:C;
        [apply Z.ltb_lt in C | apply Z.ltb_ge in C];
        destruct (Z.min (Z.of_nat n + 1) M - 1 <? Z.of_nat n) eqn:C';
        try reflexivity;
        [apply Z.ltb_lt in C' | apply Z.ltb_ge in C']; lia. }
    rewrite !Z.sub_0_r.
    assert (to_uint32 M = M) as -> by (unfold to_uint32; rewrite Z.mod_small; lia).
    assert (to_uint32 (polls * p) = polls * p) as ->
      by (unfold to_uint32; rewrite Z.mod_small; nia).
    replace (polls - 1 + 1) with polls by lia.
    destruct (M <=? polls) eqn:C; [apply Z.leb_le in C | apply Z.leb_gt in C].
    + assert ((polls <? M) = false) as -> by (apply Z.ltb_ge; lia).
      unfold bind, ESP_LOGW, ret. rewrite write_log_run.
      unfold extend. cbn [trace tick_count latency log fst snd].
      rewrite app_nil_r. reflexivity.
    + assert ((polls <? M) = true) as -> by (apply Z.ltb_lt; lia).
      unfold bind, ret. cbn [fst snd]. rewrite app_nil_r. reflexivity.
  - apply F32_of_Z_exact. change (2 ^ 24) with 16777216. nia.
Qed.

Lemma wait_for_conversion_punctual_witness :
  fst (_wait_for_conversion 10 100 (session_on example_device true false)
         (snd (ds18b20_convert (session_on example_device true false) World_zero)))
  = Some (F32.of_Z 40).
Proof.
  set (i := session_on example_device true false).
  pose proof (wait_for_conversion_punctual 10 100 example_device 3 i
                (snd (ds18b20_convert i World_zero))
                ltac:(lia) eq_refl eq_refl eq_refl eq_refl eq_refl) as H.
  cbn zeta in H.
  destruct H as [H _].
  - vm_compute. lia.
  - rewrite H. vm_compute. reflexivity.
Defined.

(** ** A whole measurement on the simulated device *)

Lemma read_bits_quiet (l : list Z) :
  forallb (fun e => negb (is_write_bytes e)) (map EvReadBit l) = true.
Proof. induction l as [| x l IH]; [reflexivity | exact IH]. Qed.

(** On the simulated bus, with the device present, the read of two bytes
    [ds18b20_read_temp] makes succeeds in either CRC mode and brings bytes 0
    and 1 of the device's memory, and it leaves that memory alone. *)
Lemma sim_read_temperature_run (d : Sim) (i : DS18B20_Info) (w : World) :
  bus i = simulated_bus d -> sim_present d = true -> init i = true ->
  length (sim_memory d) = 8%nat ->
  exists sp' evs,
    _read_scratchpad i (Some Scratchpad_zero) 2 w = ((DS18B20_OK, Some sp'), extend w evs [])
    /\ temperature_0 sp' = to_uint8 (nth 0 (st_memory (sim_state d (trace w))) 0)
    /\ temperature_1 sp' = to_uint8 (nth 1 (st_memory (sim_state d (trace w))) 0)
    /\ forallb (fun e => negb (is_write_bytes e)) evs = true.
Proof.
  intros Hb Hp Hi Hl.
  remember (st_memory (sim_state d (trace w))) as m eqn:Em.
  assert (length m = 8%nat) as Lm by (subst m; rewrite sim_state_length; exact Hl).
  assert (forall tail,
            forallb (fun e => negb (is_write_bytes e)) tail = true ->
            st_memory (sim_state d (trace w ++ EvReset true :: address_commands i ++ tail))
            = m) as Quiet.
  { intros tail Q. rewrite sim_state_app, sim_quiet_memory; [symmetry; exact Em |].
    cbn [forallb is_write_bytes negb andb].
    rewrite forallb_app, address_commands_quiet, Q. reflexivity. }
  destruct (use_crc i) eqn:C.
  - destruct (sim_scratchpad_ok m Lm) as (L9 & F9 & Z9).
    pose proof (read_scratchpad_crc_run i Scratchpad_zero 2 (sim_scratchpad m) w Hi C) as R.
    rewrite Hb in R.
    cbn [reset_presence write_byte_status read_bytes_reply simulated_bus] in R.
    rewrite (Quiet [EvWriteByte DS18B20_FUNCTION_SCRATCHPAD_READ] eq_refl) in R.
    rewrite firstn_all2 in R by (rewrite L9; cbn; lia).
    specialize (R Hp eq_refl eq_refl L9 F9).
    rewrite R, Z9. cbn [Z.eqb].
    eexists. eexists. split; [reflexivity |].
    destruct (list_length_8 m Lm) as (m0 & m1 & m2 & m3 & m4 & m5 & m6 & m7 & ->).
    split; [reflexivity |]. split; [reflexivity |].
    cbn [forallb is_write_bytes negb andb].
    rewrite forallb_app, address_commands_quiet. reflexivity.
  - destruct (list_length_8 m Lm) as (m0 & m1 & m2 & m3 & m4 & m5 & m6 & m7 & E8).
    pose proof (read_scratchpad_plain_run i Scratchpad_zero 2
                  (map to_uint8 [m0; m1]) w Hi C) as R.
    rewrite Hb in R.
    cbn [reset_presence write_byte_status read_bytes_reply simulated_bus] in R.
    rewrite (Quiet [EvWriteByte DS18B20_FUNCTION_SCRATCHPAD_READ] eq_refl) in R.
    rewrite E8 in R.
    specialize (R Hp eq_refl eq_refl ltac:(lia) eq_refl).
    rewrite R by (repeat constructor; apply to_uint8_range).
    eexists. eexists. split; [reflexivity |].
    rewrite E8.
    split; [reflexivity |]. split; [reflexivity |].
    cbn [forallb is_write_bytes negb andb].
    rewrite forallb_app, address_commands_quiet. reflexivity.
Qed.

(** X16: on a bus whose device is present, for an initialised session
    with a valid cached resolution, [ds18b20_convert_and_read_temp] returns
    DS18B20_OK, in either CRC mode and whether or not the wait timed out,
    and stores the decoding of bytes 0 and 1 of the device's memory at the
    cached resolution: a number, a sixteenth of the signed 16-bit integer of
    the masked bytes.  Nothing it sends changes the device's memory. *)
Theorem convert_and_read_temp_on_device (p : Z) (fuel : nat) (d : Sim)
    (i : DS18B20_Info) (x : spec_float) (w : World) :
  1 <= p <= 1000 ->
  bus i = simulated_bus d -> sim_present d = true ->
  length (sim_memory d) = 8%nat ->
  init i = true -> _check_resolution (resolution i) = true ->
  Forall (fun l => (max_conversion_ticks p (resolution i) + l) * p < 2 ^ 32)
         (latency w) ->
  (Z.to_nat (max_conversion_ticks p (resolution i)) <= fuel)%nat ->
  let m := st_memory (sim_state d (trace w)) in
  let lsb := to_uint8 (nth 0 m 0) in
  let msb := to_uint8 (nth 1 m 0) in
  exists (v : spec_float) (q : Q) (w' : World),
    ds18b20_convert_and_read_temp p fuel i (Some x) w = (Some (DS18B20_OK, Some v), w')
    /\ fst (_decode_temp lsb msb (resolution i) w) = v
    /\ SF2Q v = Some q
    /\ (q == spec_raw lsb msb (resolution i) # 16)%Q
    /\ st_memory (sim_state d (trace w')) = m.
Proof.
  intros Hp Hb Hpr Hl H V HL Hf m lsb msb.
  assert (reset_presence (bus i) (trace w) = true) as P by (rewrite Hb; exact Hpr).
  rewrite (convert_and_read_temp_run p fuel i (Some x) w H), P.
  rewrite (convert_run i w H), P. cbn [snd].
  set (w1 := extend w _ []).
  destruct (wait_for_conversion_returns p fuel i w1 Hp V HL Hf)
    as (n & status & elapsed & w2 & R & T & _).
  rewrite R.
  assert (st_memory (sim_state d (trace w2)) = m) as M2.
  { rewrite T. subst w1. cbn [extend trace].
    rewrite <- app_assoc. apply sim_quiet_state_memory.
    rewrite forallb_app, read_bits_quiet. cbn [forallb is_write_bytes negb andb].
    rewrite forallb_app, address_commands_quiet. reflexivity. }
  rewrite (read_temp_run i (Some (S754_zero false)) w2 H). cbn zeta.
  destruct (sim_read_temperature_run d i w2 Hb Hpr H Hl)
    as (sp' & evs & R2 & T0 & T1 & Q).
  rewrite R2. cbn [fst snd buffer_after]. rewrite T0, T1, M2. fold lsb msb.
  destruct (decode_exact lsb msb (resolution i) (extend w2 evs []) V
              (to_uint8_range _) (to_uint8_range _)) as (v & q & E & Eq & Hq).
  rewrite E. cbn [fst snd].
  exists v, q, (extend w2 evs []).
  split; [reflexivity |].
  split.
  { rewrite (decode_temp_valid _ _ _ _ V) in E.
    rewrite (decode_temp_valid _ _ _ _ V).
    cbn [fst]. congruence. }
  split; [exact Eq |]. split; [exact Hq |].
  cbn [extend trace]. rewrite (sim_quiet_state_memory d _ evs Q). exact M2.
Qed.

Lemma convert_and_read_temp_on_device_witness :
  exists (v : spec_float) (q : Q) (w' : World),
    ds18b20_convert_and_read_temp 10 100 (session_on example_device true false)
      (Some S754_nan) World_zero = (Some (DS18B20_OK, Some v), w')
    /\ SF2Q v = Some q.
Proof.
  destruct (convert_and_read_temp_on_device 10 100 example_device
              (session_on example_device true false) S754_nan World_zero
              ltac:(lia) eq_refl eq_refl eq_refl eq_refl eq_refl)
    as (v & q & w' & R & _ & Eq & _).
  - constructor.
  - vm_compute. lia.
  - exists v, q, w'. split; [exact R | exact Eq].
Defined.
